(** * RFEst GLM: a shallow embedding of [rfest/GLM/_glm.py]

    The development follows the Python class [GLM] method by method.
    Python objects become records, dictionaries become insertion-ordered
    association lists, exceptions become values of an error monad, and
    float64 numbers become rationals extended with the IEEE special
    values.  Rounding, signed zeros and JAX's NaN trap are outside the
    model, and a call that raises is represented by its exception alone
    (the partly updated object it leaves behind is not tracked).  The
    numerical kernels that come from other packages (design
    matrix and spline builders, the least-squares solver, the adaptive
    optimiser, the PRNG, the transcendental functions, the metrics) are
    the fields of one [backend] record that every method takes. *)

From Stdlib Require Import String Ascii List ZArith QArith Bool Arith Lia.
From Stdlib Require Import Qabs DecimalString Lqa.
Import ListNotations.

Local Open Scope string_scope.
Local Open Scope list_scope.
Local Open Scope nat_scope.

Set Implicit Arguments.

(** ** Exceptions and the error monad *)

Inductive exn : Type :=
| KeyError (key : string)
| ValueError (msg : string)
| NotImplementedError (msg : string)
| AttributeError (attr : string)
| IndexError
| TypeError (msg : string)
| UnboundLocalError (name : string).

Inductive outcome (A : Type) : Type :=
| Ret (a : A)
| Raise (e : exn).

Arguments Ret {A} a.
Arguments Raise {A} e.

Definition bind {A B : Type} (c : outcome A) (k : A -> outcome B) : outcome B :=
  match c with
  | Ret a => k a
  | Raise e => Raise e
  end.

Declare Scope py_scope.
Delimit Scope py_scope with py.
Notation "x <- c ;; k" := (bind c (fun x => k))
  (at level 61, c at next level, right associativity) : py_scope.
Notation "' p <- c ;; k" := (bind c (fun p => k))
  (at level 61, p pattern, c at next level, right associativity) : py_scope.
Local Open Scope py_scope.

Definition raises {A : Type} (c : outcome A) : Prop :=
  exists e, c = Raise e.

Definition from_option {A : Type} (e : exn) (o : option A) : outcome A :=
  match o with
  | Some a => Ret a
  | None => Raise e
  end.

(** Monadic left fold: a Python [for] loop whose body may raise. *)
Fixpoint foldM {A S : Type} (body : S -> A -> outcome S) (l : list A) (s : S)
  : outcome S :=
  match l with
  | [] => Ret s
  | a :: t => s' <- body s a ;; foldM body t s'
  end.

Fixpoint mapM {A B : Type} (f : A -> outcome B) (l : list A) : outcome (list B) :=
  match l with
  | [] => Ret []
  | a :: t => b <- f a ;; bs <- mapM f t ;; Ret (b :: bs)
  end.

(** [enumerate(l)] starting from [k]. *)
Fixpoint enumerate_from {A : Type} (k : nat) (l : list A) : list (nat * A) :=
  match l with
  | [] => []
  | a :: t => (k, a) :: enumerate_from (S k) t
  end.

Definition enumerate {A : Type} (l : list A) : list (nat * A) := enumerate_from 0 l.

(** ** float64 scalars *)

Inductive fnum : Type :=
| Fin (q : Q)
| PInf
| NInf
| NaN.

Definition Qltb (a b : Q) : bool := negb (Qle_bool b a).

Definition f0 : fnum := Fin 0%Q.
Definition f1 : fnum := Fin 1%Q.
Definition of_nat (n : nat) : fnum := Fin (inject_Z (Z.of_nat n)).

Definition isnan (x : fnum) : bool :=
  match x with NaN => true | _ => false end.

Definition isinf (x : fnum) : bool :=
  match x with PInf | NInf => true | _ => false end.

Definition fneg (x : fnum) : fnum :=
  match x with
  | Fin q => Fin (- q)%Q
  | PInf => NInf
  | NInf => PInf
  | NaN => NaN
  end.

Definition fadd (x y : fnum) : fnum :=
  match x, y with
  | NaN, _ | _, NaN => NaN
  | PInf, NInf | NInf, PInf => NaN
  | PInf, _ | _, PInf => PInf
  | NInf, _ | _, NInf => NInf
  | Fin a, Fin b => Fin (a + b)%Q
  end.

Definition fsub (x y : fnum) : fnum := fadd x (fneg y).

(** Sign of a scalar: [Gt] positive, [Lt] negative, [Eq] zero. *)
Definition fsign (x : fnum) : option comparison :=
  match x with
  | Fin q => Some (Qcompare q 0%Q)
  | PInf => Some Gt
  | NInf => Some Lt
  | NaN => None
  end.

Definition signed_inf (s1 s2 : comparison) : fnum :=
  match s1, s2 with
  | Eq, _ | _, Eq => NaN
  | Gt, Gt | Lt, Lt => PInf
  | _, _ => NInf
  end.

Definition fmul (x y : fnum) : fnum :=
  match x, y with
  | Fin a, Fin b => Fin (a * b)%Q
  | _, _ =>
      match fsign x, fsign y with
      | Some s1, Some s2 => signed_inf s1 s2
      | _, _ => NaN
      end
  end.

Definition fdiv (x y : fnum) : fnum :=
  match x, y with
  | NaN, _ | _, NaN => NaN
  | Fin a, Fin b =>
      match Qcompare b 0%Q with
      | Eq => match Qcompare a 0%Q with Eq => NaN | Gt => PInf | Lt => NInf end
      | _ => Fin (a / b)%Q
      end
  | Fin _, _ => f0
  | PInf, Fin b => match Qcompare b 0%Q with Lt => NInf | _ => PInf end
  | NInf, Fin b => match Qcompare b 0%Q with Lt => PInf | _ => NInf end
  | _, _ => NaN
  end.

Definition fabs (x : fnum) : fnum :=
  match x with
  | Fin q => Fin (Qabs q)
  | PInf | NInf => PInf
  | NaN => NaN
  end.

(** Comparisons: every comparison with [NaN] is false, except [!=]. *)
Definition fltb (x y : fnum) : bool :=
  match x, y with
  | NaN, _ | _, NaN => false
  | Fin a, Fin b => Qltb a b
  | NInf, Fin _ | NInf, PInf | Fin _, PInf => true
  | _, _ => false
  end.

Definition fleb (x y : fnum) : bool :=
  match x, y with
  | NaN, _ | _, NaN => false
  | Fin a, Fin b => Qle_bool a b
  | NInf, _ | _, PInf => true
  | _, _ => false
  end.

Definition fgtb (x y : fnum) : bool := fltb y x.
Definition fgeb (x y : fnum) : bool := fleb y x.

Definition feqb (x y : fnum) : bool :=
  match x, y with
  | Fin a, Fin b => Qeq_bool a b
  | PInf, PInf | NInf, NInf => true
  | _, _ => false
  end.

Definition fneb (x y : fnum) : bool := negb (feqb x y).

(** [jnp.maximum]: propagates NaN. *)
Definition fmaximum (x y : fnum) : fnum :=
  match x, y with
  | NaN, _ | _, NaN => NaN
  | _, _ => if fltb x y then y else x
  end.

(** Literals of the source. *)
Definition c_1e_5 : fnum := Fin (1 # 100000).
Definition c_1e_7 : fnum := Fin (1 # 10000000).
Definition c_1e_20 : fnum := Fin (1 # 100000000000000000000).
Definition c_half : fnum := Fin (1 # 2).
Definition c_001 : fnum := Fin (1 # 100).
Definition c_2 : fnum := Fin 2%Q.

(** ** Vectors and matrices *)

Definition vec : Type := list fnum.

(** A 2-D array: its column count is kept beside the rows, so that
    [shape[1]] is known for an array without rows. *)
Record matrix : Type := mkMat { ncols : nat; rows : list (list fnum) }.

Definition nrows (M : matrix) : nat := length (rows M).

Definition vsum (v : vec) : fnum := fold_left fadd v f0.

Fixpoint zip_with {A B C : Type} (f : A -> B -> C) (l : list A) (l' : list B) : list C :=
  match l, l' with
  | a :: t, b :: t' => f a b :: zip_with f t t'
  | _, _ => []
  end.

Definition shape_error : exn := TypeError "incompatible shapes".

(** Elementwise binary operation on 1-D arrays, with the broadcasting
    rule of numpy for one-element operands. *)
Definition vbinop (f : fnum -> fnum -> fnum) (u v : vec) : outcome vec :=
  if length u =? length v then Ret (zip_with f u v)
  else match u, v with
       | [a], _ => Ret (map (f a) v)
       | _, [b] => Ret (map (fun x => f x b) u)
       | _, _ => Raise shape_error
       end.

Definition vdot (u v : vec) : outcome fnum :=
  if length u =? length v then Ret (vsum (zip_with fmul u v))
  else Raise shape_error.

(** [v[:, jnp.newaxis]] *)
Definition column (v : vec) : matrix := mkMat 1 (map (fun x => [x]) v).

(** [M.flatten()] *)
Definition flatten (M : matrix) : vec := concat (rows M).

(** [jnp.ones(n)[:, jnp.newaxis]] *)
Definition ones_column (n : nat) : matrix := column (repeat f1 n).

Definition nth_col (j : nat) (M : matrix) : vec :=
  map (fun r => nth j r f0) (rows M).

Definition transpose (M : matrix) : matrix :=
  mkMat (nrows M) (map (fun j => nth_col j M) (seq 0 (ncols M))).

(** [A @ B] for 2-D operands. *)
Definition matmul (A B : matrix) : outcome matrix :=
  if ncols A =? nrows B
  then Ret (mkMat (ncols B)
              (map (fun r => map (fun j => vsum (zip_with fmul r (nth_col j B)))
                                 (seq 0 (ncols B))) (rows A)))
  else Raise shape_error.

(** [A @ v] for a 1-D right operand. *)
Definition matvec (A : matrix) (v : vec) : outcome vec :=
  if ncols A =? length v
  then Ret (map (fun r => vsum (zip_with fmul r v)) (rows A))
  else Raise shape_error.

Definition madd (A B : matrix) : outcome matrix :=
  if (ncols A =? ncols B) && (nrows A =? nrows B)
  then Ret (mkMat (ncols A) (zip_with (zip_with fadd) (rows A) (rows B)))
  else Raise shape_error.

Definition mscale (c : fnum) (A : matrix) : matrix :=
  mkMat (ncols A) (map (map (fmul c)) (rows A)).

(** [jnp.hstack([A, B])] *)
Definition hstack2 (A B : matrix) : outcome matrix :=
  if nrows A =? nrows B
  then Ret (mkMat (ncols A + ncols B) (zip_with (@app fnum) (rows A) (rows B)))
  else Raise (ValueError "hstack: row counts differ").

(** [jnp.hstack(Ms)] for a Python list of 2-D arrays. *)
Definition hstack (Ms : list matrix) : outcome matrix :=
  match Ms with
  | [] => Raise (ValueError "need at least one array to concatenate")
  | M :: t => foldM hstack2 t M
  end.

Definition all_zero (M : matrix) : bool :=
  forallb (forallb (fun x => feqb x f0)) (rows M).

(** ** Python slices and indices *)

(** Bound of a slice after Python's normalisation, for a sequence of
    length [len]. *)
Definition norm_index (len : nat) (k : Z) : nat :=
  if (k <? 0)%Z then Z.to_nat (Z.max 0 (k + Z.of_nat len))
  else Nat.min (Z.to_nat k) len.

(** [l[start:stop]] *)
Definition py_slice {A : Type} (l : list A) (start stop : Z) : list A :=
  skipn (norm_index (length l) start) (firstn (norm_index (length l) stop) l).

(** [l[start:]] *)
Definition py_slice_from {A : Type} (l : list A) (start : Z) : list A :=
  skipn (norm_index (length l) start) l.

(** [l[:stop]] *)
Definition py_slice_to {A : Type} (l : list A) (stop : Z) : list A :=
  firstn (norm_index (length l) stop) l.

(** [l[k]], where a negative [k] counts from the end. *)
Definition py_index {A : Type} (l : list A) (k : Z) : outcome A :=
  let k' := if (k <? 0)%Z then (k + Z.of_nat (length l))%Z else k in
  if (k' <? 0)%Z then Raise IndexError
  else from_option IndexError (nth_error l (Z.to_nat k')).

(** [M[start:]] on the rows of a 2-D array. *)
Definition rows_from (M : matrix) (start : Z) : matrix :=
  mkMat (ncols M) (py_slice_from (rows M) start).

(** [a[i] = v] on a preallocated array. *)
Fixpoint assign {A : Type} (l : list A) (i : nat) (v : A) : list A :=
  match l, i with
  | [], _ => []
  | _ :: t, O => v :: t
  | a :: t, S i' => a :: assign t i' v
  end.

(** ** numpy reductions used by the optimiser *)

(** [np.diff] *)
Fixpoint np_diff (l : list fnum) : list fnum :=
  match l with
  | a :: (b :: _) as t => fsub b a :: np_diff t
  | _ => []
  end.

(** [np.argmin] on a float array: the first NaN if there is one,
    otherwise the first position of the least element. *)
Fixpoint argmin_scan (mp : fnum) (idx k : nat) (l : list fnum) : nat :=
  match l with
  | [] => idx
  | x :: t =>
      if negb (fgeb x mp)
      then if isnan x then k else argmin_scan x k (S k) t
      else argmin_scan mp idx (S k) t
  end.

Definition np_argmin (l : list fnum) : outcome nat :=
  match l with
  | [] => Raise (ValueError "attempt to get argmin of an empty sequence")
  | x :: t => Ret (if isnan x then 0 else argmin_scan x 0 1 t)
  end.

Fixpoint argmax_scan (mp : fnum) (idx k : nat) (l : list fnum) : nat :=
  match l with
  | [] => idx
  | x :: t =>
      if negb (fleb x mp)
      then if isnan x then k else argmax_scan x k (S k) t
      else argmax_scan mp idx (S k) t
  end.

Definition np_argmax (l : list fnum) : outcome nat :=
  match l with
  | [] => Raise (ValueError "attempt to get argmax of an empty sequence")
  | x :: t => Ret (if isnan x then 0 else argmax_scan x 0 1 t)
  end.

(** ** Dictionaries

    A Python [dict] keeps its keys in insertion order; assigning to an
    existing key keeps the key's position. *)

Definition dict (V : Type) : Type := list (string * V).

Module Dict.
Section Ops.
Variable V : Type.

Fixpoint get (k : string) (d : dict V) : option V :=
  match d with
  | [] => None
  | (k', v) :: t => if String.eqb k k' then Some v else get k t
  end.

Definition mem (k : string) (d : dict V) : bool :=
  match get k d with Some _ => true | None => false end.

Fixpoint set (k : string) (v : V) (d : dict V) : dict V :=
  match d with
  | [] => [(k, v)]
  | (k', v') :: t =>
      if String.eqb k k' then (k, v) :: t else (k', v') :: set k v t
  end.

Fixpoint remove (k : string) (d : dict V) : dict V :=
  match d with
  | [] => []
  | (k', v') :: t =>
      if String.eqb k k' then t else (k', v') :: remove k t
  end.

Definition keys (d : dict V) : list string := map fst d.

(** [d[k]] *)
Definition item (k : string) (d : dict V) : outcome V :=
  from_option (KeyError k) (get k d).

(** [d.pop(k)], the popped value dropped. *)
Definition pop (k : string) (d : dict V) : outcome (dict V) :=
  if mem k d then Ret (remove k d) else Raise (KeyError k).
End Ops.
End Dict.

Arguments Dict.get {V} k d.
Arguments Dict.mem {V} k d.
Arguments Dict.set {V} k v d.
Arguments Dict.remove {V} k d.
Arguments Dict.keys {V} d.
Arguments Dict.item {V} k d.
Arguments Dict.pop {V} k d.

(** [d[k1][k2]] and [d[k1][k2] = v] on a dictionary of dictionaries. *)
Definition item2 {V : Type} (k1 k2 : string) (d : dict (dict V)) : outcome V :=
  inner <- Dict.item k1 d ;; Dict.item k2 inner.

Definition set2 {V : Type} (k1 k2 : string) (v : V) (d : dict (dict V))
  : outcome (dict (dict V)) :=
  inner <- Dict.item k1 d ;; Ret (Dict.set k1 (Dict.set k2 v inner) d).

(** [d[k1].pop(k2)] *)
Definition pop2 {V : Type} (k1 k2 : string) (d : dict (dict V))
  : outcome (dict (dict V)) :=
  inner <- Dict.item k1 d ;;
  inner' <- Dict.pop k2 inner ;;
  Ret (Dict.set k1 inner' d).

(** [if k not in d: d.update({k: {}})] *)
Definition ensure {V : Type} (k : string) (d : dict (dict V)) : dict (dict V) :=
  if Dict.mem k d then d else Dict.set k [] d.

(** ** String helpers *)

(** [needle in hay] on strings. *)
Fixpoint contains (needle hay : string) : bool :=
  if String.prefix needle hay then true
  else match hay with
       | EmptyString => false
       | String _ t => contains needle t
       end.

(** [str(i)] for a non-negative integer. *)
Definition str_of_nat (i : nat) : string := NilEmpty.string_of_uint (Nat.to_uint i).

(** [l.remove(x)]: drops the first occurrence, [ValueError] without one. *)
Fixpoint list_remove (x : string) (l : list string) : outcome (list string) :=
  match l with
  | [] => Raise (ValueError "list.remove(x): x not in list")
  | a :: t => if String.eqb x a then Ret t
              else t' <- list_remove x t ;; Ret (a :: t')
  end.

(** ** The model object *)

(** A parameter set [p]: filter name to coefficient array, and the key
    ['intercept'] to the dictionary of intercepts. *)
Inductive pval : Type :=
| PArr (a : matrix)
| PIntercepts (d : dict fnum).

Definition params : Type := dict pval.

(** State of a [GLM] instance.  A dictionary attribute is a [dict]; an
    attribute that [__init__] does not create is an [option] ([None]
    while the object has no such attribute).  Attributes that no method
    reads back ([XtX], [Xty], [scores], [dtype], [has_burn_in], [idx],
    [dt], [init_method], [total_time_elapsed]) are left out. *)
Record glm : Type := mkGLM {
  self_X : dict (dict matrix);  (* design matrices, per split and filter *)
  self_S : dict matrix;  (* spline basis per filter *)
  self_P : dict matrix;  (* penalty matrix per filter *)
  self_XS : dict (dict matrix);  (* projected design matrices *)
  self_y : dict vec;  (* response per split *)
  self_y_pred : dict (dict vec);  (* predicted response *)
  self_y_pred_upper : dict (dict vec);
  self_y_pred_lower : dict (dict vec);
  self_p : dict params;  (* all model parameters, per weight type *)
  self_b : dict (dict matrix);  (* spline weights *)
  self_b_se : dict (dict vec);
  self_w : dict (dict matrix);  (* filter weights *)
  self_w_se : dict (dict vec);
  self_V : dict (dict matrix);  (* weights covariance *)
  self_intercept : dict (dict fnum);
  self_df : dict (option (list Z));  (* number of bases per filter *)
  self_edf : dict fnum;  (* effective degrees of freedom *)
  self_dims : dict (option (list Z));  (* filter shapes *)
  self_n_features : dict nat;
  self_filter_names : list string;
  self_shift : dict Z;
  self_filter_nonlinearity : dict string;
  self_output_nonlinearity : string;
  self_distr : string;
  self_mle_computed : bool;
  self_lam : dict (list fnum);
  self_burn_in : option Z;
  self_num_subunits : option Z;
  self_compute_ci : option bool;
  self_p0 : option params;
  self_alpha : option fnum;
  self_beta : option fnum;
  self_metric : option string;
  self_edf_tot : option fnum;
  self_cost_train : list fnum;
  self_cost_dev : list fnum;
  self_metric_train : list fnum;
  self_metric_dev : list fnum;
  self_metric_dev_opt : option fnum;
  self_all_params : list params
}.

(** Attribute assignment [self.f = v], one function per attribute. *)

Definition set_X (v : dict (dict matrix)) (m : glm) : glm :=
  mkGLM v (self_S m) (self_P m) (self_XS m) (self_y m) (self_y_pred m)
    (self_y_pred_upper m) (self_y_pred_lower m) (self_p m) (self_b m)
    (self_b_se m) (self_w m) (self_w_se m) (self_V m) (self_intercept m)
    (self_df m) (self_edf m) (self_dims m) (self_n_features m)
    (self_filter_names m) (self_shift m) (self_filter_nonlinearity m)
    (self_output_nonlinearity m) (self_distr m) (self_mle_computed m)
    (self_lam m) (self_burn_in m) (self_num_subunits m) (self_compute_ci m)
    (self_p0 m) (self_alpha m) (self_beta m) (self_metric m) (self_edf_tot m)
    (self_cost_train m) (self_cost_dev m) (self_metric_train m)
    (self_metric_dev m) (self_metric_dev_opt m) (self_all_params m).

Definition set_S (v : dict matrix) (m : glm) : glm :=
  mkGLM (self_X m) v (self_P m) (self_XS m) (self_y m) (self_y_pred m)
    (self_y_pred_upper m) (self_y_pred_lower m) (self_p m) (self_b m)
    (self_b_se m) (self_w m) (self_w_se m) (self_V m) (self_intercept m)
    (self_df m) (self_edf m) (self_dims m) (self_n_features m)
    (self_filter_names m) (self_shift m) (self_filter_nonlinearity m)
    (self_output_nonlinearity m) (self_distr m) (self_mle_computed m)
    (self_lam m) (self_burn_in m) (self_num_subunits m) (self_compute_ci m)
    (self_p0 m) (self_alpha m) (self_beta m) (self_metric m) (self_edf_tot m)
    (self_cost_train m) (self_cost_dev m) (self_metric_train m)
    (self_metric_dev m) (self_metric_dev_opt m) (self_all_params m).

Definition set_P (v : dict matrix) (m : glm) : glm :=
  mkGLM (self_X m) (self_S m) v (self_XS m) (self_y m) (self_y_pred m)
    (self_y_pred_upper m) (self_y_pred_lower m) (self_p m) (self_b m)
    (self_b_se m) (self_w m) (self_w_se m) (self_V m) (self_intercept m)
    (self_df m) (self_edf m) (self_dims m) (self_n_features m)
    (self_filter_names m) (self_shift m) (self_filter_nonlinearity m)
    (self_output_nonlinearity m) (self_distr m) (self_mle_computed m)
    (self_lam m) (self_burn_in m) (self_num_subunits m) (self_compute_ci m)
    (self_p0 m) (self_alpha m) (self_beta m) (self_metric m) (self_edf_tot m)
    (self_cost_train m) (self_cost_dev m) (self_metric_train m)
    (self_metric_dev m) (self_metric_dev_opt m) (self_all_params m).

Definition set_XS (v : dict (dict matrix)) (m : glm) : glm :=
  mkGLM (self_X m) (self_S m) (self_P m) v (self_y m) (self_y_pred m)
    (self_y_pred_upper m) (self_y_pred_lower m) (self_p m) (self_b m)
    (self_b_se m) (self_w m) (self_w_se m) (self_V m) (self_intercept m)
    (self_df m) (self_edf m) (self_dims m) (self_n_features m)
    (self_filter_names m) (self_shift m) (self_filter_nonlinearity m)
    (self_output_nonlinearity m) (self_distr m) (self_mle_computed m)
    (self_lam m) (self_burn_in m) (self_num_subunits m) (self_compute_ci m)
    (self_p0 m) (self_alpha m) (self_beta m) (self_metric m) (self_edf_tot m)
    (self_cost_train m) (self_cost_dev m) (self_metric_train m)
    (self_metric_dev m) (self_metric_dev_opt m) (self_all_params m).

Definition set_y (v : dict vec) (m : glm) : glm :=
  mkGLM (self_X m) (self_S m) (self_P m) (self_XS m) v (self_y_pred m)
    (self_y_pred_upper m) (self_y_pred_lower m) (self_p m) (self_b m)
    (self_b_se m) (self_w m) (self_w_se m) (self_V m) (self_intercept m)
    (self_df m) (self_edf m) (self_dims m) (self_n_features m)
    (self_filter_names m) (self_shift m) (self_filter_nonlinearity m)
    (self_output_nonlinearity m) (self_distr m) (self_mle_computed m)
    (self_lam m) (self_burn_in m) (self_num_subunits m) (self_compute_ci m)
    (self_p0 m) (self_alpha m) (self_beta m) (self_metric m) (self_edf_tot m)
    (self_cost_train m) (self_cost_dev m) (self_metric_train m)
    (self_metric_dev m) (self_metric_dev_opt m) (self_all_params m).

Definition set_y_pred (v : dict (dict vec)) (m : glm) : glm :=
  mkGLM (self_X m) (self_S m) (self_P m) (self_XS m) (self_y m) v
    (self_y_pred_upper m) (self_y_pred_lower m) (self_p m) (self_b m)
    (self_b_se m) (self_w m) (self_w_se m) (self_V m) (self_intercept m)
    (self_df m) (self_edf m) (self_dims m) (self_n_features m)
    (self_filter_names m) (self_shift m) (self_filter_nonlinearity m)
    (self_output_nonlinearity m) (self_distr m) (self_mle_computed m)
    (self_lam m) (self_burn_in m) (self_num_subunits m) (self_compute_ci m)
    (self_p0 m) (self_alpha m) (self_beta m) (self_metric m) (self_edf_tot m)
    (self_cost_train m) (self_cost_dev m) (self_metric_train m)
    (self_metric_dev m) (self_metric_dev_opt m) (self_all_params m).

Definition set_y_pred_upper (v : dict (dict vec)) (m : glm) : glm :=
  mkGLM (self_X m) (self_S m) (self_P m) (self_XS m) (self_y m)
    (self_y_pred m) v (self_y_pred_lower m) (self_p m) (self_b m)
    (self_b_se m) (self_w m) (self_w_se m) (self_V m) (self_intercept m)
    (self_df m) (self_edf m) (self_dims m) (self_n_features m)
    (self_filter_names m) (self_shift m) (self_filter_nonlinearity m)
    (self_output_nonlinearity m) (self_distr m) (self_mle_computed m)
    (self_lam m) (self_burn_in m) (self_num_subunits m) (self_compute_ci m)
    (self_p0 m) (self_alpha m) (self_beta m) (self_metric m) (self_edf_tot m)
    (self_cost_train m) (self_cost_dev m) (self_metric_train m)
    (self_metric_dev m) (self_metric_dev_opt m) (self_all_params m).

Definition set_y_pred_lower (v : dict (dict vec)) (m : glm) : glm :=
  mkGLM (self_X m) (self_S m) (self_P m) (self_XS m) (self_y m)
    (self_y_pred m) (self_y_pred_upper m) v (self_p m) (self_b m)
    (self_b_se m) (self_w m) (self_w_se m) (self_V m) (self_intercept m)
    (self_df m) (self_edf m) (self_dims m) (self_n_features m)
    (self_filter_names m) (self_shift m) (self_filter_nonlinearity m)
    (self_output_nonlinearity m) (self_distr m) (self_mle_computed m)
    (self_lam m) (self_burn_in m) (self_num_subunits m) (self_compute_ci m)
    (self_p0 m) (self_alpha m) (self_beta m) (self_metric m) (self_edf_tot m)
    (self_cost_train m) (self_cost_dev m) (self_metric_train m)
    (self_metric_dev m) (self_metric_dev_opt m) (self_all_params m).

Definition set_p (v : dict params) (m : glm) : glm :=
  mkGLM (self_X m) (self_S m) (self_P m) (self_XS m) (self_y m)
    (self_y_pred m) (self_y_pred_upper m) (self_y_pred_lower m) v (self_b m)
    (self_b_se m) (self_w m) (self_w_se m) (self_V m) (self_intercept m)
    (self_df m) (self_edf m) (self_dims m) (self_n_features m)
    (self_filter_names m) (self_shift m) (self_filter_nonlinearity m)
    (self_output_nonlinearity m) (self_distr m) (self_mle_computed m)
    (self_lam m) (self_burn_in m) (self_num_subunits m) (self_compute_ci m)
    (self_p0 m) (self_alpha m) (self_beta m) (self_metric m) (self_edf_tot m)
    (self_cost_train m) (self_cost_dev m) (self_metric_train m)
    (self_metric_dev m) (self_metric_dev_opt m) (self_all_params m).

Definition set_b (v : dict (dict matrix)) (m : glm) : glm :=
  mkGLM (self_X m) (self_S m) (self_P m) (self_XS m) (self_y m)
    (self_y_pred m) (self_y_pred_upper m) (self_y_pred_lower m) (self_p m) v
    (self_b_se m) (self_w m) (self_w_se m) (self_V m) (self_intercept m)
    (self_df m) (self_edf m) (self_dims m) (self_n_features m)
    (self_filter_names m) (self_shift m) (self_filter_nonlinearity m)
    (self_output_nonlinearity m) (self_distr m) (self_mle_computed m)
    (self_lam m) (self_burn_in m) (self_num_subunits m) (self_compute_ci m)
    (self_p0 m) (self_alpha m) (self_beta m) (self_metric m) (self_edf_tot m)
    (self_cost_train m) (self_cost_dev m) (self_metric_train m)
    (self_metric_dev m) (self_metric_dev_opt m) (self_all_params m).

Definition set_b_se (v : dict (dict vec)) (m : glm) : glm :=
  mkGLM (self_X m) (self_S m) (self_P m) (self_XS m) (self_y m)
    (self_y_pred m) (self_y_pred_upper m) (self_y_pred_lower m) (self_p m)
    (self_b m) v (self_w m) (self_w_se m) (self_V m) (self_intercept m)
    (self_df m) (self_edf m) (self_dims m) (self_n_features m)
    (self_filter_names m) (self_shift m) (self_filter_nonlinearity m)
    (self_output_nonlinearity m) (self_distr m) (self_mle_computed m)
    (self_lam m) (self_burn_in m) (self_num_subunits m) (self_compute_ci m)
    (self_p0 m) (self_alpha m) (self_beta m) (self_metric m) (self_edf_tot m)
    (self_cost_train m) (self_cost_dev m) (self_metric_train m)
    (self_metric_dev m) (self_metric_dev_opt m) (self_all_params m).

Definition set_w (v : dict (dict matrix)) (m : glm) : glm :=
  mkGLM (self_X m) (self_S m) (self_P m) (self_XS m) (self_y m)
    (self_y_pred m) (self_y_pred_upper m) (self_y_pred_lower m) (self_p m)
    (self_b m) (self_b_se m) v (self_w_se m) (self_V m) (self_intercept m)
    (self_df m) (self_edf m) (self_dims m) (self_n_features m)
    (self_filter_names m) (self_shift m) (self_filter_nonlinearity m)
    (self_output_nonlinearity m) (self_distr m) (self_mle_computed m)
    (self_lam m) (self_burn_in m) (self_num_subunits m) (self_compute_ci m)
    (self_p0 m) (self_alpha m) (self_beta m) (self_metric m) (self_edf_tot m)
    (self_cost_train m) (self_cost_dev m) (self_metric_train m)
    (self_metric_dev m) (self_metric_dev_opt m) (self_all_params m).

Definition set_w_se (v : dict (dict vec)) (m : glm) : glm :=
  mkGLM (self_X m) (self_S m) (self_P m) (self_XS m) (self_y m)
    (self_y_pred m) (self_y_pred_upper m) (self_y_pred_lower m) (self_p m)
    (self_b m) (self_b_se m) (self_w m) v (self_V m) (self_intercept m)
    (self_df m) (self_edf m) (self_dims m) (self_n_features m)
    (self_filter_names m) (self_shift m) (self_filter_nonlinearity m)
    (self_output_nonlinearity m) (self_distr m) (self_mle_computed m)
    (self_lam m) (self_burn_in m) (self_num_subunits m) (self_compute_ci m)
    (self_p0 m) (self_alpha m) (self_beta m) (self_metric m) (self_edf_tot m)
    (self_cost_train m) (self_cost_dev m) (self_metric_train m)
    (self_metric_dev m) (self_metric_dev_opt m) (self_all_params m).

Definition set_V (v : dict (dict matrix)) (m : glm) : glm :=
  mkGLM (self_X m) (self_S m) (self_P m) (self_XS m) (self_y m)
    (self_y_pred m) (self_y_pred_upper m) (self_y_pred_lower m) (self_p m)
    (self_b m) (self_b_se m) (self_w m) (self_w_se m) v (self_intercept m)
    (self_df m) (self_edf m) (self_dims m) (self_n_features m)
    (self_filter_names m) (self_shift m) (self_filter_nonlinearity m)
    (self_output_nonlinearity m) (self_distr m) (self_mle_computed m)
    (self_lam m) (self_burn_in m) (self_num_subunits m) (self_compute_ci m)
    (self_p0 m) (self_alpha m) (self_beta m) (self_metric m) (self_edf_tot m)
    (self_cost_train m) (self_cost_dev m) (self_metric_train m)
    (self_metric_dev m) (self_metric_dev_opt m) (self_all_params m).

Definition set_intercept (v : dict (dict fnum)) (m : glm) : glm :=
  mkGLM (self_X m) (self_S m) (self_P m) (self_XS m) (self_y m)
    (self_y_pred m) (self_y_pred_upper m) (self_y_pred_lower m) (self_p m)
    (self_b m) (self_b_se m) (self_w m) (self_w_se m) (self_V m) v
    (self_df m) (self_edf m) (self_dims m) (self_n_features m)
    (self_filter_names m) (self_shift m) (self_filter_nonlinearity m)
    (self_output_nonlinearity m) (self_distr m) (self_mle_computed m)
    (self_lam m) (self_burn_in m) (self_num_subunits m) (self_compute_ci m)
    (self_p0 m) (self_alpha m) (self_beta m) (self_metric m) (self_edf_tot m)
    (self_cost_train m) (self_cost_dev m) (self_metric_train m)
    (self_metric_dev m) (self_metric_dev_opt m) (self_all_params m).

Definition set_df (v : dict (option (list Z))) (m : glm) : glm :=
  mkGLM (self_X m) (self_S m) (self_P m) (self_XS m) (self_y m)
    (self_y_pred m) (self_y_pred_upper m) (self_y_pred_lower m) (self_p m)
    (self_b m) (self_b_se m) (self_w m) (self_w_se m) (self_V m)
    (self_intercept m) v (self_edf m) (self_dims m) (self_n_features m)
    (self_filter_names m) (self_shift m) (self_filter_nonlinearity m)
    (self_output_nonlinearity m) (self_distr m) (self_mle_computed m)
    (self_lam m) (self_burn_in m) (self_num_subunits m) (self_compute_ci m)
    (self_p0 m) (self_alpha m) (self_beta m) (self_metric m) (self_edf_tot m)
    (self_cost_train m) (self_cost_dev m) (self_metric_train m)
    (self_metric_dev m) (self_metric_dev_opt m) (self_all_params m).

Definition set_edf (v : dict fnum) (m : glm) : glm :=
  mkGLM (self_X m) (self_S m) (self_P m) (self_XS m) (self_y m)
    (self_y_pred m) (self_y_pred_upper m) (self_y_pred_lower m) (self_p m)
    (self_b m) (self_b_se m) (self_w m) (self_w_se m) (self_V m)
    (self_intercept m) (self_df m) v (self_dims m) (self_n_features m)
    (self_filter_names m) (self_shift m) (self_filter_nonlinearity m)
    (self_output_nonlinearity m) (self_distr m) (self_mle_computed m)
    (self_lam m) (self_burn_in m) (self_num_subunits m) (self_compute_ci m)
    (self_p0 m) (self_alpha m) (self_beta m) (self_metric m) (self_edf_tot m)
    (self_cost_train m) (self_cost_dev m) (self_metric_train m)
    (self_metric_dev m) (self_metric_dev_opt m) (self_all_params m).

Definition set_dims (v : dict (option (list Z))) (m : glm) : glm :=
  mkGLM (self_X m) (self_S m) (self_P m) (self_XS m) (self_y m)
    (self_y_pred m) (self_y_pred_upper m) (self_y_pred_lower m) (self_p m)
    (self_b m) (self_b_se m) (self_w m) (self_w_se m) (self_V m)
    (self_intercept m) (self_df m) (self_edf m) v (self_n_features m)
    (self_filter_names m) (self_shift m) (self_filter_nonlinearity m)
    (self_output_nonlinearity m) (self_distr m) (self_mle_computed m)
    (self_lam m) (self_burn_in m) (self_num_subunits m) (self_compute_ci m)
    (self_p0 m) (self_alpha m) (self_beta m) (self_metric m) (self_edf_tot m)
    (self_cost_train m) (self_cost_dev m) (self_metric_train m)
    (self_metric_dev m) (self_metric_dev_opt m) (self_all_params m).

Definition set_n_features (v : dict nat) (m : glm) : glm :=
  mkGLM (self_X m) (self_S m) (self_P m) (self_XS m) (self_y m)
    (self_y_pred m) (self_y_pred_upper m) (self_y_pred_lower m) (self_p m)
    (self_b m) (self_b_se m) (self_w m) (self_w_se m) (self_V m)
    (self_intercept m) (self_df m) (self_edf m) (self_dims m) v
    (self_filter_names m) (self_shift m) (self_filter_nonlinearity m)
    (self_output_nonlinearity m) (self_distr m) (self_mle_computed m)
    (self_lam m) (self_burn_in m) (self_num_subunits m) (self_compute_ci m)
    (self_p0 m) (self_alpha m) (self_beta m) (self_metric m) (self_edf_tot m)
    (self_cost_train m) (self_cost_dev m) (self_metric_train m)
    (self_metric_dev m) (self_metric_dev_opt m) (self_all_params m).

Definition set_filter_names (v : list string) (m : glm) : glm :=
  mkGLM (self_X m) (self_S m) (self_P m) (self_XS m) (self_y m)
    (self_y_pred m) (self_y_pred_upper m) (self_y_pred_lower m) (self_p m)
    (self_b m) (self_b_se m) (self_w m) (self_w_se m) (self_V m)
    (self_intercept m) (self_df m) (self_edf m) (self_dims m)
    (self_n_features m) v (self_shift m) (self_filter_nonlinearity m)
    (self_output_nonlinearity m) (self_distr m) (self_mle_computed m)
    (self_lam m) (self_burn_in m) (self_num_subunits m) (self_compute_ci m)
    (self_p0 m) (self_alpha m) (self_beta m) (self_metric m) (self_edf_tot m)
    (self_cost_train m) (self_cost_dev m) (self_metric_train m)
    (self_metric_dev m) (self_metric_dev_opt m) (self_all_params m).

Definition set_shift (v : dict Z) (m : glm) : glm :=
  mkGLM (self_X m) (self_S m) (self_P m) (self_XS m) (self_y m)
    (self_y_pred m) (self_y_pred_upper m) (self_y_pred_lower m) (self_p m)
    (self_b m) (self_b_se m) (self_w m) (self_w_se m) (self_V m)
    (self_intercept m) (self_df m) (self_edf m) (self_dims m)
    (self_n_features m) (self_filter_names m) v (self_filter_nonlinearity m)
    (self_output_nonlinearity m) (self_distr m) (self_mle_computed m)
    (self_lam m) (self_burn_in m) (self_num_subunits m) (self_compute_ci m)
    (self_p0 m) (self_alpha m) (self_beta m) (self_metric m) (self_edf_tot m)
    (self_cost_train m) (self_cost_dev m) (self_metric_train m)
    (self_metric_dev m) (self_metric_dev_opt m) (self_all_params m).

Definition set_filter_nonlinearity (v : dict string) (m : glm) : glm :=
  mkGLM (self_X m) (self_S m) (self_P m) (self_XS m) (self_y m)
    (self_y_pred m) (self_y_pred_upper m) (self_y_pred_lower m) (self_p m)
    (self_b m) (self_b_se m) (self_w m) (self_w_se m) (self_V m)
    (self_intercept m) (self_df m) (self_edf m) (self_dims m)
    (self_n_features m) (self_filter_names m) (self_shift m) v
    (self_output_nonlinearity m) (self_distr m) (self_mle_computed m)
    (self_lam m) (self_burn_in m) (self_num_subunits m) (self_compute_ci m)
    (self_p0 m) (self_alpha m) (self_beta m) (self_metric m) (self_edf_tot m)
    (self_cost_train m) (self_cost_dev m) (self_metric_train m)
    (self_metric_dev m) (self_metric_dev_opt m) (self_all_params m).

Definition set_mle_computed (v : bool) (m : glm) : glm :=
  mkGLM (self_X m) (self_S m) (self_P m) (self_XS m) (self_y m)
    (self_y_pred m) (self_y_pred_upper m) (self_y_pred_lower m) (self_p m)
    (self_b m) (self_b_se m) (self_w m) (self_w_se m) (self_V m)
    (self_intercept m) (self_df m) (self_edf m) (self_dims m)
    (self_n_features m) (self_filter_names m) (self_shift m)
    (self_filter_nonlinearity m) (self_output_nonlinearity m) (self_distr m)
    v (self_lam m) (self_burn_in m) (self_num_subunits m) (self_compute_ci m)
    (self_p0 m) (self_alpha m) (self_beta m) (self_metric m) (self_edf_tot m)
    (self_cost_train m) (self_cost_dev m) (self_metric_train m)
    (self_metric_dev m) (self_metric_dev_opt m) (self_all_params m).

Definition set_lam (v : dict (list fnum)) (m : glm) : glm :=
  mkGLM (self_X m) (self_S m) (self_P m) (self_XS m) (self_y m)
    (self_y_pred m) (self_y_pred_upper m) (self_y_pred_lower m) (self_p m)
    (self_b m) (self_b_se m) (self_w m) (self_w_se m) (self_V m)
    (self_intercept m) (self_df m) (self_edf m) (self_dims m)
    (self_n_features m) (self_filter_names m) (self_shift m)
    (self_filter_nonlinearity m) (self_output_nonlinearity m) (self_distr m)
    (self_mle_computed m) v (self_burn_in m) (self_num_subunits m)
    (self_compute_ci m) (self_p0 m) (self_alpha m) (self_beta m)
    (self_metric m) (self_edf_tot m) (self_cost_train m) (self_cost_dev m)
    (self_metric_train m) (self_metric_dev m) (self_metric_dev_opt m)
    (self_all_params m).

Definition set_burn_in (v : option Z) (m : glm) : glm :=
  mkGLM (self_X m) (self_S m) (self_P m) (self_XS m) (self_y m)
    (self_y_pred m) (self_y_pred_upper m) (self_y_pred_lower m) (self_p m)
    (self_b m) (self_b_se m) (self_w m) (self_w_se m) (self_V m)
    (self_intercept m) (self_df m) (self_edf m) (self_dims m)
    (self_n_features m) (self_filter_names m) (self_shift m)
    (self_filter_nonlinearity m) (self_output_nonlinearity m) (self_distr m)
    (self_mle_computed m) (self_lam m) v (self_num_subunits m)
    (self_compute_ci m) (self_p0 m) (self_alpha m) (self_beta m)
    (self_metric m) (self_edf_tot m) (self_cost_train m) (self_cost_dev m)
    (self_metric_train m) (self_metric_dev m) (self_metric_dev_opt m)
    (self_all_params m).

Definition set_num_subunits (v : option Z) (m : glm) : glm :=
  mkGLM (self_X m) (self_S m) (self_P m) (self_XS m) (self_y m)
    (self_y_pred m) (self_y_pred_upper m) (self_y_pred_lower m) (self_p m)
    (self_b m) (self_b_se m) (self_w m) (self_w_se m) (self_V m)
    (self_intercept m) (self_df m) (self_edf m) (self_dims m)
    (self_n_features m) (self_filter_names m) (self_shift m)
    (self_filter_nonlinearity m) (self_output_nonlinearity m) (self_distr m)
    (self_mle_computed m) (self_lam m) (self_burn_in m) v (self_compute_ci m)
    (self_p0 m) (self_alpha m) (self_beta m) (self_metric m) (self_edf_tot m)
    (self_cost_train m) (self_cost_dev m) (self_metric_train m)
    (self_metric_dev m) (self_metric_dev_opt m) (self_all_params m).

Definition set_compute_ci (v : option bool) (m : glm) : glm :=
  mkGLM (self_X m) (self_S m) (self_P m) (self_XS m) (self_y m)
    (self_y_pred m) (self_y_pred_upper m) (self_y_pred_lower m) (self_p m)
    (self_b m) (self_b_se m) (self_w m) (self_w_se m) (self_V m)
    (self_intercept m) (self_df m) (self_edf m) (self_dims m)
    (self_n_features m) (self_filter_names m) (self_shift m)
    (self_filter_nonlinearity m) (self_output_nonlinearity m) (self_distr m)
    (self_mle_computed m) (self_lam m) (self_burn_in m) (self_num_subunits m)
    v (self_p0 m) (self_alpha m) (self_beta m) (self_metric m)
    (self_edf_tot m) (self_cost_train m) (self_cost_dev m)
    (self_metric_train m) (self_metric_dev m) (self_metric_dev_opt m)
    (self_all_params m).

Definition set_p0 (v : option params) (m : glm) : glm :=
  mkGLM (self_X m) (self_S m) (self_P m) (self_XS m) (self_y m)
    (self_y_pred m) (self_y_pred_upper m) (self_y_pred_lower m) (self_p m)
    (self_b m) (self_b_se m) (self_w m) (self_w_se m) (self_V m)
    (self_intercept m) (self_df m) (self_edf m) (self_dims m)
    (self_n_features m) (self_filter_names m) (self_shift m)
    (self_filter_nonlinearity m) (self_output_nonlinearity m) (self_distr m)
    (self_mle_computed m) (self_lam m) (self_burn_in m) (self_num_subunits m)
    (self_compute_ci m) v (self_alpha m) (self_beta m) (self_metric m)
    (self_edf_tot m) (self_cost_train m) (self_cost_dev m)
    (self_metric_train m) (self_metric_dev m) (self_metric_dev_opt m)
    (self_all_params m).

Definition set_alpha (v : option fnum) (m : glm) : glm :=
  mkGLM (self_X m) (self_S m) (self_P m) (self_XS m) (self_y m)
    (self_y_pred m) (self_y_pred_upper m) (self_y_pred_lower m) (self_p m)
    (self_b m) (self_b_se m) (self_w m) (self_w_se m) (self_V m)
    (self_intercept m) (self_df m) (self_edf m) (self_dims m)
    (self_n_features m) (self_filter_names m) (self_shift m)
    (self_filter_nonlinearity m) (self_output_nonlinearity m) (self_distr m)
    (self_mle_computed m) (self_lam m) (self_burn_in m) (self_num_subunits m)
    (self_compute_ci m) (self_p0 m) v (self_beta m) (self_metric m)
    (self_edf_tot m) (self_cost_train m) (self_cost_dev m)
    (self_metric_train m) (self_metric_dev m) (self_metric_dev_opt m)
    (self_all_params m).

Definition set_beta (v : option fnum) (m : glm) : glm :=
  mkGLM (self_X m) (self_S m) (self_P m) (self_XS m) (self_y m)
    (self_y_pred m) (self_y_pred_upper m) (self_y_pred_lower m) (self_p m)
    (self_b m) (self_b_se m) (self_w m) (self_w_se m) (self_V m)
    (self_intercept m) (self_df m) (self_edf m) (self_dims m)
    (self_n_features m) (self_filter_names m) (self_shift m)
    (self_filter_nonlinearity m) (self_output_nonlinearity m) (self_distr m)
    (self_mle_computed m) (self_lam m) (self_burn_in m) (self_num_subunits m)
    (self_compute_ci m) (self_p0 m) (self_alpha m) v (self_metric m)
    (self_edf_tot m) (self_cost_train m) (self_cost_dev m)
    (self_metric_train m) (self_metric_dev m) (self_metric_dev_opt m)
    (self_all_params m).

Definition set_metric (v : option string) (m : glm) : glm :=
  mkGLM (self_X m) (self_S m) (self_P m) (self_XS m) (self_y m)
    (self_y_pred m) (self_y_pred_upper m) (self_y_pred_lower m) (self_p m)
    (self_b m) (self_b_se m) (self_w m) (self_w_se m) (self_V m)
    (self_intercept m) (self_df m) (self_edf m) (self_dims m)
    (self_n_features m) (self_filter_names m) (self_shift m)
    (self_filter_nonlinearity m) (self_output_nonlinearity m) (self_distr m)
    (self_mle_computed m) (self_lam m) (self_burn_in m) (self_num_subunits m)
    (self_compute_ci m) (self_p0 m) (self_alpha m) (self_beta m) v
    (self_edf_tot m) (self_cost_train m) (self_cost_dev m)
    (self_metric_train m) (self_metric_dev m) (self_metric_dev_opt m)
    (self_all_params m).

Definition set_cost_train (v : list fnum) (m : glm) : glm :=
  mkGLM (self_X m) (self_S m) (self_P m) (self_XS m) (self_y m)
    (self_y_pred m) (self_y_pred_upper m) (self_y_pred_lower m) (self_p m)
    (self_b m) (self_b_se m) (self_w m) (self_w_se m) (self_V m)
    (self_intercept m) (self_df m) (self_edf m) (self_dims m)
    (self_n_features m) (self_filter_names m) (self_shift m)
    (self_filter_nonlinearity m) (self_output_nonlinearity m) (self_distr m)
    (self_mle_computed m) (self_lam m) (self_burn_in m) (self_num_subunits m)
    (self_compute_ci m) (self_p0 m) (self_alpha m) (self_beta m)
    (self_metric m) (self_edf_tot m) v (self_cost_dev m)
    (self_metric_train m) (self_metric_dev m) (self_metric_dev_opt m)
    (self_all_params m).

Definition set_cost_dev (v : list fnum) (m : glm) : glm :=
  mkGLM (self_X m) (self_S m) (self_P m) (self_XS m) (self_y m)
    (self_y_pred m) (self_y_pred_upper m) (self_y_pred_lower m) (self_p m)
    (self_b m) (self_b_se m) (self_w m) (self_w_se m) (self_V m)
    (self_intercept m) (self_df m) (self_edf m) (self_dims m)
    (self_n_features m) (self_filter_names m) (self_shift m)
    (self_filter_nonlinearity m) (self_output_nonlinearity m) (self_distr m)
    (self_mle_computed m) (self_lam m) (self_burn_in m) (self_num_subunits m)
    (self_compute_ci m) (self_p0 m) (self_alpha m) (self_beta m)
    (self_metric m) (self_edf_tot m) (self_cost_train m) v
    (self_metric_train m) (self_metric_dev m) (self_metric_dev_opt m)
    (self_all_params m).

Definition set_metric_train (v : list fnum) (m : glm) : glm :=
  mkGLM (self_X m) (self_S m) (self_P m) (self_XS m) (self_y m)
    (self_y_pred m) (self_y_pred_upper m) (self_y_pred_lower m) (self_p m)
    (self_b m) (self_b_se m) (self_w m) (self_w_se m) (self_V m)
    (self_intercept m) (self_df m) (self_edf m) (self_dims m)
    (self_n_features m) (self_filter_names m) (self_shift m)
    (self_filter_nonlinearity m) (self_output_nonlinearity m) (self_distr m)
    (self_mle_computed m) (self_lam m) (self_burn_in m) (self_num_subunits m)
    (self_compute_ci m) (self_p0 m) (self_alpha m) (self_beta m)
    (self_metric m) (self_edf_tot m) (self_cost_train m) (self_cost_dev m) v
    (self_metric_dev m) (self_metric_dev_opt m) (self_all_params m).

Definition set_metric_dev (v : list fnum) (m : glm) : glm :=
  mkGLM (self_X m) (self_S m) (self_P m) (self_XS m) (self_y m)
    (self_y_pred m) (self_y_pred_upper m) (self_y_pred_lower m) (self_p m)
    (self_b m) (self_b_se m) (self_w m) (self_w_se m) (self_V m)
    (self_intercept m) (self_df m) (self_edf m) (self_dims m)
    (self_n_features m) (self_filter_names m) (self_shift m)
    (self_filter_nonlinearity m) (self_output_nonlinearity m) (self_distr m)
    (self_mle_computed m) (self_lam m) (self_burn_in m) (self_num_subunits m)
    (self_compute_ci m) (self_p0 m) (self_alpha m) (self_beta m)
    (self_metric m) (self_edf_tot m) (self_cost_train m) (self_cost_dev m)
    (self_metric_train m) v (self_metric_dev_opt m) (self_all_params m).

Definition set_metric_dev_opt (v : option fnum) (m : glm) : glm :=
  mkGLM (self_X m) (self_S m) (self_P m) (self_XS m) (self_y m)
    (self_y_pred m) (self_y_pred_upper m) (self_y_pred_lower m) (self_p m)
    (self_b m) (self_b_se m) (self_w m) (self_w_se m) (self_V m)
    (self_intercept m) (self_df m) (self_edf m) (self_dims m)
    (self_n_features m) (self_filter_names m) (self_shift m)
    (self_filter_nonlinearity m) (self_output_nonlinearity m) (self_distr m)
    (self_mle_computed m) (self_lam m) (self_burn_in m) (self_num_subunits m)
    (self_compute_ci m) (self_p0 m) (self_alpha m) (self_beta m)
    (self_metric m) (self_edf_tot m) (self_cost_train m) (self_cost_dev m)
    (self_metric_train m) (self_metric_dev m) v (self_all_params m).

Definition set_all_params (v : list params) (m : glm) : glm :=
  mkGLM (self_X m) (self_S m) (self_P m) (self_XS m) (self_y m)
    (self_y_pred m) (self_y_pred_upper m) (self_y_pred_lower m) (self_p m)
    (self_b m) (self_b_se m) (self_w m) (self_w_se m) (self_V m)
    (self_intercept m) (self_df m) (self_edf m) (self_dims m)
    (self_n_features m) (self_filter_names m) (self_shift m)
    (self_filter_nonlinearity m) (self_output_nonlinearity m) (self_distr m)
    (self_mle_computed m) (self_lam m) (self_burn_in m) (self_num_subunits m)
    (self_compute_ci m) (self_p0 m) (self_alpha m) (self_beta m)
    (self_metric m) (self_edf_tot m) (self_cost_train m) (self_cost_dev m)
    (self_metric_train m) (self_metric_dev m) (self_metric_dev_opt m) v.
(** [GLM.__init__] *)
Definition init (distr output_nonlinearity : string) : glm :=
  mkGLM [] [] [] [] [] [] [] [] [] [] [] [] [] [] [] [] [] [] [] [] [] []
    output_nonlinearity distr false [] None None None None None None None None
    [] [] [] [] None [].

(** [self.a] for an attribute that may not exist yet. *)
Definition attr {A : Type} (name : string) (o : option A) : outcome A :=
  from_option (AttributeError name) o.

(** ** Arguments of the public methods *)

(** The raw input [X]: a 1-D or a 2-D array. *)
Inductive ndarray : Type :=
| Arr1 (v : vec)
| Arr2 (M : matrix).

(** [dims] and [df]: [None], an [int], or a list. *)
Inductive int_or_list : Type :=
| ArgNone
| ArgInt (z : Z)
| ArgList (l : list Z).

(** [lam]: a number or a list. *)
Inductive scalar_or_list : Type :=
| LamScalar (x : fnum)
| LamList (l : list fnum).

(** The response [y]: [None], an array, or a dictionary of arrays. *)
Inductive response : Type :=
| YNone
| YArr (v : vec)
| YDict (d : dict vec).

(** [d if type(d) is not int else [d, ]] *)
Definition as_list (d : int_or_list) : option (list Z) :=
  match d with
  | ArgNone => None
  | ArgInt z => Some [z]
  | ArgList l => Some l
  end.

(** [dims[0]] *)
Definition first_dim (dims : option (list Z)) : outcome Z :=
  match dims with
  | None => Raise (TypeError "'NoneType' object is not subscriptable")
  | Some [] => Raise IndexError
  | Some (d :: _) => Ret d
  end.

Record adm_args : Type := mkArgs {
  arg_X : ndarray;
  arg_dims : int_or_list;
  arg_df : int_or_list;
  arg_smooth : option string;
  arg_lag : bool;
  arg_lam : scalar_or_list;
  arg_filter_nonlinearity : string;
  arg_kind : string;
  arg_name : string;
  arg_shift : Z;
  arg_burn_in : option Z
}.

(** The keyword defaults of [add_design_matrix]. *)
Definition default_args (X : ndarray) : adm_args :=
  mkArgs X ArgNone ArgNone None true (LamScalar f0) "none" "train" "stimulus"
    0%Z None.

(** ** External collaborators *)

Record backend : Type := mkBackend {
  fexp : fnum -> fnum;
  flog : fnum -> fnum;
  ftanh : fnum -> fnum;
  fsqrt : fnum -> fnum;
  (* rfest.utils.build_design_matrix(X, dims[0], shift) *)
  build_design_matrix : matrix -> Z -> Z -> matrix;
  (* rfest.splines.build_spline_matrix(dims, df, smooth, lam, return_P=True) *)
  build_spline_matrix :
    option (list Z) -> option (list Z) -> string -> list fnum -> matrix * matrix;
  linalg_inv : matrix -> matrix;
  (* jnp.linalg.lstsq(A, rhs, rcond=None)[0] *)
  linalg_lstsq : matrix -> vec -> vec;
  (* random.normal(random.PRNGKey(seed), shape=(r, c)) *)
  random_normal : Z -> nat -> nat -> matrix;
  (* rfest.metrics *)
  r2 : vec -> vec -> fnum;
  r2adj : vec -> vec -> fnum -> fnum;
  mse : vec -> vec -> fnum;
  corrcoef : vec -> vec -> fnum;
  gcv : vec -> vec -> fnum -> fnum;
  (* optimizers.adam: state, initialisation, read-out, and one update
     along the gradient of the model's penalised train cost *)
  opt_state : Type;
  opt_init : params -> opt_state;
  get_params : opt_state -> params;
  opt_update : glm -> nat -> opt_state -> opt_state;
  (* the linear algebra of the two variance estimators *)
  filter_variance : glm -> string -> outcome (dict matrix * dict vec * dict vec);
  response_variance : glm -> string -> string -> outcome (vec * vec * vec)
}.

(** ** [GLM.fnl] *)

Definition fnl (B : backend) (x : vec) (kind : string) : outcome vec :=
  if String.eqb kind "softplus" then
    Ret (map (fun v => fadd (flog B (fadd f1 (fexp B v))) c_1e_7) x)
  else if String.eqb kind "exponential" then
    Ret (map (fexp B) x)
  else if String.eqb kind "softmax" then
    let z := map (fexp B) x in
    Ret (map (fun v => fdiv v (vsum z)) z)
  else if String.eqb kind "sigmoid" then
    Ret (map (fun v => fdiv f1 (fadd f1 (fexp B (fneg v)))) x)
  else if String.eqb kind "tanh" then
    Ret (map (ftanh B) x)
  else if String.eqb kind "relu" then
    Ret (map (fun v => if fgtb v f0 then v else c_1e_7) x)
  else if String.eqb kind "leaky_relu" then
    Ret (map (fun v => if fgtb v f0 then v else fmul v c_001) x)
  else if String.eqb kind "none" then
    Ret x
  else
    Raise (NotImplementedError
             ("Input filter nonlinearity `" ++ kind ++ "` is not supported.")).

(** ** [GLM.add_design_matrix] *)

Definition mhadamard (A B : matrix) : outcome matrix :=
  if (ncols A =? ncols B) && (nrows A =? nrows B)
  then Ret (mkMat (ncols A) (zip_with (zip_with fmul) (rows A) (rows B)))
  else Raise shape_error.

(** [(XS.T * (jnp.linalg.inv(XS.T @ XS + P) @ XS.T)).sum()] *)
Definition ridge_edf (B : backend) (XSm Pm : matrix) : outcome fnum :=
  let XSt := transpose XSm in
  G <- matmul XSt XSm ;;
  GP <- madd G Pm ;;
  H <- matmul (linalg_inv B GP) XSt ;;
  E <- mhadamard XSt H ;;
  Ret (vsum (flatten E)).

(** Lines 201-213: registration of the filter on the train split, or
    recall of its [dims] and [shift] on another split. *)
Definition register_filter (a : adm_args) (m : glm)
  : outcome (glm * option (list Z) * Z) :=
  let name := arg_name a in
  let m := set_X (ensure (arg_kind a) (self_X m)) m in
  if String.eqb (arg_kind a) "train" then
    let m := set_filter_nonlinearity
               (Dict.set name (arg_filter_nonlinearity a) (self_filter_nonlinearity m)) m in
    let m := set_filter_names (self_filter_names m ++ [name]) m in
    let dims := as_list (arg_dims a) in
    let m := set_dims (Dict.set name dims (self_dims m)) m in
    let m := set_shift (Dict.set name (arg_shift a) (self_shift m)) m in
    Ret (m, dims, arg_shift a)
  else
    dims <- Dict.item name (self_dims m) ;;
    shift <- Dict.item name (self_shift m) ;;
    Ret (m, dims, shift).

(** Lines 215-217: [if not hasattr(self, 'burn_in'): ...] *)
Definition init_burn_in (a : adm_args) (dims : option (list Z)) (m : glm)
  : outcome glm :=
  match self_burn_in m with
  | Some _ => Ret m
  | None =>
      match arg_burn_in a with
      | None => d0 <- first_dim dims ;; Ret (set_burn_in (Some (d0 - 1)%Z) m)
      | Some given => Ret (set_burn_in (Some given) m)
      end
  end.

(** Lines 219-225: the design matrix of the split. *)
Definition store_design (B : backend) (a : adm_args) (Xin : matrix)
    (dims : option (list Z)) (shift : Z) (m : glm) : outcome glm :=
  if arg_lag a then
    d0 <- first_dim dims ;;
    bi <- attr "burn_in" (self_burn_in m) ;;
    x <- set2 (arg_kind a) (arg_name a)
           (rows_from (build_design_matrix B Xin d0 shift) bi) (self_X m) ;;
    Ret (set_X x m)
  else
    let m := set_burn_in (Some 0%Z) m in
    x <- set2 (arg_kind a) (arg_name a) Xin (self_X m) ;;
    Ret (set_X x m).

(** [self.XS[kind][name] = self.X[kind][name] @ S] *)
Definition project (kind name : string) (Sm : matrix) (m : glm) : outcome glm :=
  Xk <- item2 kind name (self_X m) ;;
  XSv <- matmul Xk Sm ;;
  xs <- set2 kind name XSv (self_XS m) ;;
  Ret (set_XS xs m).

(** Lines 227-248: no spline requested in this call. *)
Definition without_smooth (a : adm_args) (m : glm) : outcome glm :=
  let kind := arg_kind a in
  let name := arg_name a in
  if Dict.mem name (self_S m) then
    let m := set_XS (ensure kind (self_XS m)) m in
    Sm <- Dict.item name (self_S m) ;;
    project kind name Sm m
  else if String.eqb kind "test" then
    let m := set_XS (ensure kind (self_XS m)) m in
    Sm <- (match self_num_subunits m with
           | Some k => if (1 <? k)%Z then Dict.item "stimulus_s0" (self_S m)
                       else Dict.item name (self_S m)
           | None => Dict.item name (self_S m)
           end) ;;
    project kind name Sm m
  else if String.eqb kind "train" then
    Xt <- item2 "train" name (self_X m) ;;
    let m := set_n_features (Dict.set name (ncols Xt) (self_n_features m)) m in
    nf <- Dict.item name (self_n_features m) ;;
    Ret (set_edf (Dict.set name (of_nat nf) (self_edf m)) m)
  else Ret m.

(** Lines 250-269: a spline basis is built for the filter. *)
Definition with_smooth (B : backend) (a : adm_args) (smooth : string)
    (dims : option (list Z)) (m : glm) : outcome glm :=
  let kind := arg_kind a in
  let name := arg_name a in
  let m := set_XS (ensure kind (self_XS m)) m in
  let m := set_df (Dict.set name (as_list (arg_df a)) (self_df m)) m in
  dfv <- Dict.item name (self_df m) ;;
  lamv <- (match arg_lam a with
           | LamList l => Ret l
           | LamScalar x =>
               match dfv with
               | Some l => Ret (repeat x (length l))
               | None => Raise (TypeError "object of type 'NoneType' has no len()")
               end
           end) ;;
  let m := set_lam (Dict.set name lamv (self_lam m)) m in
  let SP := build_spline_matrix B dims dfv smooth lamv in
  let m := set_S (Dict.set name (fst SP) (self_S m)) m in
  let m := set_P (Dict.set name (snd SP) (self_P m)) m in
  Xk <- item2 kind name (self_X m) ;;
  XSv <- matmul Xk (fst SP) ;;
  xs <- set2 kind name XSv (self_XS m) ;;
  let m := set_XS xs m in
  if String.eqb kind "train" then
    XSt <- item2 "train" name (self_XS m) ;;
    let m := set_n_features (Dict.set name (ncols XSt) (self_n_features m)) m in
    nf <- Dict.item name (self_n_features m) ;;
    if all_zero (snd SP) then Ret (set_edf (Dict.set name (of_nat nf) (self_edf m)) m)
    else e <- ridge_edf B XSv (snd SP) ;;
         Ret (set_edf (Dict.set name e (self_edf m)) m)
  else Ret m.

Definition add_design_matrix (B : backend) (a : adm_args) (m : glm) : outcome glm :=
  let Xin := match arg_X a with Arr1 v => column v | Arr2 M => M end in
  reg <- register_filter a m ;;
  let '(m, dims, shift) := reg in
  m <- init_burn_in a dims m ;;
  m <- store_design B a Xin dims shift m ;;
  match arg_smooth a with
  | None => without_smooth a m
  | Some smooth => with_smooth B a smooth dims m
  end.

(** A sequence of [add_design_matrix] calls on one model. *)
Definition add_design_matrices (B : backend) (calls : list adm_args) (m : glm)
  : outcome glm :=
  foldM (fun m a => add_design_matrix B a m) calls m.

(** ** [GLM.forwardpass] *)

(** [p[name]] read as a coefficient array, [p['intercept']] as the
    dictionary of intercepts. *)
Definition p_array (name : string) (p : params) : outcome matrix :=
  v <- Dict.item name p ;;
  match v with
  | PArr a => Ret a
  | PIntercepts _ => Raise (TypeError "unsupported operand type(s) for @")
  end.

Definition p_intercept (p : params) : outcome (dict fnum) :=
  v <- Dict.item "intercept" p ;;
  match v with
  | PIntercepts d => Ret d
  | PArr _ => Raise (TypeError "array indices must be integers")
  end.

(** [jnp.array(outputs).sum(0)]: the elementwise sum over the filters;
    the zero scalar when there is no filter. *)
Definition sum_outputs (outs : list vec) : outcome vec :=
  match outs with
  | [] => Ret [f0]
  | o :: t =>
      foldM (fun acc v => if length acc =? length v then Ret (zip_with fadd acc v)
                          else Raise (ValueError "inhomogeneous shape")) t o
  end.

Definition filter_output (B : backend) (m : glm) (p : params)
    (intercept : dict fnum) (kind name : string) : outcome vec :=
  input_term <- (if Dict.mem name (self_S m) then item2 kind name (self_XS m)
                 else item2 kind name (self_X m)) ;;
  pn <- p_array name p ;;
  prod <- matmul input_term pn ;;
  c <- Dict.item name intercept ;;
  nl <- Dict.item name (self_filter_nonlinearity m) ;;
  fnl B (map (fun v => fadd v c) (flatten prod)) nl.

Definition forwardpass (B : backend) (m : glm) (p : params) (kind : string)
  : outcome vec :=
  intercept <- p_intercept p ;;
  Xk <- Dict.item kind (self_X m) ;;
  outs <- mapM (filter_output B m p intercept kind) (Dict.keys Xk) ;;
  total <- sum_outputs outs ;;
  g <- Dict.item "global" intercept ;;
  fnl B (map (fun v => fadd v g) total) (self_output_nonlinearity m).

(** ** [GLM.cost] *)

Definition gaussian_loss (yv r : vec) : outcome fnum :=
  d <- vbinop fsub yv r ;;
  Ret (fmul c_half (vsum (map (fun x => fmul x x) d))).

Definition poisson_loss (B : backend) (yv r : vec) : outcome fnum :=
  let r1 := map (fun x => if fneb x PInf then x else f0) r in
  let r2 := map (fun x => fmaximum x c_1e_20) r1 in
  term0 <- vdot (map fneg (map (flog B) r2)) yv ;;
  let term1 := vsum r2 in
  Ret (fadd term0 term1).

(** The elastic-net term of lines 550-556. *)
Definition penalty (B : backend) (m : glm) (p : params) : outcome fnum :=
  ws <- mapM (fun name => a <- p_array name p ;; Ret (flatten a)) (self_filter_names m) ;;
  match ws with
  | [] => Raise (ValueError "need at least one array to concatenate")
  | _ =>
      let wv := concat ws in
      let l1 := vsum (map fabs wv) in
      let l2 := fsqrt B (vsum (map (fun x => fmul (fabs x) (fabs x)) wv)) in
      beta <- attr "beta" (self_beta m) ;;
      alpha <- attr "alpha" (self_alpha m) ;;
      Ret (fmul beta (fadd (fmul (fsub f1 alpha) l2) (fmul alpha l1)))
  end.

Definition cost (B : backend) (m : glm) (p : params) (kind : string)
    (precomputed : option vec) (penalize : bool) : outcome fnum :=
  let distr := self_distr m in
  yv <- Dict.item kind (self_y m) ;;
  r <- (match precomputed with
        | None => forwardpass B m p kind
        | Some r => Ret r
        end) ;;
  loss <- (if String.eqb distr "gaussian" then gaussian_loss yv r
           else if String.eqb distr "poisson" then poisson_loss B yv r
           else Raise (NotImplementedError distr)) ;;
  if penalize then
    _ <- attr "beta" (self_beta m) ;;
    if String.eqb kind "train" then
      pen <- penalty B m p ;;
      Ret (fadd loss pen)
    else Ret loss
  else Ret loss.

(** ** [GLM.compute_score] *)

(** What a call leaves behind: the lines it printed, and either the
    value it returned ([None] included) or the exception it raised. *)
Record call_result (A : Type) : Type := mkCall {
  printed : list string;
  returned : outcome (option A)
}.

Definition compute_score (B : backend) (m : glm) (yv y_pred : vec)
    (metric : string) : call_result fnum :=
  if String.eqb metric "r2" then
    mkCall [] (Ret (Some (r2 B yv y_pred)))
  else if String.eqb metric "r2adj" then
    mkCall [] (e <- attr "edf_tot" (self_edf_tot m) ;; Ret (Some (r2adj B yv y_pred e)))
  else if String.eqb metric "mse" then
    mkCall [] (Ret (Some (mse B yv y_pred)))
  else if String.eqb metric "corrcoef" then
    mkCall [] (Ret (Some (corrcoef B yv y_pred)))
  else if String.eqb metric "gcv" then
    mkCall [] (e <- attr "edf_tot" (self_edf_tot m) ;; Ret (Some (gcv B yv y_pred e)))
  else
    mkCall [("Metric `" ++ metric ++ "` is not supported.")%string] (Ret None).

(** ** The variance estimators: what they store *)

(** [GLM._get_filter_variance], lines 1018-1020. *)
Definition _get_filter_variance (B : backend) (w_type : string) (m : glm)
  : outcome glm :=
  r <- filter_variance B m w_type ;;
  let '(Vv, bse, wse) := r in
  let m := set_V (Dict.set w_type Vv (self_V m)) m in
  let m := set_b_se (Dict.set w_type bse (self_b_se m)) m in
  Ret (set_w_se (Dict.set w_type wse (self_w_se m)) m).

(** [GLM._get_response_variance], lines 1065-1071. *)
Definition _get_response_variance (B : backend) (w_type kind : string) (m : glm)
  : outcome glm :=
  r <- response_variance B m w_type kind ;;
  let '(yp, up, lo) := r in
  let m := if Dict.mem w_type (self_y_pred_lower m) then m
           else set_y_pred_upper (Dict.set w_type [] (self_y_pred_upper m))
                  (set_y_pred_lower (Dict.set w_type [] (self_y_pred_lower m)) m) in
  a <- set2 w_type kind yp (self_y_pred m) ;;
  let m := set_y_pred a m in
  u <- set2 w_type kind up (self_y_pred_upper m) ;;
  let m := set_y_pred_upper u m in
  l <- set2 w_type kind lo (self_y_pred_lower m) ;;
  Ret (set_y_pred_lower l m).

(** ** [GLM.compute_mle] *)

Fixpoint cumsum_from (acc : nat) (l : list nat) : list nat :=
  match l with
  | [] => []
  | a :: t => (acc + a) :: cumsum_from (acc + a) t
  end.

(** [jnp.cumsum] *)
Definition cumsum (l : list nat) : list nat := cumsum_from 0 l.

(** [jnp.ones(n_samples)[:, jnp.newaxis]] *)
Definition ones_checked (n : Z) : outcome matrix :=
  if (n <? 0)%Z then Raise (ValueError "negative dimensions are not allowed")
  else Ret (ones_column (Z.to_nat n)).

(** One element of the comprehension of lines 416-418: a column of ones
    followed by the filter's projected or raw design matrix. *)
Definition design_block (m : glm) (n_samples : Z) (name : string) : outcome matrix :=
  if Dict.mem name (self_S m) then
    o <- ones_checked n_samples ;;
    xs <- item2 "train" name (self_XS m) ;;
    hstack2 o xs
  else
    o <- ones_checked n_samples ;;
    x <- item2 "train" name (self_X m) ;;
    hstack2 o x.

(** Lines 416-419: the full design matrix. *)
Definition mle_design (m : glm) (n_samples : Z) : outcome matrix :=
  blocks <- mapM (design_block m n_samples) (self_filter_names m) ;;
  Xf <- hstack blocks ;;
  o <- ones_checked n_samples ;;
  hstack2 o Xf.

(** Lines 431-432: the list [idx] of slice bounds. *)
Definition block_bounds (m : glm) : list (nat * nat) :=
  let l := cumsum (0 :: map (fun kv => snd kv + 1) (self_n_features m)) in
  combine l (tl l).

(** Body of the loop of lines 435-442. *)
Definition unpack_filter (mle : vec) (idx : list (nat * nat)) (m : glm)
    (ia : nat * string) : outcome glm :=
  let '(i, name) := ia in
  bd <- from_option IndexError (nth_error idx i) ;;
  match py_slice mle (Z.of_nat (fst bd)) (Z.of_nat (snd bd)) with
  | [] => Raise IndexError
  | c :: rest =>
      ic <- set2 "mle" name c (self_intercept m) ;;
      let m := set_intercept ic m in
      if Dict.mem name (self_S m) then
        bb <- set2 "mle" name (column rest) (self_b m) ;;
        let m := set_b bb m in
        Sn <- Dict.item name (self_S m) ;;
        bn <- item2 "mle" name (self_b m) ;;
        wv <- matmul Sn bn ;;
        ww <- set2 "mle" name wv (self_w m) ;;
        Ret (set_w ww m)
      else
        ww <- set2 "mle" name (column rest) (self_w m) ;;
        Ret (set_w ww m)
  end.

(** Lines 426-444: slicing the flat solution into each filter. *)
Definition unpack_mle (mle : vec) (m : glm) : outcome glm :=
  let m := set_b (Dict.set "mle" [] (self_b m)) m in
  let m := set_w (Dict.set "mle" [] (self_w m)) m in
  let m := set_intercept (Dict.set "mle" [] (self_intercept m)) m in
  let idx := block_bounds m in
  m <- foldM (unpack_filter mle idx) (enumerate (self_filter_names m)) m ;;
  g <- from_option IndexError (nth_error mle 0) ;;
  ic <- set2 "mle" "global" g (self_intercept m) ;;
  Ret (set_intercept ic m).

(** Lines 446-455: the parameter set [p['mle']]. *)
Definition collect_p_mle (m : glm) : outcome glm :=
  let m := set_p (Dict.set "mle" [] (self_p m)) m in
  let m := set_y_pred (Dict.set "mle" [] (self_y_pred m)) m in
  m <- foldM (fun m name =>
                coef <- (if Dict.mem name (self_S m) then item2 "mle" name (self_b m)
                         else item2 "mle" name (self_w m)) ;;
                pm <- set2 "mle" name (PArr coef) (self_p m) ;;
                Ret (set_p pm m))
         (self_filter_names m) m ;;
  ics <- Dict.item "mle" (self_intercept m) ;;
  pm <- set2 "mle" "intercept" (PIntercepts ics) (self_p m) ;;
  Ret (set_p pm m).

Definition compute_mle (B : backend) (yarg : response) (compute_ci : bool) (m : glm)
  : outcome glm :=
  let m := match self_compute_ci m with
           | None => set_compute_ci (Some compute_ci) m
           | Some _ => m
           end in
  ys <- (match yarg with
         | YDict d =>
             yt <- Dict.item "train" d ;;
             if length yt =? 0
             then Raise (ValueError "Training set is empty after burned in.")
             else Ret (yt, Dict.get "dev" d)
         | YArr v => Ret (v, None)
         | YNone => Raise (TypeError "object of type 'NoneType' has no len()")
         end) ;;
  let '(y_train, y_dev) := ys in
  bi <- attr "burn_in" (self_burn_in m) ;;
  let n_samples := (Z.of_nat (length y_train) - bi)%Z in
  Xf <- mle_design m n_samples ;;
  let Xt := transpose Xf in
  XtX <- matmul Xt Xf ;;
  Xty <- matvec Xt (py_slice_from y_train bi) ;;
  let mle := linalg_lstsq B XtX Xty in
  m <- unpack_mle mle m ;;
  m <- collect_p_mle m ;;
  let m := set_y (Dict.set "train" (py_slice_from y_train bi) (self_y m)) m in
  yt <- Dict.item "train" (self_y m) ;;
  if length yt =? 0 then Raise (ValueError "Training set is empty after burned in.")
  else
    pm <- Dict.item "mle" (self_p m) ;;
    out <- forwardpass B m pm "train" ;;
    yp <- set2 "mle" "train" out (self_y_pred m) ;;
    let m := set_y_pred yp m in
    ci <- attr "compute_ci" (self_compute_ci m) ;;
    m <- (if ci : bool then
            m <- _get_filter_variance B "mle" m ;;
            _get_response_variance B "mle" "train" m
          else Ret m) ;;
    m <- (match y_dev with
          | Some yd =>
              let m := set_y (Dict.set "dev" (py_slice_from yd bi) (self_y m)) m in
              ydv <- Dict.item "dev" (self_y m) ;;
              if length ydv =? 0
              then Raise (ValueError "Dev set is empty after burned in.")
              else
                pm <- Dict.item "mle" (self_p m) ;;
                out <- forwardpass B m pm "dev" ;;
                yp <- set2 "mle" "dev" out (self_y_pred m) ;;
                let m := set_y_pred yp m in
                if ci : bool then _get_response_variance B "mle" "dev" m else Ret m
          | None => Ret m
          end) ;;
    Ret (set_mle_computed true m).

(** ** [GLM.initialize] *)

Record init_args : Type := mkInit {
  ia_y : response;
  ia_num_subunits : Z;
  ia_method : string;
  ia_compute_ci : bool;
  ia_random_seed : Z;
  ia_add_noise_to_mle : fnum
}.

(** Lines 280-296: random initialisation. *)
Definition init_random (B : backend) (random_seed : Z) (m : glm) : outcome glm :=
  let m := set_b (Dict.set "random" [] (self_b m)) m in
  let m := set_w (Dict.set "random" [] (self_w m)) m in
  let m := set_intercept (Dict.set "random" [] (self_intercept m)) m in
  m <- foldM (fun m (ia : nat * string) =>
                let '(i, name) := ia in
                ic <- set2 "random" name f0 (self_intercept m) ;;
                let m := set_intercept ic m in
                let key := (random_seed + Z.of_nat i)%Z in
                if Dict.mem name (self_S m) then
                  XSt <- item2 "train" name (self_XS m) ;;
                  bb <- set2 "random" name (random_normal B key (ncols XSt) 1) (self_b m) ;;
                  let m := set_b bb m in
                  Sn <- Dict.item name (self_S m) ;;
                  bn <- item2 "random" name (self_b m) ;;
                  wv <- matmul Sn bn ;;
                  ww <- set2 "random" name wv (self_w m) ;;
                  Ret (set_w ww m)
                else
                  Xt <- item2 "train" name (self_X m) ;;
                  ww <- set2 "random" name (random_normal B key (ncols Xt) 1) (self_w m) ;;
                  Ret (set_w ww m))
         (enumerate (self_filter_names m)) m ;;
  ic <- set2 "random" "global" f0 (self_intercept m) ;;
  Ret (set_intercept ic m).

(** [[f'stimulus_s{i}' for i in range(num_subunits)]] *)
Definition subunit_names (num_subunits : Z) : list string :=
  map (fun i => ("stimulus_s" ++ str_of_nat i)%string) (seq 0 (Z.to_nat num_subunits)).

(** Lines 324-349: the body of [if 'stimulus' in name]. *)
Definition alias_filter (method name : string) (m : glm) : outcome glm :=
  d <- Dict.item "stimulus" (self_dims m) ;;
  let m := set_dims (Dict.set name d (self_dims m)) m in
  d' <- Dict.item "stimulus" (self_dims m) ;;
  let m := set_df (Dict.set name d' (self_df m)) m in
  s <- Dict.item "stimulus" (self_shift m) ;;
  let m := set_shift (Dict.set name s (self_shift m)) m in
  f <- Dict.item "stimulus" (self_filter_nonlinearity m) ;;
  let m := set_filter_nonlinearity (Dict.set name f (self_filter_nonlinearity m)) m in
  c <- item2 method "stimulus" (self_intercept m) ;;
  ic <- set2 method name c (self_intercept m) ;;
  let m := set_intercept ic m in
  wv <- item2 method "stimulus" (self_w m) ;;
  ww <- set2 method name wv (self_w m) ;;
  let m := set_w ww m in
  m <- (if Dict.mem method (self_w_se m) then
          se <- item2 method "stimulus" (self_w_se m) ;;
          ws <- set2 method name se (self_w_se m) ;;
          Ret (set_w_se ws m)
        else Ret m) ;;
  xt <- item2 "train" "stimulus" (self_X m) ;;
  xx <- set2 "train" name xt (self_X m) ;;
  let m := set_X xx m in
  e <- Dict.item "stimulus" (self_edf m) ;;
  let m := set_edf (Dict.set name e (self_edf m)) m in
  m <- (if Dict.mem "dev" (self_X m) then
          xd <- item2 "dev" "stimulus" (self_X m) ;;
          xx <- set2 "dev" name xd (self_X m) ;;
          Ret (set_X xx m)
        else Ret m) ;;
  if Dict.mem "stimulus" (self_S m) then
    bv <- item2 method "stimulus" (self_b m) ;;
    bb <- set2 method name bv (self_b m) ;;
    let m := set_b bb m in
    m <- (if Dict.mem method (self_b_se m) then
            se <- item2 method "stimulus" (self_b_se m) ;;
            bs <- set2 method name se (self_b_se m) ;;
            Ret (set_b_se bs m)
          else Ret m) ;;
    xst <- item2 "train" "stimulus" (self_XS m) ;;
    xs <- set2 "train" name xst (self_XS m) ;;
    let m := set_XS xs m in
    m <- (if Dict.mem "dev" (self_XS m) then
            xsd <- item2 "dev" "stimulus" (self_XS m) ;;
            xs <- set2 "dev" name xsd (self_XS m) ;;
            Ret (set_XS xs m)
          else Ret m) ;;
    pp <- Dict.item "stimulus" (self_P m) ;;
    let m := set_P (Dict.set name pp (self_P m)) m in
    ss <- Dict.item "stimulus" (self_S m) ;;
    Ret (set_S (Dict.set name ss (self_S m)) m)
  else Ret m.

(** Lines 322-349: the loop over the new list of names. *)
Definition alias_loop (method : string) (names : list string) (m : glm) : outcome glm :=
  foldM (fun m name => if contains "stimulus" name
                       then alias_filter method name m else Ret m) names m.

(** Lines 351-364: the aggregate ['stimulus'] entries are removed. *)
Definition drop_stimulus (method : string) (m : glm) : outcome glm :=
  let m := match pop2 method "stimulus" (self_b m) with
           | Ret bb => set_b bb m
           | Raise _ => m
           end in
  ww <- pop2 method "stimulus" (self_w m) ;;
  let m := set_w ww m in
  ic <- pop2 method "stimulus" (self_intercept m) ;;
  let m := set_intercept ic m in
  xt <- pop2 "train" "stimulus" (self_X m) ;;
  let m := set_X xt m in
  xd <- pop2 "dev" "stimulus" (self_X m) ;;
  let m := set_X xd m in
  match self_XS m with
  | [] => Ret m
  | _ =>
      xst <- pop2 "train" "stimulus" (self_XS m) ;;
      let m := set_XS xst m in
      xsd <- pop2 "dev" "stimulus" (self_XS m) ;;
      let m := set_XS xsd m in
      ss <- Dict.pop "stimulus" (self_S m) ;;
      let m := set_S ss m in
      pp <- Dict.pop "stimulus" (self_P m) ;;
      Ret (set_P pp m)
  end.

(** Lines 315-366: the stimulus filter renamed into subunit filters. *)
Definition expand_subunits (method : string) (num_subunits : Z) (m : glm)
  : outcome glm :=
  if (num_subunits =? 1)%Z then Ret m
  else
    rest <- list_remove "stimulus" (self_filter_names m) ;;
    let filter_names := subunit_names num_subunits ++ rest in
    m <- alias_loop method filter_names m ;;
    m <- drop_stimulus method m ;;
    Ret (set_filter_names filter_names m).

(** Lines 368-389: the parameter sets [p[method]] and [p0]. *)
Definition collect_p0 (B : backend) (method : string) (random_seed : Z)
    (noise : fnum) (m : glm) : outcome glm :=
  let m := set_p (Dict.set method [] (self_p m)) m in
  st <- foldM (fun (st : glm * params) (ia : nat * string) =>
                 let '(m, p0) := st in
                 let '(i, name) := ia in
                 coef <- (if Dict.mem name (self_S m) then item2 method name (self_b m)
                          else item2 method name (self_w m)) ;;
                 let key := (random_seed + Z.of_nat i)%Z in
                 pm <- set2 method name (PArr coef) (self_p m) ;;
                 let m := set_p pm m in
                 pert <- madd coef
                           (mscale noise (random_normal B key (nrows coef) (ncols coef))) ;;
                 let p0 := Dict.set name (PArr pert) p0 in
                 ics <- Dict.item method (self_intercept m) ;;
                 pm <- set2 method "intercept" (PIntercepts ics) (self_p m) ;;
                 Ret (set_p pm m, Dict.set "intercept" (PIntercepts ics) p0))
          (enumerate (self_filter_names m)) (m, []) ;;
  Ret (set_p0 (Some (snd st)) (fst st)).

(** Lines 274-313: the parameters before any subunit renaming. *)
Definition init_params (B : backend) (a : init_args) (m : glm) : outcome glm :=
  let method := ia_method a in
  let m := set_num_subunits (Some (ia_num_subunits a)) m in
  let m := set_compute_ci (Some (ia_compute_ci a)) m in
  if String.eqb method "random" then init_random B (ia_random_seed a) m
  else if String.eqb method "mle" then
    if self_mle_computed m then Ret m else compute_mle B (ia_y a) true m
  else Raise (ValueError ("`" ++ method ++ "` is not supported.")).

Definition initialize (B : backend) (a : init_args) (m : glm) : outcome glm :=
  m <- init_params B a m ;;
  m <- expand_subunits (ia_method a) (ia_num_subunits a) m ;;
  collect_p0 B (ia_method a) (ia_random_seed a) (ia_add_noise_to_mle a) m.

(** ** [GLM.optimize] *)

Inductive stop_reason : Type :=
| dev_stop
| train_stop
| maxiter_stop.

(** The local variables the loop of [optimize] works on. *)
Record loop_vars (B : backend) : Type := mkVars {
  v_opt_state : opt_state B;
  v_cost_train : list fnum;
  v_cost_dev : list fnum;
  v_metric_train : list fnum;
  v_metric_dev : list fnum;
  v_params_list : list params;
  v_y_pred_train : option vec;
  v_y_pred_dev : option vec
}.

(** The inner function [step]: the penalised train cost at the current
    parameters, and the optimiser state after one update. *)
Definition step (B : backend) (m : glm) (i : nat) (st : opt_state B)
  : outcome (fnum * opt_state B) :=
  l <- cost B m (get_params B st) "train" None true ;;
  Ret (l, opt_update B m i st).

(** A score stored into a float array: [None] is stored as NaN. *)
Definition as_float (r : call_result fnum) : outcome fnum :=
  v <- returned r ;;
  Ret (match v with Some x => x | None => NaN end).

(** [a[i - tolerance:i]] *)
Definition window (a : list fnum) (tolerance : Z) (i : nat) : list fnum :=
  py_slice a (Z.of_nat i - tolerance)%Z (Z.of_nat i).

(** [np.all(np.diff(a[i - tolerance:i]) > 0)] *)
Definition all_increasing (a : list fnum) (tolerance : Z) (i : nat) : bool :=
  forallb (fun d => fgtb d f0) (np_diff (window a tolerance i)).

(** [np.all(np.diff(a[i - tolerance:i]) < 1e-5)] *)
Definition all_below (a : list fnum) (tolerance : Z) (i : nat) : bool :=
  forallb (fun d => fltb d c_1e_5) (np_diff (window a tolerance i)).

(** Lines 660-679: the early-stop test made at the end of iteration [i]. *)
Definition early_stop (has_dev : bool) (tolerance : Z) (i : nat)
    (cost_train cost_dev : list fnum) : option stop_reason :=
  if negb (tolerance =? 0)%Z && (300 <? i) then
    if has_dev && all_increasing cost_dev tolerance i then Some dev_stop
    else if all_below cost_train tolerance i then Some train_stop
    else None
  else None.

(** Lines 640-679: one pass through the loop body. *)
Definition loop_body (B : backend) (m : glm) (metric : string) (tolerance : Z)
    (i : nat) (v : loop_vars B) : outcome (loop_vars B * option stop_reason) :=
  st <- step B m i (v_opt_state v) ;;
  let cost_train := assign (v_cost_train v) i (fst st) in
  let params := get_params B (snd st) in
  let params_list := v_params_list v ++ [params] in
  y_pred_train <- forwardpass B m params "train" ;;
  yt <- Dict.item "train" (self_y m) ;;
  mt <- as_float (compute_score B m yt y_pred_train metric) ;;
  let metric_train := assign (v_metric_train v) i mt in
  dev <- (if Dict.mem "dev" (self_y m) then
            y_pred_dev <- forwardpass B m params "dev" ;;
            cd <- cost B m params "dev" (Some y_pred_dev) false ;;
            yd <- Dict.item "dev" (self_y m) ;;
            md <- as_float (compute_score B m yd y_pred_dev metric) ;;
            Ret (assign (v_cost_dev v) i cd, assign (v_metric_dev v) i md,
                 Some y_pred_dev)
          else Ret (v_cost_dev v, v_metric_dev v, v_y_pred_dev v)) ;;
  let '(cost_dev, metric_dev, y_pred_dev) := dev in
  Ret (mkVars B (snd st) cost_train cost_dev metric_train metric_dev params_list
         (Some y_pred_train) y_pred_dev,
       early_stop (Dict.mem "dev" (self_y m)) tolerance i cost_train cost_dev).

(** The [for ... else] loop: [i] is the loop variable as Python leaves
    it, the reason is [maxiter_stop] when the range is exhausted. *)
Fixpoint for_loop (B : backend) (m : glm) (metric : string) (tolerance : Z)
    (range : list nat) (i : nat) (v : loop_vars B)
  : outcome (loop_vars B * nat * stop_reason) :=
  match range with
  | [] => Ret (v, i, maxiter_stop)
  | k :: rest =>
      r <- loop_body m metric tolerance k v ;;
      match snd r with
      | Some reason => Ret (fst r, k, reason)
      | None => for_loop m metric tolerance rest k (fst r)
      end
  end.

(** Lines 688-714: the index of the iterate to return. *)
Definition select_best (B : backend) (return_model metric : string)
    (stop : stop_reason) (tolerance : Z) (i : nat) (v : loop_vars B) : outcome Z :=
  let upto (a : list fnum) := py_slice_to a (Z.of_nat i + 1)%Z in
  let low_is_good := String.eqb metric "mse" || String.eqb metric "gcv" in
  if String.eqb return_model "best_dev_cost" then
    k <- np_argmin (upto (v_cost_dev v)) ;; Ret (Z.of_nat k)
  else if String.eqb return_model "best_train_cost" then
    k <- np_argmin (upto (v_cost_train v)) ;; Ret (Z.of_nat k)
  else if String.eqb return_model "best_dev_metric" then
    k <- (if low_is_good then np_argmin (upto (v_metric_dev v))
          else np_argmax (upto (v_metric_dev v))) ;;
    Ret (Z.of_nat k)
  else if String.eqb return_model "best_train_metric" then
    k <- (if low_is_good then np_argmin (upto (v_metric_train v))
          else np_argmax (upto (v_metric_train v))) ;;
    Ret (Z.of_nat k)
  else if String.eqb return_model "last" then
    match stop with
    | dev_stop => Ret (Z.of_nat i - tolerance)%Z
    | _ => Ret (Z.of_nat i)
    end
  else
    k <- np_argmin (upto (v_cost_dev v)) ;; Ret (Z.of_nat k).

(** One call of [optimize]: the value it returns ([run_params]) and the
    local variables as they stand when it returns. *)
Record opt_run (B : backend) : Type := mkRun {
  run_vars : loop_vars B;
  run_i : nat;
  run_stop : stop_reason;
  run_best : Z;
  run_params : params
}.

(** Lines 621-628: the optimiser state and the preallocated traces. *)
Definition initial_vars (B : backend) (p0 : params) (num_iters : nat) : loop_vars B :=
  let nans := repeat NaN num_iters in
  mkVars B (opt_init B p0) nans nans nans nans [] None None.

Definition optimize (B : backend) (m : glm) (p0 : params) (num_iters : nat)
    (metric : string) (tolerance : Z) (return_model : string)
  : outcome (glm * opt_run B) :=
  r <- for_loop m metric tolerance (seq 0 num_iters) 0 (initial_vars B p0 num_iters) ;;
  let '(v, i, stop) := r in
  best <- select_best return_model metric stop tolerance i v ;;
  params <- py_index (v_params_list v) best ;;
  metric_dev_opt <- py_index (v_metric_dev v) best ;;
  let upto (A : Type) (a : list A) := py_slice_to a (Z.of_nat i + 1)%Z in
  let m := set_cost_train (upto _ (v_cost_train v)) m in
  let m := set_cost_dev (upto _ (v_cost_dev v)) m in
  let m := set_metric_train (upto _ (v_metric_train v)) m in
  let m := set_metric_dev (upto _ (v_metric_dev v)) m in
  let m := set_metric_dev_opt (Some metric_dev_opt) m in
  let m := set_all_params (upto _ (v_params_list v)) m in
  ypt <- from_option (UnboundLocalError "y_pred_train") (v_y_pred_train v) ;;
  yp <- set2 "opt" "train" ypt (self_y_pred m) ;;
  let m := set_y_pred yp m in
  m <- (if Dict.mem "dev" (self_y m) then
          ypd <- from_option (UnboundLocalError "y_pred_dev") (v_y_pred_dev v) ;;
          yp <- set2 "opt" "dev" ypd (self_y_pred m) ;;
          Ret (set_y_pred yp m)
        else Ret m) ;;
  Ret (m, mkRun v i stop best params).

(** ** [GLM.fit] *)

Record fit_args : Type := mkFit {
  fa_y : response;
  fa_num_iters : nat;
  fa_alpha : fnum;
  fa_beta : fnum;
  fa_metric : string;
  fa_tolerance : Z;
  fa_return_model : string
}.

(** [GLM._extract_opt_params] *)
Definition _extract_opt_params (B : backend) (m : glm) : outcome glm :=
  let m := set_b (Dict.set "opt" [] (self_b m)) m in
  let m := set_w (Dict.set "opt" [] (self_w m)) m in
  m <- foldM (fun m name =>
                popt <- Dict.item "opt" (self_p m) ;;
                if Dict.mem name (self_S m) then
                  coef <- p_array name popt ;;
                  bb <- set2 "opt" name coef (self_b m) ;;
                  let m := set_b bb m in
                  Sn <- Dict.item name (self_S m) ;;
                  bn <- item2 "opt" name (self_b m) ;;
                  wv <- matmul Sn bn ;;
                  ww <- set2 "opt" name wv (self_w m) ;;
                  Ret (set_w ww m)
                else
                  coef <- p_array name popt ;;
                  ww <- set2 "opt" name coef (self_w m) ;;
                  Ret (set_w ww m))
         (self_filter_names m) m ;;
  popt <- Dict.item "opt" (self_p m) ;;
  ics <- p_intercept popt ;;
  let m := set_intercept (Dict.set "opt" ics (self_intercept m)) m in
  ci <- attr "compute_ci" (self_compute_ci m) ;;
  if ci : bool then
    m <- _get_filter_variance B "opt" m ;;
    m <- _get_response_variance B "opt" "train" m ;;
    if Dict.mem "dev" (self_y m) then _get_response_variance B "opt" "dev" m
    else Ret m
  else Ret m.

(** Lines 781-790: the response stored for the fit. *)
Definition store_response (yarg : response) (m : glm) : outcome glm :=
  match yarg with
  | YNone =>
      if Dict.mem "train" (self_y m) then Ret m
      else Raise (ValueError "No `y` is provided.")
  | YDict d =>
      yt <- Dict.item "train" d ;;
      bi <- attr "burn_in" (self_burn_in m) ;;
      let m := set_y (Dict.set "train" (py_slice_from yt bi) (self_y m)) m in
      match Dict.get "dev" d with
      | Some yd => Ret (set_y (Dict.set "dev" (py_slice_from yd bi) (self_y m)) m)
      | None => Ret m
      end
  | YArr v =>
      bi <- attr "burn_in" (self_burn_in m) ;;
      Ret (set_y (Dict.set "train" (py_slice_from v bi) (self_y m)) m)
  end.

(** Lines 778-779: the selection policy [optimize] is called with. *)
Definition effective_policy (m : glm) (return_model : string) : string :=
  if Dict.mem "dev" (self_y m) then return_model else "last".

Definition fit (B : backend) (a : fit_args) (m : glm) : outcome glm :=
  let m := set_alpha (Some (fa_alpha a)) m in
  let m := set_beta (Some (fa_beta a)) m in
  let m := set_metric (Some (fa_metric a)) m in
  let return_model := effective_policy m (fa_return_model a) in
  m <- store_response (fa_y a) m ;;
  let m := set_y_pred (Dict.set "opt" [] (self_y_pred m)) m in
  p0 <- attr "p0" (self_p0 m) ;;
  r <- optimize B m p0 (fa_num_iters a) (fa_metric a) (fa_tolerance a) return_model ;;
  let m := set_p (Dict.set "opt" (run_params (snd r)) (self_p (fst r))) (fst r) in
  _extract_opt_params B m.

(** ** [GLM.predict] *)

(** The stimulus handed to [predict] and [score]: an array, or a
    dictionary of arrays keyed by filter name. *)
Inductive stimulus : Type :=
| XArr (x : ndarray)
| XDict (d : dict ndarray).

(** The stored [self.dims[name]] passed back as the [dims] argument. *)
Definition dims_arg (d : option (list Z)) : int_or_list :=
  match d with
  | None => ArgNone
  | Some l => ArgList l
  end.

(** [self.add_design_matrix(x, dims=self.dims[name],
    shift=self.shift[name], name=name, kind='test')] *)
Definition add_test_matrix (B : backend) (name : string) (x : ndarray) (m : glm)
  : outcome glm :=
  dims <- Dict.item name (self_dims m) ;;
  shift <- Dict.item name (self_shift m) ;;
  add_design_matrix B
    (mkArgs x (dims_arg dims) ArgNone None true (LamScalar f0) "none" "test" name
       shift None) m.

(** Lines 848-855: the test matrices of the stimulus copied under every
    subunit filter, and the aggregate entries removed. *)
Definition alias_test (m : glm) : outcome glm :=
  ns <- attr "num_subunits" (self_num_subunits m) ;;
  if (ns =? 1)%Z then Ret m
  else
    m <- foldM (fun m name =>
                  if contains "stimulus" name then
                    xt <- item2 "test" "stimulus" (self_X m) ;;
                    xx <- set2 "test" name xt (self_X m) ;;
                    let m := set_X xx m in
                    xst <- item2 "test" "stimulus" (self_XS m) ;;
                    xs <- set2 "test" name xst (self_XS m) ;;
                    Ret (set_XS xs m)
                  else Ret m)
           (self_filter_names m) m ;;
    xx <- pop2 "test" "stimulus" (self_X m) ;;
    let m := set_X xx m in
    xs <- pop2 "test" "stimulus" (self_XS m) ;;
    Ret (set_XS xs m).

(** The method returns [y_pred]; the model it leaves behind comes with it. *)
Definition predict (B : backend) (X : stimulus) (w_type : string) (m : glm)
  : outcome (glm * vec) :=
  p <- Dict.item w_type (self_p m) ;;
  let m := set_X (Dict.set "test" [] (self_X m)) m in
  let m := set_XS (Dict.set "test" [] (self_XS m)) m in
  m <- (match X with
        | XDict d =>
            foldM (fun m name => x <- Dict.item name d ;; add_test_matrix B name x m)
              (Dict.keys d) m
        | XArr x => add_test_matrix B "stimulus" x m
        end) ;;
  m <- alias_test m ;;
  y_pred <- forwardpass B m p "test" ;;
  ci <- attr "compute_ci" (self_compute_ci m) ;;
  m <- (if ci : bool then _get_response_variance B w_type "test" m else Ret m) ;;
  Ret (m, y_pred).

(** ** [GLM.score] *)

(** The score [s] ([None] for an unsupported metric) and the prediction
    that [return_prediction=True] returns beside it. *)
Definition score (B : backend) (X_test : stimulus) (y_test : vec)
    (metric w_type : string) (m : glm) : outcome (glm * option fnum * vec) :=
  bi <- attr "burn_in" (self_burn_in m) ;;
  let y_test := py_slice_from y_test bi in
  r <- (match X_test with
        | XDict d => predict B (XDict d) w_type m
        | XArr x => predict B (XDict [("stimulus", x)]) w_type m
        end) ;;
  s <- returned (compute_score B (fst r) y_test (snd r) metric) ;;
  Ret (fst r, s, snd r).

(** ** Sequences of method calls *)

Inductive method_call : Type :=
| call_add_design_matrix (a : adm_args)
| call_compute_mle (y : response) (compute_ci : bool)
| call_initialize (a : init_args)
| call_fit (a : fit_args)
| call_predict (X : stimulus) (w_type : string)
| call_score (X_test : stimulus) (y_test : vec) (metric w_type : string).

Definition run_call (B : backend) (m : glm) (c : method_call) : outcome glm :=
  match c with
  | call_add_design_matrix a => add_design_matrix B a m
  | call_compute_mle y ci => compute_mle B y ci m
  | call_initialize a => initialize B a m
  | call_fit a => fit B a m
  | call_predict X w_type => r <- predict B X w_type m ;; Ret (fst r)
  | call_score X y metric w_type => r <- score B X y metric w_type m ;; Ret (fst (fst r))
  end.

(** The model after a sequence of calls on a new object. *)
Definition run_calls (B : backend) (distr output_nonlinearity : string)
    (calls : list method_call) : outcome glm :=
  foldM (run_call B) calls (init distr output_nonlinearity).

(** ** Notions used in the statements *)

(** An entry of [r] after "replace any infinite entry with 0, floor at
    1e-20", in the words of the specification. *)
Definition spec_floor (x : fnum) : fnum :=
  fmaximum (if isinf x then f0 else x) c_1e_20.

(** [0.5 * sum((y - r)^2)], in the words of the specification. *)
Definition spec_gaussian_cost (yv r : vec) : fnum :=
  fmul c_half (vsum (map (fun d => fmul d d) (zip_with fsub yv r))).

(** [-log(r') . y + sum(r')], in the words of the specification. *)
Definition spec_poisson_cost (B : backend) (yv r : vec) : fnum :=
  let r' := map spec_floor r in
  fadd (vsum (zip_with fmul (map (fun x => fneg (flog B x)) r') yv)) (vsum r').

Definition supported_metrics : list string :=
  ["r2"; "r2adj"; "mse"; "corrcoef"; "gcv"].

(** The part of the model that the subunit renaming reads and that
    parameter initialisation leaves alone. *)
Definition registry (m : glm) :=
  (self_dims m, self_shift m, self_filter_nonlinearity m, self_filter_names m,
   self_X m).

Definition key_error (e : exn) : Prop := exists k, e = KeyError k.

(** A computation whose only failures are [KeyError]s. *)
Definition only_key_errors {A : Type} (c : outcome A) : Prop :=
  forall e, c = Raise e -> key_error e.

(** One aliasing step on a dictionary: the entry of ['stimulus'] is
    copied under [name]. *)
Definition alias_entry {V : Type} (name : string) (D D' : dict V) : Prop :=
  exists d, Dict.get "stimulus" D = Some d /\ D' = Dict.set name d D.

(** What the early-stop test of iteration [k] sees of the cost arrays:
    their length and the entries before [k]. *)
Definition same_before (k : nat) (a a' : list fnum) : Prop :=
  length a' = length a /\ firstn k a' = firstn k a.

(** What the reason of a finished loop says about the test made at the
    last executed iteration. *)
Definition test_at_stop (stop : stop_reason) : option stop_reason :=
  match stop with
  | maxiter_stop => None
  | s => Some s
  end.

(** [y] carries a dev response. *)
Definition response_has_dev (yarg : response) : bool :=
  match yarg with
  | YDict d => Dict.mem "dev" d
  | _ => false
  end.

(** Equality of two 1-D arrays as numbers, entry by entry ([==]). *)
Definition vec_eqb (u v : vec) : bool :=
  (length u =? length v)
  && forallb (fun ab => feqb (fst ab) (snd ab)) (combine u v).

(** ** Concrete models *)

(** A backend with trivial numerics: the design-matrix builder returns
    its input, the solver returns [solution], the optimiser state is the
    parameter set itself and [update] is one optimiser step. *)
Definition demo_backend (solution : vec) (update : glm -> nat -> params -> params)
  : backend :=
  mkBackend (fun x => x) (fun x => x) (fun x => x) (fun x => x)
    (fun Xin _ _ => Xin)
    (fun _ _ _ _ => (mkMat 0 [], mkMat 0 []))
    (fun M => M)
    (fun _ _ => solution)
    (fun _ r c => mkMat c (repeat (repeat f0 c) r))
    (fun _ _ => f0) (fun _ _ _ => f0) (fun _ _ => f0) (fun _ _ => f0)
    (fun _ _ _ => f0)
    (fun p => p) (fun p => p) update
    (fun _ _ => Ret ([], [], []))
    (fun _ _ _ => Ret ([], [], [])).

(** An optimiser that does not move. *)
Definition still_backend : backend := demo_backend [] (fun _ _ p => p).

(** An optimiser that adds 1 to every coefficient at each step. *)
Definition drift (_ : glm) (_ : nat) (p : params) : params :=
  map (fun kv => (fst kv,
                  match snd kv with
                  | PArr a => PArr (mkMat (ncols a) (map (map (fadd f1)) (rows a)))
                  | other => other
                  end)) p.

Definition drift_backend : backend := demo_backend [] drift.

(** The value of a call known to return. *)
Definition value_or {A : Type} (default : A) (c : outcome A) : A :=
  match c with
  | Ret a => a
  | Raise _ => default
  end.

Definition fresh_glm : glm := init "gaussian" "none".

(** *** Registrations *)

(** A 6-sample stimulus with one pixel, registered with or without
    time lag. *)
Definition demo_stimulus : ndarray :=
  Arr1 [of_nat 1; of_nat 2; of_nat 3; of_nat 4; of_nat 5; of_nat 6].

Definition lagged_call (kind name : string) (d : Z) : adm_args :=
  mkArgs demo_stimulus (ArgInt d) ArgNone None true (LamScalar f0) "none" kind name
    0%Z None.

Definition unlagged_call (kind name : string) : adm_args :=
  mkArgs demo_stimulus (ArgInt 1%Z) ArgNone None false (LamScalar f0) "none" kind name
    0%Z None.

(** A model with one lagged train filter of temporal extent 5 ... *)
Definition demo_first : glm :=
  value_or fresh_glm
    (add_design_matrix still_backend (lagged_call "train" "stimulus" 5) fresh_glm).


(** ... or instead an unlagged filter followed by a lagged one. *)
Definition demo_unlagged : glm :=
  value_or fresh_glm
    (add_design_matrix still_backend (unlagged_call "train" "instant") demo_first).


(** A model whose only filter is a train-split ['history'] filter. *)
Definition demo_history : glm :=
  value_or fresh_glm
    (add_design_matrix still_backend (lagged_call "train" "history" 3) fresh_glm).

(** A model with the stimulus registered on the train and dev splits. *)
Definition demo_train_dev : glm :=
  value_or fresh_glm
    (add_design_matrices still_backend
       [lagged_call "train" "stimulus" 5; lagged_call "dev" "stimulus" 5] fresh_glm).

(** *** Initialisation *)

(** [initialize(num_subunits=k, method='random')], other arguments at
    their defaults. *)
Definition random_init (k : Z) : init_args :=
  mkInit YNone k "random" true 2046%Z f0.

Definition demo_subunits : glm :=
  value_or fresh_glm (initialize still_backend (random_init 3) demo_train_dev).

(** *** Maximum likelihood *)

(** One unsmoothed filter with two features and three samples.  The
    design matrix of [compute_mle] is then
    [[1 1 1 2]; [1 1 3 4]; [1 1 5 6]] and, for the response [7, 8, 9],
    the minimum-norm least-squares solution is [5/2, 5/2, -1, 3/2]. *)
Definition two_feature_input : ndarray :=
  Arr2 (mkMat 2 [[of_nat 1; of_nat 2]; [of_nat 3; of_nat 4]; [of_nat 5; of_nat 6]]).

Definition two_feature_call : adm_args :=
  mkArgs two_feature_input (ArgInt 1%Z) ArgNone None true (LamScalar f0) "none"
    "train" "stimulus" 0%Z None.

Definition two_feature_design : matrix :=
  mkMat 4 [[f1; f1; of_nat 1; of_nat 2];
           [f1; f1; of_nat 3; of_nat 4];
           [f1; f1; of_nat 5; of_nat 6]].

Definition two_feature_y : vec := [of_nat 7; of_nat 8; of_nat 9].

Definition two_feature_solution : vec :=
  [Fin (5 # 2); Fin (5 # 2); Fin (-1 # 1); Fin (3 # 2)].

(** Two vectors spanning the null space of the design matrix. *)
Definition two_feature_kernel : list vec :=
  [[f1; Fin (-1 # 1); f0; f0]; [f1; f0; f1; Fin (-1 # 1)]].

Definition solver_backend : backend :=
  demo_backend two_feature_solution (fun _ _ p => p).

Definition two_feature_model : glm :=
  value_or fresh_glm (add_design_matrix solver_backend two_feature_call fresh_glm).

Definition two_feature_mle : glm :=
  value_or fresh_glm
    (compute_mle solver_backend (YArr two_feature_y) false two_feature_model).

(** *** Optimisation *)

(** A two-sample model for the optimiser: the stimulus is registered on
    the train and dev splits with temporal extent 1 (burn-in 0), and the
    parameters are initialised (to zero, with this backend). *)
Definition flat_call (kind : string) : adm_args :=
  mkArgs (Arr1 [f1; f1]) (ArgInt 1%Z) ArgNone None true (LamScalar f0) "none" kind
    "stimulus" 0%Z None.

Definition demo_initialized : glm :=
  value_or fresh_glm
    (m <- add_design_matrices still_backend [flat_call "train"; flat_call "dev"]
            fresh_glm ;;
     initialize still_backend (mkInit YNone 1 "random" false 2046%Z f0) m).

(** The same model as [fit] hands it to [optimize], with a train
    response only ... *)
Definition demo_ready : glm :=
  set_y_pred [("opt", [])]
    (set_y [("train", [f0; f0])]
       (set_metric (Some "mse") (set_beta (Some f0) (set_alpha (Some f1)
          demo_initialized)))).

(** ... and with both responses. *)
Definition demo_ready_dev : glm :=
  set_y [("train", [f0; f0]); ("dev", [f0; f0])] demo_ready.

Definition demo_p0 : params := value_or [] (attr "p0" (self_p0 demo_initialized)).

Definition no_run (B : backend) : glm * opt_run B :=
  (fresh_glm, mkRun (initial_vars B [] 0) 0 maxiter_stop 0%Z []).

(** 400 iterations allowed, tolerance 10, the optimiser that does not
    move: the train cost is constant. *)
Definition demo_still_run : glm * opt_run still_backend :=
  value_or (no_run still_backend)
    (optimize still_backend demo_ready demo_p0 400 "mse" 10%Z "last").

(** Three iterations of the drifting optimiser with policy
    [best_dev_cost]: the dev cost grows with the iterations. *)
Definition demo_best_run : glm * opt_run drift_backend :=
  value_or (no_run drift_backend)
    (optimize drift_backend demo_ready_dev demo_p0 3 "mse" 10%Z "best_dev_cost").

(** [fit(y={'train': [1000, 1000], 'dev': [0, 0]}, num_iters=400,
    tolerance=10, return_model='best_dev_cost')] with the drifting
    optimiser, on the initialised model, which holds no dev response
    yet.  The weight climbs from 0 towards the train target: the train
    cost falls and the dev cost rises at every step. *)
Definition demo_fit_args : fit_args :=
  mkFit (YDict [("train", [of_nat 1000; of_nat 1000]); ("dev", [f0; f0])])
    400 f1 f0 "mse" 10%Z "best_dev_cost".

Definition demo_fitted : glm :=
  value_or fresh_glm (fit drift_backend demo_fit_args demo_initialized).

(** ** Notions used in the further properties *)


(** [name in d[kind]]; false when [d] has no key [kind]. *)
Definition in_split {V : Type} (kind name : string) (d : dict (dict V)) : bool :=
  match Dict.get kind d with
  | Some inner => Dict.mem name inner
  | None => false
  end.

(** What [add_design_matrix] records about the filters on the train
    split. *)
Definition filter_registry (m : glm) :=
  (self_filter_names m, self_dims m, self_shift m, self_filter_nonlinearity m,
   self_n_features m, self_edf m).

(** The attributes fixed by [__init__]. *)
Definition config (m : glm) :=
  (self_distr m, self_output_nonlinearity m, self_edf_tot m).

(** The 2-D array [add_design_matrix] works on: a 1-D input becomes a
    column. *)
Definition as_2d (X : ndarray) : matrix :=
  match X with
  | Arr1 v => column v
  | Arr2 M => M
  end.

(** *** Further registrations *)

(** The stimulus of [demo_first] registered on the dev split as well. *)
Definition demo_dev : glm :=
  value_or fresh_glm
    (add_design_matrix still_backend (lagged_call "dev" "stimulus" 5) demo_first).

(** A backend whose spline builder returns the 1-by-1 identity basis
    with a zero penalty. *)
Definition spline_backend : backend :=
  mkBackend (fun x => x) (fun x => x) (fun x => x) (fun x => x)
    (fun Xin _ _ => Xin)
    (fun _ _ _ _ => (mkMat 1 [[f1]], mkMat 1 [[f0]]))
    (fun M => M)
    (fun _ _ => [])
    (fun _ r c => mkMat c (repeat (repeat f0 c) r))
    (fun _ _ => f0) (fun _ _ _ => f0) (fun _ _ => f0) (fun _ _ => f0)
    (fun _ _ _ => f0)
    (fun p => p) (fun p => p) (fun _ _ p => p)
    (fun _ _ => Ret ([], [], []))
    (fun _ _ _ => Ret ([], [], [])).

(** [add_design_matrix(X, dims=1, df=1, smooth='cr', kind=kind)] on a
    two-sample stimulus. *)
Definition smooth_call (kind : string) : adm_args :=
  mkArgs (Arr1 [f1; c_2]) (ArgInt 1%Z) (ArgInt 1%Z) (Some "cr") true (LamScalar f0)
    "none" kind "stimulus" 0%Z None.

Definition demo_smooth : glm :=
  value_or fresh_glm (add_design_matrix spline_backend (smooth_call "train") fresh_glm).

(** *** Further runs *)

(** [fit] asked for no iteration at all. *)
Definition no_iteration_args : fit_args :=
  mkFit (YArr [f0; f0]) 0 f1 f0 "mse" 10%Z "last".

(** 400 iterations allowed with a tolerance of 350, the drifting
    optimiser and the train response [0, 0]: the train cost grows at
    every step. *)
Definition demo_wide_run : glm * opt_run drift_backend :=
  value_or (no_run drift_backend)
    (optimize drift_backend demo_ready demo_p0 400 "mse" 350%Z "last").

(** 400 iterations allowed with a tolerance of 10, the drifting
    optimiser and the train response [1000, 1000]: the train cost falls
    at every step. *)
Definition demo_converging : glm :=
  set_y [("train", [of_nat 1000; of_nat 1000])] demo_ready.

Definition demo_converging_run : glm * opt_run drift_backend :=
  value_or (no_run drift_backend)
    (optimize drift_backend demo_converging demo_p0 400 "mse" 10%Z "last").

(** The entries of [l] are finite and none is above the one before. *)
Fixpoint non_increasing (l : list fnum) : bool :=
  match l with
  | [] => true
  | a :: t =>
      match a, t with
      | Fin _, [] => true
      | Fin x, Fin y :: _ => Qle_bool y x && non_increasing t
      | _, _ => false
      end
  end.

(** The values of [return_model] that [optimize] knows. *)
Definition selection_policies : list string :=
  ["best_dev_cost"; "best_train_cost"; "best_dev_metric"; "best_train_metric"; "last"].

(** *** A session *)

(** A smoothed stimulus filter is registered, the parameters are
    initialised at random, the model is fitted for three iterations and
    used for a prediction. *)
Definition session_fit_args : fit_args :=
  mkFit (YArr [f0; f0]) 3 f1 f0 "mse" 10%Z "last".

Definition demo_calls : list method_call :=
  [call_add_design_matrix (smooth_call "train");
   call_initialize (mkInit YNone 1 "random" false 2046%Z f0);
   call_fit session_fit_args;
   call_predict (XArr (Arr1 [f1; c_2; f1])) "opt"].

Definition demo_session : glm :=
  value_or fresh_glm (run_calls spline_backend "poisson" "softplus" demo_calls).

(** What [compute_mle] reads of the registrations and what it stores of
    the response. *)
Definition mle_inputs (m : glm) :=
  (self_y m, self_burn_in m, self_filter_names m, self_n_features m).

(** The stimulus of [demo_first] registered a second time on the train
    split. *)
Definition demo_twice : glm :=
  value_or fresh_glm
    (add_design_matrix still_backend (lagged_call "train" "stimulus" 5) demo_first).

(** Everything the registrations build: the design matrices, the
    spline bases and penalties, the registry and the burn-in. *)
Definition design (m : glm) :=
  (self_X m, self_XS m, self_S m, self_P m, self_df m, self_lam m,
   filter_registry m, self_burn_in m).

(** The calls that estimate parameters without renaming filters. *)
Definition estimation_call (c : method_call) : bool :=
  match c with
  | call_compute_mle _ _ => true
  | call_initialize a => (ia_num_subunits a =? 1)%Z
  | call_fit _ => true
  | _ => false
  end.

(** What construction and the registrations fix. *)
Definition setup (m : glm) := (design m, config m).

(** The estimation part of the session, run on the registered model. *)
Definition estimation_calls : list method_call :=
  [call_initialize (mkInit YNone 1 "random" false 2046%Z f0);
   call_fit session_fit_args].

Definition demo_estimated : glm :=
  value_or fresh_glm (foldM (run_call spline_backend) estimation_calls demo_smooth).

(** What a fit leaves on the model for later predictions. *)
Definition fitted (m : glm) :=
  (self_p m, self_y m, filter_registry m, self_S m, self_P m,
   self_num_subunits m, self_compute_ci m).

(** [predict] on the estimated model, twice: with an array, then with a
    dictionary that names the stimulus. *)
Definition demo_predicted : glm * vec :=
  value_or (fresh_glm, [])
    (predict spline_backend (XArr (Arr1 [f1; c_2; f1])) "opt" demo_estimated).

Definition demo_predicted_again : glm * vec :=
  value_or (fresh_glm, [])
    (predict spline_backend (XDict [("stimulus", Arr1 [c_2; c_2])]) "opt"
       (fst demo_predicted)).

(** The model of [demo_initialized] after a fit: its filter has no
    spline basis. *)
Definition demo_unsmoothed_fit : glm :=
  value_or fresh_glm (fit still_backend session_fit_args demo_initialized).

(** The filters a stimulus argument names: ['stimulus'] for an array,
    the keys for a dictionary. *)
Definition named_filters (X : stimulus) : list string :=
  match X with
  | XArr _ => ["stimulus"]
  | XDict d => Dict.keys d
  end.

(** The unpenalised dev cost of the initial parameters. *)
Definition demo_dev_cost : fnum :=
  value_or NaN (cost still_backend demo_ready_dev demo_p0 "dev" None false).

(** What the prediction was made of. *)
Definition demo_opt : params :=
  value_or [] (Dict.item "opt" (self_p (fst demo_predicted))).

Definition demo_test_split : dict matrix :=
  value_or [] (Dict.item "test" (self_X (fst demo_predicted))).

Definition demo_test_projected : matrix :=
  value_or (mkMat 0 []) (item2 "test" "stimulus" (self_XS (fst demo_predicted))).

Definition demo_opt_stimulus : matrix :=
  value_or (mkMat 0 []) (p_array "stimulus" demo_opt).

(** The pairs of consecutive iterations [(j, j + 1)] among the
    [t] iterations before [k], that is [k - t .. k - 1]: their first
    members [j], from [k - t] to [k - 2]. *)
Definition compared_pairs (k : nat) (t : Z) : list nat :=
  seq (k - Z.to_nat t) (Z.to_nat t - 1).

(** Over the [t] iterations before [k], each recorded cost is strictly
    below the next one. *)
Definition rising_before (k : nat) (t : Z) (a : list fnum) : bool :=
  forallb (fun j => fltb (nth j a NaN) (nth (S j) a NaN)) (compared_pairs k t).

(** Over the [t] iterations before [k], each recorded cost exceeds the
    one before it by less than 1e-5. *)
Definition flat_before (k : nat) (t : Z) (a : list fnum) : bool :=
  forallb (fun j => fltb (fsub (nth (S j) a NaN) (nth j a NaN)) c_1e_5)
    (compared_pairs k t).

(** An optimiser that stays still except at iteration 300, where it
    adds 1 to every coefficient: with the train response [0, 0] the
    train cost is 0 up to iteration 300 and 1 at iteration 301. *)
Definition jump (m : glm) (i : nat) (p : params) : params :=
  if i =? 300 then drift m i p else p.

Definition jump_backend : backend := demo_backend [] jump.

Definition demo_jump_run : glm * opt_run jump_backend :=
  value_or (no_run jump_backend)
    (optimize jump_backend demo_ready demo_p0 400 "mse" 10%Z "last").

(** * Proofs *)

Unset Implicit Arguments.

(** ** Tactics for the error monad *)

Lemma bind_ret_inv (A C : Type) (c : outcome A) (k : A -> outcome C) (r : C) :
  bind c k = Ret r -> exists a, c = Ret a /\ k a = Ret r.
Proof.
  destruct c as [a|e]; simpl; intros H; [exists a; split; auto | discriminate].
Qed.

Ltac bind_inv H :=
  repeat match type of H with
         | bind ?c _ = Ret _ =>
             let a := fresh "a" in
             let E := fresh "E" in
             apply bind_ret_inv in H; destruct H as (a & E & H)
         | Raise _ = Ret _ => discriminate H
         end.

(** The same, ending with the equation between the returned values. *)
Ltac ret_inv H := bind_inv H; inversion H; subst; clear H.

Lemma eqb_false_of_neq (s t : string) : s <> t -> String.eqb s t = false.
Proof. intros H. apply String.eqb_neq. exact H. Qed.

(** ** Inversion of a successful run *)

Ltac step_inv :=
  match goal with
  | H : bind _ _ = Ret _ |- _ =>
      let E := fresh "E" in
      apply bind_ret_inv in H; destruct H as (? & E & H)
  | H : Raise _ = Ret _ |- _ => discriminate H
  | H : Ret _ = Ret _ |- _ => inversion H; subst; clear H
  | H : (if ?b then _ else _) = Ret _ |- _ => destruct b eqn:?
  | H : match ?x with _ => _ end = Ret _ |- _ => destruct x eqn:?
  end.

Ltac run_inv := repeat (cbv zeta in *; step_inv).

(** ** Dictionaries *)

Lemma get_set_same (V : Type) (k : string) (v : V) (d : dict V) :
  Dict.get k (Dict.set k v d) = Some v.
Proof.
  induction d as [|[k' v'] d IH]; simpl.
  - now rewrite String.eqb_refl.
  - destruct (String.eqb k k') eqn:E; simpl.
    + now rewrite String.eqb_refl.
    + now rewrite E.
Qed.

Lemma get_set_other (V : Type) (k k' : string) (v : V) (d : dict V) :
  k <> k' -> Dict.get k (Dict.set k' v d) = Dict.get k d.
Proof.
  intros Hne. induction d as [|[k0 v0] d IH]; simpl.
  - now rewrite (eqb_false_of_neq _ _ Hne).
  - destruct (String.eqb k' k0) eqn:E; simpl.
    + apply String.eqb_eq in E. subst k0.
      now rewrite (eqb_false_of_neq _ _ Hne).
    + destruct (String.eqb k k0); [reflexivity | exact IH].
Qed.

Lemma mem_set (V : Type) (k k' : string) (v : V) (d : dict V) :
  Dict.mem k (Dict.set k' v d) = String.eqb k k' || Dict.mem k d.
Proof.
  unfold Dict.mem. destruct (String.eqb k k') eqn:E.
  - apply String.eqb_eq in E. subst k'. now rewrite get_set_same.
  - apply String.eqb_neq in E. now rewrite (get_set_other _ _ _ _ _ E).
Qed.

Lemma item_ret (V : Type) (k : string) (d : dict V) (v : V) :
  Dict.item k d = Ret v -> Dict.get k d = Some v.
Proof.
  unfold Dict.item. destruct (Dict.get k d); simpl; congruence.
Qed.

Lemma item_mem (V : Type) (k : string) (d : dict V) (v : V) :
  Dict.item k d = Ret v -> Dict.mem k d = true.
Proof.
  intros H. apply item_ret in H. unfold Dict.mem. now rewrite H.
Qed.

Lemma set2_ret (V : Type) (k1 k2 : string) (v : V) (d d' : dict (dict V)) :
  set2 k1 k2 v d = Ret d' ->
  exists inner, Dict.get k1 d = Some inner
                /\ d' = Dict.set k1 (Dict.set k2 v inner) d.
Proof.
  unfold set2. intros H. bind_inv H. apply item_ret in E.
  exists a. split; [exact E | congruence].
Qed.

Lemma set2_mem (V : Type) (k k1 k2 : string) (v : V) (d d' : dict (dict V)) :
  set2 k1 k2 v d = Ret d' -> Dict.mem k d' = Dict.mem k d.
Proof.
  intros H. apply set2_ret in H. destruct H as (inner & Hget & ->).
  rewrite mem_set. destruct (String.eqb k k1) eqn:E; [|reflexivity].
  apply String.eqb_eq in E. subst k1. unfold Dict.mem. now rewrite Hget.
Qed.

Lemma pop2_mem (V : Type) (k k1 k2 : string) (d d' : dict (dict V)) :
  pop2 k1 k2 d = Ret d' -> Dict.mem k d' = Dict.mem k d.
Proof.
  unfold pop2. intros H. bind_inv H. injection H as <-.
  rewrite mem_set. destruct (String.eqb k k1) eqn:Ek; [|reflexivity].
  apply String.eqb_eq in Ek. subst k1. simpl. symmetry. eapply item_mem. eassumption.
Qed.

(** ** Computations that can only fail with a [KeyError] *)

Lemma oke_ret (A : Type) (a : A) : only_key_errors (Ret a).
Proof. intros e H. discriminate H. Qed.

Lemma oke_bind (A C : Type) (c : outcome A) (k : A -> outcome C) :
  only_key_errors c -> (forall a, only_key_errors (k a)) ->
  only_key_errors (bind c k).
Proof.
  intros Hc Hk e. destruct c as [a|e0]; simpl.
  - apply Hk.
  - intros H. injection H as <-. now apply Hc.
Qed.

Lemma oke_item (V : Type) (k : string) (d : dict V) : only_key_errors (Dict.item k d).
Proof.
  intros e. unfold Dict.item. destruct (Dict.get k d); simpl; intros H.
  - discriminate H.
  - injection H as <-. now exists k.
Qed.

Lemma oke_pop (V : Type) (k : string) (d : dict V) : only_key_errors (Dict.pop k d).
Proof.
  intros e. unfold Dict.pop. destruct (Dict.mem k d); intros H.
  - discriminate H.
  - injection H as <-. now exists k.
Qed.

Lemma oke_item2 (V : Type) (k1 k2 : string) (d : dict (dict V)) :
  only_key_errors (item2 k1 k2 d).
Proof.
  unfold item2. apply oke_bind; [apply oke_item | intros; apply oke_item].
Qed.

Lemma oke_set2 (V : Type) (k1 k2 : string) (v : V) (d : dict (dict V)) :
  only_key_errors (set2 k1 k2 v d).
Proof.
  unfold set2. apply oke_bind; [apply oke_item | intros; apply oke_ret].
Qed.

Lemma oke_pop2 (V : Type) (k1 k2 : string) (d : dict (dict V)) :
  only_key_errors (pop2 k1 k2 d).
Proof.
  unfold pop2. apply oke_bind; [apply oke_item | intros].
  apply oke_bind; [apply oke_pop | intros; apply oke_ret].
Qed.

Lemma oke_foldM (A S : Type) (body : S -> A -> outcome S) (l : list A) :
  (forall s a, only_key_errors (body s a)) ->
  forall s, only_key_errors (foldM body l s).
Proof.
  intros Hb. induction l as [|a l IH]; intros s; simpl.
  - apply oke_ret.
  - apply oke_bind; [apply Hb | exact IH].
Qed.

Ltac oke :=
  repeat first
    [ apply oke_ret | apply oke_item | apply oke_item2 | apply oke_set2
    | apply oke_pop2 | apply oke_pop
    | apply oke_bind; [|intros ?]
    | match goal with
      | |- only_key_errors (if ?b then _ else _) => destruct b
      | |- only_key_errors (match ?x with _ => _ end) => destruct x
      end ].

Lemma alias_filter_oke (method name : string) (m : glm) :
  only_key_errors (alias_filter method name m).
Proof. unfold alias_filter. cbv zeta. oke. Qed.

Lemma foldM_invariant (A S : Type) (P : S -> Prop) (body : S -> A -> outcome S) :
  (forall s a s', P s -> body s a = Ret s' -> P s') ->
  forall l s s', P s -> foldM body l s = Ret s' -> P s'.
Proof.
  intros Hb. induction l as [|a l IH]; intros s s' Hs H; simpl in H.
  - injection H as <-. exact Hs.
  - bind_inv H. eapply IH; [|exact H]. eapply Hb; eassumption.
Qed.

(** ** C1: slicing the least-squares solution *)

(** The first slice always starts at index 0, the position of the
    global-intercept column, whatever the filters are. *)
Lemma first_block_starts_at_global_column (m : glm) (name : string) (n : nat)
    (others : dict nat) :
  self_n_features m = (name, n) :: others ->
  nth_error (block_bounds m) 0 = Some (0, n + 1).
Proof.
  intros H. unfold block_bounds. rewrite H. reflexivity.
Qed.

(** C1 at a concrete input.  The design matrix has the columns
    [global ones | filter ones | feature 0 | feature 1], and
    [5/2, 5/2, -1, 3/2] is the minimum-norm least-squares solution for
    the response [7, 8, 9]: it solves the normal equations and is
    orthogonal to the null space of the design.  By the claim the
    filter's block is positions 1-3 of the solution, intercept 5/2 and
    weights -1, 3/2.  The code slices positions 0-2: it stores the
    global coefficient as the filter's intercept and 5/2, -1 as its
    weights, and never reads the last coefficient. *)
Theorem mle_slices_from_global_column :
  add_design_matrix solver_backend two_feature_call fresh_glm = Ret two_feature_model
  /\ mle_design two_feature_model 3 = Ret two_feature_design
  /\ (XtX <- matmul (transpose two_feature_design) two_feature_design ;;
      lhs <- matvec XtX two_feature_solution ;;
      rhs <- matvec (transpose two_feature_design) two_feature_y ;;
      Ret (vec_eqb lhs rhs)) = Ret true
  /\ Forall (fun n =>
               (Xn <- matvec two_feature_design n ;; Ret (vec_eqb Xn [f0; f0; f0]))
                 = Ret true
               /\ (d <- vdot two_feature_solution n ;; Ret (feqb d f0)) = Ret true)
       two_feature_kernel
  /\ compute_mle solver_backend (YArr two_feature_y) false two_feature_model
       = Ret two_feature_mle
  /\ item2 "mle" "global" (self_intercept two_feature_mle) = Ret (Fin (5 # 2))
  /\ item2 "mle" "stimulus" (self_intercept two_feature_mle) = Ret (Fin (5 # 2))
  /\ item2 "mle" "stimulus" (self_w two_feature_mle)
       = Ret (column [Fin (5 # 2); Fin (-1 # 1)])
  /\ py_slice two_feature_solution 2 4 = [Fin (-1 # 1); Fin (3 # 2)].
Proof.
  split; [vm_compute; reflexivity|].
  split; [vm_compute; reflexivity|].
  split; [vm_compute; reflexivity|].
  split; [repeat constructor|].
  split; [vm_compute; reflexivity|].
  split; [vm_compute; reflexivity|].
  split; [vm_compute; reflexivity|].
  split; vm_compute; reflexivity.
Qed.

(** ** C2: the unpenalised cost *)

Lemma floor_agrees (x : fnum) :
  fmaximum (if fneb x PInf then x else f0) c_1e_20 = spec_floor x.
Proof. destruct x; reflexivity. Qed.

Lemma poisson_loss_spec (B : backend) (yv r : vec) :
  length yv = length r ->
  poisson_loss B yv r = Ret (spec_poisson_cost B yv r).
Proof.
  intros Hlen. unfold poisson_loss, spec_poisson_cost, vdot.
  rewrite !length_map, <- Hlen, Nat.eqb_refl.
  rewrite !map_map.
  rewrite (map_ext (fun x => fmaximum (if fneb x PInf then x else f0) c_1e_20)
             spec_floor floor_agrees).
  rewrite (map_ext (fun x => fneg (flog B (fmaximum (if fneb x PInf then x else f0) c_1e_20)))
             (fun x => fneg (flog B (spec_floor x)))).
  - reflexivity.
  - intros x. now rewrite floor_agrees.
Qed.

Lemma gaussian_loss_spec (yv r : vec) :
  length yv = length r ->
  gaussian_loss yv r = Ret (spec_gaussian_cost yv r).
Proof.
  intros Hlen. unfold gaussian_loss, spec_gaussian_cost, vbinop.
  rewrite Hlen, Nat.eqb_refl. reflexivity.
Qed.

(** C2.  For every parameter set [p], split [kind] and response [yv]
    with predicted response [r] (the precomputed output, or else the
    forward pass), the cost without penalty is [0.5 * sum((y - r)^2)]
    under the gaussian distribution and [-log(r') . y + sum(r')] under
    the poisson one, [r'] being [r] with infinite entries replaced by 0
    and then floored at 1e-20; under any other distribution the call
    raises, whatever its arguments. *)
Theorem cost_unpenalized :
  forall (B : backend) (m : glm) (p : params) (kind : string)
         (precomputed : option vec),
    (forall yv r,
        Dict.get kind (self_y m) = Some yv ->
        match precomputed with
        | None => forwardpass B m p kind
        | Some r' => Ret r'
        end = Ret r ->
        length yv = length r ->
        cost B m p kind precomputed false =
          if String.eqb (self_distr m) "gaussian" then Ret (spec_gaussian_cost yv r)
          else if String.eqb (self_distr m) "poisson" then Ret (spec_poisson_cost B yv r)
          else Raise (NotImplementedError (self_distr m)))
    /\ (self_distr m <> "gaussian" -> self_distr m <> "poisson" ->
        forall penalize, raises (cost B m p kind precomputed penalize)).
Proof.
  intros B m p kind precomputed. split.
  - intros yv r Hy Hr Hlen. unfold cost, Dict.item.
    rewrite Hy. cbn [from_option bind]. rewrite Hr. cbn [bind].
    destruct (String.eqb (self_distr m) "gaussian").
    + rewrite (gaussian_loss_spec _ _ Hlen). reflexivity.
    + destruct (String.eqb (self_distr m) "poisson").
      * rewrite (poisson_loss_spec B _ _ Hlen). reflexivity.
      * reflexivity.
  - intros Hg Hp penalize. unfold cost, raises.
    rewrite (eqb_false_of_neq _ _ Hg), (eqb_false_of_neq _ _ Hp).
    destruct (Dict.item kind (self_y m)) as [yv|e]; cbn [bind]; [|eauto].
    destruct (match precomputed with
              | Some r => Ret r
              | None => forwardpass B m p kind
              end) as [r|e]; cbn [bind]; eauto.
Qed.

Lemma cost_unpenalized_witness :
  cost still_backend (set_y [("dev", [f1; c_2])] (init "poisson" "none")) [] "dev"
    (Some [PInf; NInf]) false
  = Ret (spec_poisson_cost still_backend [f1; c_2] [PInf; NInf]).
Proof.
  apply (proj1 (cost_unpenalized still_backend
                  (set_y [("dev", [f1; c_2])] (init "poisson" "none")) [] "dev"
                  (Some [PInf; NInf])) [f1; c_2] [PInf; NInf]);
    reflexivity.
Defined.

(** ** Arrays, slices and the optimisation loop *)

Lemma length_assign (A : Type) (l : list A) (i : nat) (v : A) :
  length (assign l i v) = length l.
Proof.
  revert i. induction l as [|a l IH]; intros [|i]; simpl; auto.
Qed.

Lemma firstn_assign (A : Type) (l : list A) (i k : nat) (v : A) :
  k <= i -> firstn k (assign l i v) = firstn k l.
Proof.
  revert i k. induction l as [|a l IH]; intros [|i] [|k] H; simpl; auto; try lia.
  f_equal. apply IH. lia.
Qed.

Lemma same_before_refl (k : nat) (a : list fnum) : same_before k a a.
Proof. split; reflexivity. Qed.

Lemma same_before_assign (k i : nat) (a : list fnum) (v : fnum) :
  k <= i -> same_before k a (assign a i v).
Proof.
  intros H. split; [apply length_assign | now apply firstn_assign].
Qed.

Lemma same_before_trans (k : nat) (a b c : list fnum) :
  same_before k a b -> same_before k b c -> same_before k a c.
Proof. intros [H1 H2] [H3 H4]. split; congruence. Qed.

Lemma same_before_le (k k' : nat) (a b : list fnum) :
  k' <= k -> same_before k a b -> same_before k' a b.
Proof.
  intros Hle [Hl Hf]. split; [exact Hl|].
  replace k' with (Nat.min k' k) by lia.
  rewrite <- !firstn_firstn. now rewrite Hf.
Qed.

Lemma norm_index_of_nat (len i : nat) :
  norm_index len (Z.of_nat i) = Nat.min i len.
Proof.
  unfold norm_index. destruct (Z.ltb_spec (Z.of_nat i) 0); [lia|].
  now rewrite Nat2Z.id.
Qed.

(** The window of iteration [i] reads nothing at or after position [i]. *)
Lemma window_same_before (tolerance : Z) (i : nat) (a a' : list fnum) :
  same_before i a a' -> window a' tolerance i = window a tolerance i.
Proof.
  intros [Hl Hf]. unfold window, py_slice. rewrite Hl.
  rewrite norm_index_of_nat. f_equal.
  replace (Nat.min i (length a)) with (Nat.min (Nat.min i (length a)) i) by lia.
  rewrite <- !firstn_firstn. now rewrite Hf.
Qed.

Lemma early_stop_same_before (has_dev : bool) (tolerance : Z) (i : nat)
    (ct ct' cd cd' : list fnum) :
  same_before i ct ct' -> same_before i cd cd' ->
  early_stop has_dev tolerance i ct' cd' = early_stop has_dev tolerance i ct cd.
Proof.
  intros Ht Hd. unfold early_stop, all_increasing, all_below.
  now rewrite (window_same_before _ _ _ _ Ht), (window_same_before _ _ _ _ Hd).
Qed.

Lemma early_stop_reason (has_dev : bool) (tolerance : Z) (i : nat)
    (ct cd : list fnum) (s : stop_reason) :
  early_stop has_dev tolerance i ct cd = Some s ->
  (tolerance <> 0)%Z /\ 300 < i
  /\ ((s = dev_stop /\ has_dev = true /\ all_increasing cd tolerance i = true)
      \/ (s = train_stop
          /\ (has_dev = false \/ all_increasing cd tolerance i = false)
          /\ all_below ct tolerance i = true)).
Proof.
  unfold early_stop. intros H.
  destruct (Z.eqb_spec tolerance 0) as [->|Hne]; [discriminate H|].
  destruct (Nat.ltb_spec 300 i) as [Hi|Hi]; [|discriminate H].
  cbn [negb andb] in H. split; [exact Hne|]. split; [exact Hi|].
  destruct has_dev; cbn [andb] in H.
  - destruct (all_increasing cd tolerance i).
    + injection H as <-. left. auto.
    + destruct (all_below ct tolerance i); [|discriminate H].
      injection H as <-. right. auto.
  - destruct (all_below ct tolerance i); [|discriminate H].
    injection H as <-. right. auto.
Qed.

Lemma loop_body_spec (B : backend) (m : glm) (metric : string) (tolerance : Z)
    (i : nat) (v v1 : loop_vars B) (brk : option stop_reason) :
  loop_body m metric tolerance i v = Ret (v1, brk) ->
  same_before i (v_cost_train v) (v_cost_train v1)
  /\ same_before i (v_cost_dev v) (v_cost_dev v1)
  /\ length (v_metric_train v1) = length (v_metric_train v)
  /\ length (v_metric_dev v1) = length (v_metric_dev v)
  /\ (exists p, v_params_list v1 = v_params_list v ++ [p])
  /\ v_y_pred_train v1 <> None
  /\ (Dict.mem "dev" (self_y m) = true -> v_y_pred_dev v1 <> None)
  /\ brk = early_stop (Dict.mem "dev" (self_y m)) tolerance i
             (v_cost_train v1) (v_cost_dev v1).
Proof.
  unfold loop_body. intros H. cbv zeta in H. bind_inv H.
  destruct a3 as [[cd md] ypd]. injection H as <- <-. cbn.
  split; [now apply same_before_assign|].
  destruct (Dict.mem "dev" (self_y m)).
  - bind_inv E3. injection E3 as <- <- <-.
    split; [now apply same_before_assign|].
    rewrite !length_assign. repeat split; eauto; discriminate.
  - injection E3 as <- <- <-.
    split; [apply same_before_refl|].
    rewrite !length_assign. repeat split; eauto; discriminate.
Qed.

Lemma early_stop_not_maxiter (has_dev : bool) (tolerance : Z) (i : nat)
    (ct cd : list fnum) :
  early_stop has_dev tolerance i ct cd <> Some maxiter_stop.
Proof.
  intros H. apply early_stop_reason in H.
  destruct H as (_ & _ & [(H & _)|(H & _)]); discriminate H.
Qed.

Lemma for_loop_spec (B : backend) (m : glm) (metric : string) (tolerance : Z) :
  forall (n a i0 : nat) (v v' : loop_vars B) (i : nat) (stop : stop_reason),
    for_loop m metric tolerance (seq a (S n)) i0 v = Ret (v', i, stop) ->
    a <= i <= a + n
    /\ length (v_params_list v') = length (v_params_list v) + (i + 1 - a)
    /\ same_before a (v_cost_train v) (v_cost_train v')
    /\ same_before a (v_cost_dev v) (v_cost_dev v')
    /\ length (v_metric_train v') = length (v_metric_train v)
    /\ length (v_metric_dev v') = length (v_metric_dev v)
    /\ (forall k, a <= k < i ->
          early_stop (Dict.mem "dev" (self_y m)) tolerance k
            (v_cost_train v') (v_cost_dev v') = None)
    /\ early_stop (Dict.mem "dev" (self_y m)) tolerance i
         (v_cost_train v') (v_cost_dev v') = test_at_stop stop
    /\ (stop = maxiter_stop -> i = a + n)
    /\ v_y_pred_train v' <> None
    /\ (Dict.mem "dev" (self_y m) = true -> v_y_pred_dev v' <> None).
Proof.
  induction n as [|n IH]; intros a i0 v v' i stop H;
    cbn [seq for_loop] in H; bind_inv H; destruct a0 as [v1 brk];
    pose proof (loop_body_spec _ _ _ _ _ _ _ _ E)
      as (Hct & Hcd & Hmt & Hmd & (p & Hp) & Hyt & Hyd & Hbrk);
    cbn [fst snd] in H;
    (destruct brk as [s|];
     [ (* the loop breaks at [a] *)
       injection H as <- <- <-;
       assert (Hs : test_at_stop s = Some s)
         by (destruct s; try reflexivity;
             exfalso; symmetry in Hbrk;
             exact (early_stop_not_maxiter _ _ _ _ _ Hbrk));
       rewrite Hp, length_app; cbn [length];
       split; [lia|]; split; [lia|];
       split; [exact Hct|]; split; [exact Hcd|];
       split; [exact Hmt|]; split; [exact Hmd|];
       split; [intros k Hk; lia|];
       split; [rewrite Hs; now symmetry|];
       split; [intros ->; discriminate Hs|];
       split; assumption
     | ]).
  - (* the last index of the range, no break *)
    injection H as <- <- <-.
    rewrite Hp, length_app. cbn [length].
    split; [lia|]. split; [lia|].
    split; [exact Hct|]. split; [exact Hcd|].
    split; [exact Hmt|]. split; [exact Hmd|].
    split; [intros k Hk; lia|].
    split; [now symmetry|].
    split; [intros _; lia|].
    split; assumption.
  - apply (IH (S a) a v1 v' i stop) in H.
    destruct H as (Hi & Hlen & Hct' & Hcd' & Hmt' & Hmd' & Hbefore & Hat & Hmax
                   & Hyt' & Hyd').
    rewrite Hp, length_app in Hlen. cbn [length] in Hlen.
    split; [lia|]. split; [lia|].
    split; [eapply same_before_trans; [exact Hct|];
            apply (same_before_le (S a)); [lia | exact Hct']|].
    split; [eapply same_before_trans; [exact Hcd|];
            apply (same_before_le (S a)); [lia | exact Hcd']|].
    split; [congruence|]. split; [congruence|].
    split.
    { intros k Hk. destruct (Nat.eq_dec k a) as [->|Hne].
      - rewrite (early_stop_same_before _ _ _ (v_cost_train v1) _ (v_cost_dev v1)).
        + now symmetry.
        + apply (same_before_le (S a)); [lia | exact Hct'].
        + apply (same_before_le (S a)); [lia | exact Hcd'].
      - apply Hbefore. lia. }
    split; [exact Hat|].
    split; [intros Hs; specialize (Hmax Hs); lia|].
    split; assumption.
Qed.

Lemma py_index_nil (A : Type) (k : Z) : py_index (@nil A) k = Raise IndexError.
Proof.
  unfold py_index. cbn [length]. destruct (k <? 0)%Z.
  - destruct (k + Z.of_nat 0 <? 0)%Z; [reflexivity|].
    destruct (Z.to_nat (k + Z.of_nat 0)); reflexivity.
  - destruct (k <? 0)%Z; [reflexivity|]. destruct (Z.to_nat k); reflexivity.
Qed.

Lemma py_slice_to_succ (A : Type) (l : list A) (i : nat) :
  py_slice_to l (Z.of_nat i + 1)%Z = firstn (S i) l.
Proof.
  unfold py_slice_to. replace (Z.of_nat i + 1)%Z with (Z.of_nat (S i)) by lia.
  rewrite norm_index_of_nat.
  destruct (Nat.le_gt_cases (S i) (length l)) as [H|H].
  - now rewrite Nat.min_l.
  - rewrite Nat.min_r by lia. rewrite !firstn_all2; [reflexivity|lia|lia].
Qed.

(** The steps of a call of [optimize] that returns. *)
Lemma optimize_inv (B : backend) (m : glm) (p0 : params) (num_iters : nat)
    (metric : string) (tolerance : Z) (policy : string) (m' : glm) (run : opt_run B) :
  optimize B m p0 num_iters metric tolerance policy = Ret (m', run) ->
  exists n,
    num_iters = S n
    /\ for_loop m metric tolerance (seq 0 num_iters) 0 (initial_vars B p0 num_iters)
       = Ret (run_vars run, run_i run, run_stop run)
    /\ select_best policy metric (run_stop run) tolerance (run_i run) (run_vars run)
       = Ret (run_best run)
    /\ py_index (v_params_list (run_vars run)) (run_best run) = Ret (run_params run)
    /\ self_cost_train m' = firstn (S (run_i run)) (v_cost_train (run_vars run))
    /\ self_cost_dev m' = firstn (S (run_i run)) (v_cost_dev (run_vars run))
    /\ self_metric_train m' = firstn (S (run_i run)) (v_metric_train (run_vars run))
    /\ self_metric_dev m' = firstn (S (run_i run)) (v_metric_dev (run_vars run))
    /\ self_all_params m' = firstn (S (run_i run)) (v_params_list (run_vars run))
    /\ self_p m' = self_p m
    /\ self_y m' = self_y m.
Proof.
  unfold optimize. intros H. cbv zeta in H. bind_inv H.
  destruct a as [[v i] stop]. bind_inv H.
  assert (Hfields :
            run = mkRun v i stop a a0
            /\ self_cost_train m' = firstn (S i) (v_cost_train v)
            /\ self_cost_dev m' = firstn (S i) (v_cost_dev v)
            /\ self_metric_train m' = firstn (S i) (v_metric_train v)
            /\ self_metric_dev m' = firstn (S i) (v_metric_dev v)
            /\ self_all_params m' = firstn (S i) (v_params_list v)
            /\ self_p m' = self_p m /\ self_y m' = self_y m).
  { rewrite <- !py_slice_to_succ.
    match goal with
    | Hif : (if ?b then _ else _) = Ret _ |- _ =>
        destruct b; [bind_inv Hif|]; injection Hif as <-
    end;
      injection H as <- <-; repeat split; reflexivity. }
  destruct Hfields as (-> & Hrest). cbn [run_vars run_i run_stop run_best run_params].
  destruct num_iters as [|n].
  - cbn [seq for_loop] in E. injection E as <- <- <-.
    cbn [v_params_list] in E1. rewrite py_index_nil in E1. discriminate E1.
  - exists n. repeat split; try assumption; apply Hrest.
Qed.

Lemma length_initial_vars (B : backend) (p0 : params) (n : nat) :
  length (v_cost_train (initial_vars B p0 n)) = n
  /\ length (v_cost_dev (initial_vars B p0 n)) = n
  /\ length (v_metric_train (initial_vars B p0 n)) = n
  /\ length (v_metric_dev (initial_vars B p0 n)) = n
  /\ length (v_params_list (initial_vars B p0 n)) = 0.
Proof. cbn. rewrite !repeat_length. auto. Qed.

(** The loop facts of a call of [optimize] that returns. *)
Lemma optimize_loop (B : backend) (m : glm) (p0 : params) (num_iters : nat)
    (metric : string) (tolerance : Z) (policy : string) (m' : glm) (run : opt_run B) :
  optimize B m p0 num_iters metric tolerance policy = Ret (m', run) ->
  run_i run < num_iters
  /\ length (v_params_list (run_vars run)) = S (run_i run)
  /\ length (v_cost_train (run_vars run)) = num_iters
  /\ length (v_cost_dev (run_vars run)) = num_iters
  /\ length (v_metric_train (run_vars run)) = num_iters
  /\ length (v_metric_dev (run_vars run)) = num_iters
  /\ (forall k, k < run_i run ->
        early_stop (Dict.mem "dev" (self_y m)) tolerance k
          (v_cost_train (run_vars run)) (v_cost_dev (run_vars run)) = None)
  /\ early_stop (Dict.mem "dev" (self_y m)) tolerance (run_i run)
       (v_cost_train (run_vars run)) (v_cost_dev (run_vars run))
     = test_at_stop (run_stop run)
  /\ (run_stop run = maxiter_stop -> S (run_i run) = num_iters).
Proof.
  intros H. apply optimize_inv in H.
  destruct H as (n & -> & Hloop & _).
  apply for_loop_spec in Hloop.
  destruct Hloop as (Hi & Hlen & [Hct _] & [Hcd _] & Hmt & Hmd & Hbefore & Hat & Hmax & _).
  destruct (length_initial_vars B p0 (S n)) as (L1 & L2 & L3 & L4 & L5).
  rewrite L5 in Hlen. rewrite L1 in Hct. rewrite L2 in Hcd.
  rewrite L3 in Hmt. rewrite L4 in Hmd.
  split; [lia|]. split; [lia|].
  split; [exact Hct|]. split; [exact Hcd|]. split; [exact Hmt|]. split; [exact Hmd|].
  split; [intros k Hk; apply Hbefore; lia|].
  split; [exact Hat|].
  intros Hs. specialize (Hmax Hs). lia.
Qed.

Lemma window_of_trace (tolerance : Z) (i : nat) (a : list fnum) :
  (0 <= tolerance <= Z.of_nat i)%Z -> i < length a ->
  window (firstn (S i) a) tolerance i = window a tolerance i.
Proof.
  intros Ht Hi. unfold window, py_slice.
  rewrite length_firstn, !norm_index_of_nat.
  replace (Nat.min (S i) (length a)) with (S i) by lia.
  replace (Z.of_nat i - tolerance)%Z with (Z.of_nat (i - Z.to_nat tolerance)) by lia.
  rewrite !norm_index_of_nat.
  replace (Nat.min i (S i)) with i by lia.
  replace (Nat.min i (length a)) with i by lia.
  replace (Nat.min (i - Z.to_nat tolerance) (S i)) with (i - Z.to_nat tolerance) by lia.
  replace (Nat.min (i - Z.to_nat tolerance) (length a)) with (i - Z.to_nat tolerance) by lia.
  rewrite firstn_firstn. now replace (Nat.min i (S i)) with i by lia.
Qed.

Lemma length_np_diff (l : list fnum) : length (np_diff l) = length l - 1.
Proof.
  induction l as [|a [|b t] IH]; cbn [np_diff length] in *; try reflexivity.
  rewrite IH. lia.
Qed.

(** For a tolerance between 0 and [i] the window is made of the
    [tolerance] entries at positions [i - tolerance] to [i - 1]: the
    entry of iteration [i] itself is not in it. *)
Lemma window_entries (tolerance : Z) (i : nat) (a : list fnum) :
  (0 <= tolerance <= Z.of_nat i)%Z -> i <= length a ->
  window a tolerance i
  = firstn (Z.to_nat tolerance) (skipn (i - Z.to_nat tolerance) a)
  /\ length (window a tolerance i) = Z.to_nat tolerance.
Proof.
  intros Ht Hi. unfold window, py_slice.
  replace (Z.of_nat i - tolerance)%Z with (Z.of_nat (i - Z.to_nat tolerance)) by lia.
  rewrite !norm_index_of_nat.
  replace (Nat.min i (length a)) with i by lia.
  replace (Nat.min (i - Z.to_nat tolerance) (length a)) with (i - Z.to_nat tolerance)
    by lia.
  rewrite skipn_firstn_comm.
  replace (i - (i - Z.to_nat tolerance)) with (Z.to_nat tolerance) by lia.
  split; [reflexivity|].
  rewrite length_firstn, length_skipn. lia.
Qed.

(** The traces kept on the object are the first [i + 1] entries of the
    loop's arrays, [i + 1] being the number of snapshots appended. *)
Lemma optimize_lengths (B : backend) (m : glm) (p0 : params) (num_iters : nat)
    (metric : string) (tolerance : Z) (policy : string) (m' : glm) (run : opt_run B) :
  optimize B m p0 num_iters metric tolerance policy = Ret (m', run) ->
  length (v_params_list (run_vars run)) = S (run_i run)
  /\ S (run_i run) <= num_iters
  /\ length (self_cost_train m') = S (run_i run)
  /\ length (self_cost_dev m') = S (run_i run)
  /\ length (self_metric_train m') = S (run_i run)
  /\ length (self_metric_dev m') = S (run_i run)
  /\ self_all_params m' = v_params_list (run_vars run).
Proof.
  intros H.
  pose proof (optimize_loop _ _ _ _ _ _ _ _ _ H)
    as (Hi & Hlen & Lct & Lcd & Lmt & Lmd & _).
  apply optimize_inv in H.
  destruct H as (n & Hn & _ & _ & _ & Hct & Hcd & Hmt & Hmd & Hall & _).
  rewrite Hct, Hcd, Hmt, Hmd, Hall, !length_firstn.
  rewrite Lct, Lcd, Lmt, Lmd, Hlen.
  split; [reflexivity|]. split; [lia|].
  split; [lia|]. split; [lia|]. split; [lia|]. split; [lia|].
  apply firstn_all2. lia.
Qed.

(** ** C3: the early-stop policy *)

Lemma test_at_stop_some (stop s : stop_reason) :
  test_at_stop stop = Some s -> stop = s.
Proof. destruct stop; cbn; congruence. Qed.

Lemma test_at_stop_none (stop : stop_reason) :
  test_at_stop stop = None -> stop = maxiter_stop.
Proof. destruct stop; cbn; congruence. Qed.

(** No test is made at or before iteration 300, or with tolerance 0. *)
Lemma early_stop_before_301 (has_dev : bool) (tolerance : Z) (i : nat)
    (ct cd : list fnum) :
  i <= 300 \/ tolerance = 0%Z -> early_stop has_dev tolerance i ct cd = None.
Proof.
  intros H. unfold early_stop.
  destruct H as [H | ->].
  - destruct (Nat.ltb_spec 300 i) as [Hc|_]; [lia|].
    now rewrite andb_false_r.
  - reflexivity.
Qed.

(** What the two tests compare.  For a tolerance between 1 and [k]
    the slice [a[k - tolerance:k]] holds the costs of the iterations
    [k - tolerance .. k - 1]; the tests look at the differences of
    consecutive costs among them. *)

Lemma np_diff_forall_iff (P : fnum -> bool) (l : list fnum) :
  forallb P (np_diff l) = true
  <-> forall j, S j < length l -> P (fsub (nth (S j) l NaN) (nth j l NaN)) = true.
Proof.
  induction l as [|a t IH].
  - simpl. split; [intros _ j Hj; lia | reflexivity].
  - destruct t as [|b t'].
    + simpl. split; [intros _ j Hj; lia | reflexivity].
    + change (np_diff (a :: b :: t')) with (fsub b a :: np_diff (b :: t')).
      cbn [forallb]. rewrite andb_true_iff, IH. split.
      * intros [H0 Hr] j Hj. destruct j as [|j]; [exact H0|].
        apply Hr. simpl in *. lia.
      * intros H. split; [apply (H 0); simpl; lia|].
        intros j Hj. apply (H (S j)). simpl in *. lia.
Qed.

Lemma window_test (P : fnum -> bool) (a : list fnum) (tolerance : Z) (k : nat) :
  (1 <= tolerance <= Z.of_nat k)%Z -> k <= length a ->
  forallb P (np_diff (window a tolerance k))
  = forallb (fun j => P (fsub (nth (S j) a NaN) (nth j a NaN)))
      (compared_pairs k tolerance).
Proof.
  intros Ht Hk. apply eq_iff_eq_true.
  rewrite np_diff_forall_iff, forallb_forall.
  destruct (window_entries tolerance k a) as [Hw Hlen]; [lia | exact Hk|].
  rewrite Hlen, Hw. unfold compared_pairs.
  set (t := Z.to_nat tolerance) in *. set (s := k - t).
  assert (Hnth : forall j, j < t -> nth j (firstn t (skipn s a)) NaN = nth (s + j) a NaN).
  { intros j Hj. rewrite nth_firstn.
    destruct (Nat.ltb_spec j t) as [_|Hc]; [apply nth_skipn | lia]. }
  split.
  - intros H j Hin. apply in_seq in Hin.
    specialize (H (j - s)). rewrite !Hnth in H by lia.
    replace (s + S (j - s)) with (S j) in H by lia.
    replace (s + (j - s)) with j in H by lia.
    apply H. lia.
  - intros H j Hj. rewrite !Hnth by lia.
    replace (s + S j) with (S (s + j)) by lia.
    apply H. apply in_seq. lia.
Qed.

(** A difference is positive exactly when the later cost is above the
    earlier one. *)
Lemma diff_positive (a b : fnum) : fgtb (fsub b a) f0 = fltb a b.
Proof.
  unfold fgtb. destruct a as [x| | |], b as [y| | |]; try reflexivity.
  cbn. unfold Qltb. f_equal. apply eq_iff_eq_true.
  rewrite !Qle_bool_iff. split; intros H; lra.
Qed.

Lemma forallb_pointwise (A : Type) (f g : A -> bool) (l : list A) :
  (forall x, In x l -> f x = g x) -> forallb f l = forallb g l.
Proof.
  induction l as [|x t IH]; intros H; simpl; [reflexivity|].
  rewrite (H x) by now left. rewrite IH; [reflexivity|].
  intros y Hy. apply H. now right.
Qed.

Lemma all_increasing_rising (a : list fnum) (tolerance : Z) (k : nat) :
  (1 <= tolerance <= Z.of_nat k)%Z -> k <= length a ->
  all_increasing a tolerance k = rising_before k tolerance a.
Proof.
  intros Ht Hk. unfold all_increasing, rising_before.
  rewrite (window_test (fun d => fgtb d f0)) by assumption.
  apply forallb_pointwise. intros j _. apply diff_positive.
Qed.

Lemma all_below_flat (a : list fnum) (tolerance : Z) (k : nat) :
  (1 <= tolerance <= Z.of_nat k)%Z -> k <= length a ->
  all_below a tolerance k = flat_before k tolerance a.
Proof.
  intros Ht Hk. unfold all_below, flat_before.
  now rewrite (window_test (fun d => fltb d c_1e_5)) by assumption.
Qed.

(** The test of an iteration above 300, in terms of the recorded
    costs. *)
Lemma early_stop_meaning (has_dev : bool) (tolerance : Z) (k : nat)
    (ct cd : list fnum) :
  300 < k -> (1 <= tolerance <= Z.of_nat k)%Z ->
  k <= length ct -> k <= length cd ->
  early_stop has_dev tolerance k ct cd
  = if has_dev && rising_before k tolerance cd then Some dev_stop
    else if flat_before k tolerance ct then Some train_stop
    else None.
Proof.
  intros H300 Ht Hct Hcd. unfold early_stop.
  rewrite all_increasing_rising, all_below_flat by assumption.
  destruct (Z.eqb_spec tolerance 0) as [Hz|_]; [lia|].
  destruct (Nat.ltb_spec 300 k) as [_|Hc]; [reflexivity | lia].
Qed.

(** The prefix of a trace that a test reads. *)
Lemma flat_before_firstn (k n : nat) (tolerance : Z) (a : list fnum) :
  (1 <= tolerance <= Z.of_nat k)%Z -> k <= n ->
  flat_before k tolerance (firstn n a) = flat_before k tolerance a.
Proof.
  intros Ht Hk. unfold flat_before, compared_pairs.
  apply forallb_pointwise. intros j Hin. apply in_seq in Hin.
  rewrite !nth_firstn.
  destruct (Nat.ltb_spec (S j) n) as [_|Hc]; [|lia].
  destruct (Nat.ltb_spec j n) as [_|Hc]; [reflexivity | lia].
Qed.

(** The two conditions, index by index. *)
Lemma compared_pairs_spec (k : nat) (tolerance : Z) (j : nat) :
  (1 <= tolerance <= Z.of_nat k)%Z ->
  In j (compared_pairs k tolerance) <-> k - Z.to_nat tolerance <= j /\ S j < k.
Proof.
  intros Ht. unfold compared_pairs. rewrite in_seq. lia.
Qed.

Lemma rising_before_spec (k : nat) (tolerance : Z) (a : list fnum) :
  (1 <= tolerance <= Z.of_nat k)%Z ->
  rising_before k tolerance a = true
  <-> forall j, k - Z.to_nat tolerance <= j -> S j < k ->
        fltb (nth j a NaN) (nth (S j) a NaN) = true.
Proof.
  intros Ht. unfold rising_before. rewrite forallb_forall. split.
  - intros H j Hlo Hhi. apply H. apply compared_pairs_spec; [exact Ht | lia].
  - intros H j Hin. apply compared_pairs_spec in Hin; [|exact Ht]. now apply H.
Qed.

Lemma flat_before_spec (k : nat) (tolerance : Z) (a : list fnum) :
  (1 <= tolerance <= Z.of_nat k)%Z ->
  flat_before k tolerance a = true
  <-> forall j, k - Z.to_nat tolerance <= j -> S j < k ->
        fltb (fsub (nth (S j) a NaN) (nth j a NaN)) c_1e_5 = true.
Proof.
  intros Ht. unfold flat_before. rewrite forallb_forall. split.
  - intros H j Hlo Hhi. apply H. apply compared_pairs_spec; [exact Ht | lia].
  - intros H j Hin. apply compared_pairs_spec in Hin; [|exact Ht]. now apply H.
Qed.

Lemma np_diff_short (l : list fnum) : length l <= 1 -> np_diff l = [].
Proof.
  destruct l as [|a [|b t]]; simpl; intros H; try reflexivity. lia.
Qed.

(** Tolerances for which the window [a[i - tolerance:i]] holds at most
    one entry: 1, a negative number, or a number above [i] that does
    not exceed the length of the array (the negative start then wraps
    around to a position at or after [i]). *)
Lemma window_degenerate (a : list fnum) (tolerance : Z) (i : nat) :
  i < length a ->
  tolerance = 1%Z \/ (tolerance < 0)%Z
  \/ (Z.of_nat i < tolerance <= Z.of_nat (length a))%Z ->
  np_diff (window a tolerance i) = [].
Proof.
  intros Hi Ht. apply np_diff_short.
  unfold window, py_slice. rewrite length_skipn, length_firstn.
  rewrite norm_index_of_nat. unfold norm_index.
  destruct (Z.ltb_spec (Z.of_nat i - tolerance) 0); lia.
Qed.

Lemma early_stop_degenerate (has_dev : bool) (tolerance : Z) (i : nat)
    (ct cd : list fnum) :
  300 < i -> i < length ct -> length cd = length ct ->
  tolerance = 1%Z \/ (tolerance < 0)%Z
  \/ (Z.of_nat i < tolerance <= Z.of_nat (length ct))%Z ->
  early_stop has_dev tolerance i ct cd
  = Some (if has_dev then dev_stop else train_stop).
Proof.
  intros H300 Hi Hlen Ht. unfold early_stop, all_increasing, all_below.
  rewrite (window_degenerate ct tolerance i Hi Ht).
  rewrite (window_degenerate cd tolerance i) by (rewrite Hlen; assumption).
  assert (Hz : (tolerance =? 0)%Z = false) by (apply Z.eqb_neq; lia).
  rewrite Hz. destruct (Nat.ltb_spec 300 i) as [_|Hc]; [|lia].
  destruct has_dev; reflexivity.
Qed.

(** C3 (as amended).  The loop of [optimize] is [for_loop] started on
    the preallocated traces.  When it ends, with [i] the index of the
    last executed iteration: an early stop happens only at an index
    above 300 and with a nonzero tolerance, and a loop that ends with
    [maxiter_stop] has executed all [num_iters] iterations.  The test
    made at the end of an iteration [k] above 300, for a tolerance
    between 1 and [k], compares the costs recorded for the iterations
    [k - tolerance .. k - 1], the cost of iteration [k] itself left
    out: when a dev response is stored and each of these dev costs is
    strictly below the next, the loop stops at [k] with [dev_stop];
    otherwise, when each of these train costs exceeds the one before by
    less than 1e-5, it stops at [k] with [train_stop]; otherwise the
    loop goes on.  With a negative tolerance, or one above [k] that does
    not exceed [num_iters], the slice is empty and the loop stops at
    [k], with [dev_stop] when a dev response is stored and with
    [train_stop] otherwise.  So the reason of a loop that ended at an
    index above 300 says which of the two conditions held there, every
    earlier iteration above 300 satisfied neither, and a loop in which
    neither ever holds runs through all [num_iters] iterations and ends
    with [maxiter_stop]. *)
Theorem early_stop_policy :
  forall (B : backend) (m : glm) (p0 : params) (num_iters : nat) (metric : string)
         (tolerance : Z),
    (forall policy m' (run : opt_run B),
        optimize B m p0 num_iters metric tolerance policy = Ret (m', run) ->
        for_loop m metric tolerance (seq 0 num_iters) 0 (initial_vars B p0 num_iters)
        = Ret (run_vars run, run_i run, run_stop run))
    /\ (forall (v : loop_vars B) (i : nat) (stop : stop_reason),
          for_loop m metric tolerance (seq 0 num_iters) 0 (initial_vars B p0 num_iters)
          = Ret (v, i, stop) ->
          let has_dev := Dict.mem "dev" (self_y m) in
          let ct := v_cost_train v in
          let cd := v_cost_dev v in
          let executed := length (v_params_list v) in
          (stop <> maxiter_stop -> 300 < i /\ tolerance <> 0%Z /\ executed = S i)
          /\ (stop = maxiter_stop -> executed = num_iters)
          /\ (forall k, k < executed -> 300 < k -> (1 <= tolerance <= Z.of_nat k)%Z ->
                (has_dev = true -> rising_before k tolerance cd = true ->
                 k = i /\ stop = dev_stop)
                /\ (has_dev = false \/ rising_before k tolerance cd = false ->
                    flat_before k tolerance ct = true ->
                    k = i /\ stop = train_stop)
                /\ (k < i ->
                    (has_dev = false \/ rising_before k tolerance cd = false)
                    /\ flat_before k tolerance ct = false))
          /\ (forall k, k < executed -> 300 < k ->
                (tolerance < 0)%Z \/ (Z.of_nat k < tolerance <= Z.of_nat num_iters)%Z ->
                k = i /\ stop = if has_dev then dev_stop else train_stop)
          /\ (300 < i -> (1 <= tolerance <= Z.of_nat i)%Z ->
                (stop = dev_stop <->
                 has_dev = true /\ rising_before i tolerance cd = true)
                /\ (stop = train_stop <->
                    (has_dev = false \/ rising_before i tolerance cd = false)
                    /\ flat_before i tolerance ct = true)
                /\ (stop = maxiter_stop <->
                    (has_dev = false \/ rising_before i tolerance cd = false)
                    /\ flat_before i tolerance ct = false))
          /\ (tolerance = 0%Z \/ (1 <= tolerance <= 301)%Z ->
              (forall k, k < executed -> 300 < k ->
                 (has_dev = false \/ rising_before k tolerance cd = false)
                 /\ flat_before k tolerance ct = false) ->
              stop = maxiter_stop /\ executed = num_iters)).
Proof.
  intros B m p0 num_iters metric tolerance. split.
  { intros policy m' run H. apply optimize_inv in H.
    destruct H as (n & _ & Hloop & _). exact Hloop. }
  intros v i stop H has_dev ct cd executed.
  destruct num_iters as [|n].
  { (* an empty range: nothing is executed *)
    cbn [seq for_loop] in H. injection H as <- <- <-.
    subst executed. cbn [initial_vars v_params_list length].
    split; [intros Hs; now contradiction Hs|].
    split; [reflexivity|].
    split; [intros k Hk; lia|]. split; [intros k Hk; lia|].
    split; [intros Hi; lia|].
    intros _ _. split; reflexivity. }
  apply for_loop_spec in H.
  destruct H as (Hi & Hlen & [Lct _] & [Lcd _] & _ & _ & Hbefore & Hat & Hmax & _).
  destruct (length_initial_vars B p0 (S n)) as (L1 & L2 & _ & _ & L5).
  rewrite L5 in Hlen. rewrite L1 in Lct. rewrite L2 in Lcd.
  fold has_dev ct cd executed in Hbefore, Hat, Hlen, Lct, Lcd.
  assert (Hexec : executed = S i) by lia. clear Hlen.
  assert (Hall : stop = maxiter_stop -> executed = S n).
  { intros Hs. specialize (Hmax Hs). lia. }
  (* the test of an executed iteration above 300, read on the costs *)
  assert (Hmean : forall k, k < executed -> 300 < k ->
             (1 <= tolerance <= Z.of_nat k)%Z ->
             early_stop has_dev tolerance k ct cd
             = if has_dev && rising_before k tolerance cd then Some dev_stop
               else if flat_before k tolerance ct then Some train_stop
               else None).
  { intros k Hk H300 Ht. apply early_stop_meaning; try assumption; lia. }
  assert (Hfires : forall k s, k < executed ->
             early_stop has_dev tolerance k ct cd = Some s -> k = i /\ stop = s).
  { intros k s Hk Hs. destruct (Nat.eq_dec k i) as [->|Hne].
    - split; [reflexivity|]. rewrite Hat in Hs. now apply test_at_stop_some.
    - rewrite Hbefore in Hs by lia. discriminate Hs. }
  split.
  { intros Hstop. destruct (test_at_stop stop) as [s|] eqn:Hs.
    - apply early_stop_reason in Hat. split; [tauto|]. split; [tauto | exact Hexec].
    - apply test_at_stop_none in Hs. contradiction. }
  split; [exact Hall|].
  split.
  { intros k Hk H300 Ht. specialize (Hmean k Hk H300 Ht). split; [|split].
    - intros Hdev Hrise. apply Hfires; [exact Hk|].
      rewrite Hmean, Hdev, Hrise. reflexivity.
    - intros Hdev Hflat. apply Hfires; [exact Hk|].
      rewrite Hmean, Hflat.
      destruct Hdev as [-> | ->]; [|rewrite andb_false_r]; reflexivity.
    - intros Hki. rewrite Hbefore in Hmean by lia.
      destruct has_dev; destruct (rising_before k tolerance cd);
        destruct (flat_before k tolerance ct); cbn in Hmean;
        try discriminate Hmean; split; auto. }
  split.
  { intros k Hk H300 Ht. apply Hfires; [exact Hk|].
    apply early_stop_degenerate; [exact H300 | lia | lia |].
    right. rewrite Lct. exact Ht. }
  split.
  { intros H300 Ht. specialize (Hmean i ltac:(lia) H300 Ht).
    rewrite Hat in Hmean.
    destruct stop; destruct has_dev; destruct (rising_before i tolerance cd);
      destruct (flat_before i tolerance ct); cbn in Hmean;
      try discriminate Hmean; intuition congruence. }
  intros Htol Hnone.
  assert (Hs : stop = maxiter_stop).
  { apply test_at_stop_none. rewrite <- Hat.
    destruct (Nat.le_gt_cases i 300) as [Hle | H300].
    - apply early_stop_before_301. now left.
    - destruct Htol as [-> | Ht]; [apply early_stop_before_301; now right|].
      rewrite Hmean by lia.
      destruct (Hnone i ltac:(lia) H300) as [Hdev ->].
      destruct Hdev as [-> | ->]; [|rewrite andb_false_r]; reflexivity. }
  split; [exact Hs | exact (Hall Hs)].
Qed.

Lemma early_stop_policy_witness :
  optimize still_backend demo_ready demo_p0 400 "mse" 10%Z "last" = Ret demo_still_run
  /\ length (v_params_list (run_vars (snd demo_still_run))) = 302
  /\ flat_before 301 10 (v_cost_train (run_vars (snd demo_still_run))) = true
  /\ run_i (snd demo_still_run) = 301
  /\ run_stop (snd demo_still_run) = train_stop.
Proof.
  assert (Hrun : optimize still_backend demo_ready demo_p0 400 "mse" 10%Z "last"
                 = Ret demo_still_run) by (vm_compute; reflexivity).
  assert (Hn : length (v_params_list (run_vars (snd demo_still_run))) = 302)
    by (vm_compute; reflexivity).
  assert (Hflat : flat_before 301 10 (v_cost_train (run_vars (snd demo_still_run)))
                  = true) by (vm_compute; reflexivity).
  destruct demo_still_run as [m' run]. cbn [fst snd] in *.
  destruct (early_stop_policy still_backend demo_ready demo_p0 400 "mse" 10%Z)
    as [Hloop Hpolicy].
  destruct (Hpolicy _ _ _ (Hloop "last" m' run Hrun)) as (_ & _ & Htest & _).
  destruct (Htest 301) as (_ & Htrain & _).
  - rewrite Hn. lia.
  - lia.
  - lia.
  - destruct Htrain as [Hi Hstop].
    + left. vm_compute. reflexivity.
    + exact Hflat.
    + split; [exact Hrun|]. split; [exact Hn|]. split; [exact Hflat|].
      split; [now symmetry | exact Hstop].
Defined.

(** The claim as stated fails.  With the train response [0, 0], no dev
    response, [tolerance = 10] and 400 iterations allowed, the train
    cost is 0 up to iteration 300 and 1 at iteration 301.  Over the
    last ten recorded iterations, 292 to 301, the differences of the
    train cost are not all below 1e-5, so in the words of the claim no
    test fires and the loop should run to 400 iterations; the code
    looks at the iterations 291 to 300 and stops at iteration 301 with
    [train_stop]. *)
Lemma train_stop_leaves_out_the_current_cost :
  optimize jump_backend demo_ready demo_p0 400 "mse" 10%Z "last" = Ret demo_jump_run
  /\ Dict.mem "dev" (self_y demo_ready) = false
  /\ length (self_cost_train (fst demo_jump_run)) = 302
  /\ flat_before 302 10 (self_cost_train (fst demo_jump_run)) = false
  /\ flat_before 301 10 (self_cost_train (fst demo_jump_run)) = true
  /\ run_i (snd demo_jump_run) = 301
  /\ run_stop (snd demo_jump_run) = train_stop
  /\ length (self_all_params (fst demo_jump_run)) = 302.
Proof.
  split; [vm_compute; reflexivity|].
  repeat (split; [vm_compute; reflexivity|]). vm_compute. reflexivity.
Qed.

(** ** C4: the retained trace *)

(** C4 (as amended).  For every run of [optimize] that returns, the
    retained trace (train cost, dev cost, both metrics, parameter
    snapshots) has exactly one entry per executed iteration, and that
    number never exceeds [num_iters].  When the run ends with
    [train_stop] at iteration [i], every consecutive difference inside
    the slice [cost_train[i - tolerance:i]] is below 1e-5.  For a
    tolerance between 1 and [i] these are, on the retained trace, the
    [tolerance - 1] differences between the train costs of the
    iterations [i - tolerance .. i - 1]: each of these costs exceeds the
    one before by less than 1e-5, and the difference that reaches the
    cost of iteration [i] is not among them. *)
Theorem optimize_trace :
  forall (B : backend) (m : glm) (p0 : params) (num_iters : nat) (metric : string)
         (tolerance : Z) (policy : string) (m' : glm) (run : opt_run B),
    optimize B m p0 num_iters metric tolerance policy = Ret (m', run) ->
    let executed := length (v_params_list (run_vars run)) in
    executed = S (run_i run)
    /\ executed <= num_iters
    /\ length (self_cost_train m') = executed
    /\ length (self_cost_dev m') = executed
    /\ length (self_metric_train m') = executed
    /\ length (self_metric_dev m') = executed
    /\ self_all_params m' = v_params_list (run_vars run)
    /\ (run_stop run = train_stop ->
        Forall (fun d => fltb d c_1e_5 = true)
          (np_diff (window (v_cost_train (run_vars run)) tolerance (run_i run)))
        /\ ((0 <= tolerance <= Z.of_nat (run_i run))%Z ->
            window (self_cost_train m') tolerance (run_i run)
            = window (v_cost_train (run_vars run)) tolerance (run_i run)
            /\ length (window (self_cost_train m') tolerance (run_i run))
               = Z.to_nat tolerance
            /\ length (np_diff (window (self_cost_train m') tolerance (run_i run)))
               = Z.to_nat tolerance - 1)
        /\ ((1 <= tolerance <= Z.of_nat (run_i run))%Z ->
            flat_before (run_i run) tolerance (self_cost_train m') = true
            /\ length (compared_pairs (run_i run) tolerance) = Z.to_nat tolerance - 1
            /\ forall j, In j (compared_pairs (run_i run) tolerance) ->
                 run_i run - Z.to_nat tolerance <= j /\ S j < run_i run
                 /\ fltb (fsub (nth (S j) (self_cost_train m') NaN)
                               (nth j (self_cost_train m') NaN)) c_1e_5 = true)).
Proof.
  intros B m p0 num_iters metric tolerance policy m' run H executed.
  pose proof (optimize_lengths _ _ _ _ _ _ _ _ _ H)
    as (Hexec & Hle & Hct & Hcd & Hmt & Hmd & Hall).
  pose proof (optimize_loop _ _ _ _ _ _ _ _ _ H)
    as (Hi & _ & Lct & _ & _ & _ & _ & Hat & _).
  subst executed. rewrite Hexec.
  split; [reflexivity|]. split; [exact Hle|].
  split; [exact Hct|]. split; [exact Hcd|]. split; [exact Hmt|]. split; [exact Hmd|].
  split; [exact Hall|].
  intros Hstop. rewrite Hstop in Hat. cbn [test_at_stop] in Hat.
  apply early_stop_reason in Hat.
  destruct Hat as (_ & _ & [(Hs & _)|(_ & _ & Hbelow)]); [discriminate Hs|].
  apply optimize_inv in H. destruct H as (n & _ & _ & _ & _ & Hkeep & _).
  split; [|split].
  - unfold all_below in Hbelow. rewrite forallb_forall in Hbelow.
    apply Forall_forall. exact Hbelow.
  - intros Ht.
    assert (Hw : window (self_cost_train m') tolerance (run_i run)
                 = window (v_cost_train (run_vars run)) tolerance (run_i run))
      by (rewrite Hkeep; apply window_of_trace; [exact Ht | lia]).
    split; [exact Hw|].
    rewrite length_np_diff. rewrite Hw.
    destruct (window_entries tolerance (run_i run) (v_cost_train (run_vars run)) Ht)
      as [_ Hlen]; [lia|].
    rewrite Hlen. split; reflexivity.
  - intros Ht.
    assert (Hflat : flat_before (run_i run) tolerance (self_cost_train m') = true).
    { rewrite Hkeep, flat_before_firstn by lia.
      rewrite <- all_below_flat by lia. exact Hbelow. }
    split; [exact Hflat|].
    split; [unfold compared_pairs; apply length_seq|].
    intros j Hin. unfold flat_before in Hflat. rewrite forallb_forall in Hflat.
    specialize (Hflat j Hin). unfold compared_pairs in Hin. apply in_seq in Hin.
    split; [lia|]. split; [lia | exact Hflat].
Qed.

Lemma optimize_trace_witness :
  optimize still_backend demo_ready demo_p0 400 "mse" 10%Z "last" = Ret demo_still_run
  /\ run_stop (snd demo_still_run) = train_stop
  /\ length (self_cost_train (fst demo_still_run)) = 302
  /\ length (self_all_params (fst demo_still_run)) = 302
  /\ Forall (fun d => fltb d c_1e_5 = true)
       (np_diff (window (self_cost_train (fst demo_still_run)) 10 301))
  /\ flat_before 301 10 (self_cost_train (fst demo_still_run)) = true.
Proof.
  assert (Hrun : optimize still_backend demo_ready demo_p0 400 "mse" 10%Z "last"
                 = Ret demo_still_run) by (vm_compute; reflexivity).
  assert (Hstop : run_stop (snd demo_still_run) = train_stop)
    by (vm_compute; reflexivity).
  assert (Hi : run_i (snd demo_still_run) = 301) by (vm_compute; reflexivity).
  destruct demo_still_run as [m' run] eqn:Hdemo. cbn [fst snd] in *.
  destruct (optimize_trace still_backend demo_ready demo_p0 400 "mse" 10%Z "last"
              m' run Hrun)
    as (Hexec & _ & Hct & _ & _ & _ & Hall & Htrain).
  destruct (Htrain Hstop) as (Hbelow & Hwin & Hflat).
  rewrite Hi in *.
  split; [exact Hrun|]. split; [exact Hstop|].
  split; [congruence|].
  split; [rewrite Hall; exact Hexec|].
  split.
  - destruct Hwin as [Hwin _]; [lia|]. rewrite Hwin. exact Hbelow.
  - destruct Hflat as [Hflat _]; [lia | exact Hflat].
Defined.

(** The claim as stated fails.  In the run with the jump at iteration
    300 and [tolerance = 10], which ends with [train_stop] at iteration
    301, the last of the ten most recent train-cost differences, the one
    between the iterations 300 and 301, is not below 1e-5: the test
    looked at the nine differences before it.  In the run with
    [tolerance = 350] and a train cost that grows at every step, which
    also ends with [train_stop] at iteration 301, the slice
    [cost_train[-49:301]] of the 400 preallocated entries is empty and
    no difference of the retained trace is below 1e-5. *)
Lemma train_stop_with_a_difference_above_the_threshold :
  (optimize jump_backend demo_ready demo_p0 400 "mse" 10%Z "last" = Ret demo_jump_run
   /\ run_stop (snd demo_jump_run) = train_stop
   /\ run_i (snd demo_jump_run) = 301
   /\ length (self_cost_train (fst demo_jump_run)) = 302
   /\ fltb (fsub (nth 301 (self_cost_train (fst demo_jump_run)) NaN)
                 (nth 300 (self_cost_train (fst demo_jump_run)) NaN)) c_1e_5 = false
   /\ length (np_diff (window (self_cost_train (fst demo_jump_run)) 10 301)) = 9)
  /\ (optimize drift_backend demo_ready demo_p0 400 "mse" 350%Z "last"
      = Ret demo_wide_run
      /\ run_stop (snd demo_wide_run) = train_stop
      /\ run_i (snd demo_wide_run) = 301
      /\ length (v_cost_train (run_vars (snd demo_wide_run))) = 400
      /\ window (v_cost_train (run_vars (snd demo_wide_run))) 350 301 = []
      /\ forallb (fun d => negb (fltb d c_1e_5))
           (np_diff (self_cost_train (fst demo_wide_run))) = true
      /\ length (np_diff (self_cost_train (fst demo_wide_run))) = 301).
Proof.
  split.
  - split; [vm_compute; reflexivity|].
    repeat (split; [vm_compute; reflexivity|]). vm_compute. reflexivity.
  - split; [vm_compute; reflexivity|].
    repeat (split; [vm_compute; reflexivity|]). vm_compute. reflexivity.
Qed.

(** ** C5: selection by best dev cost *)

Lemma fltb_nan_r (x : fnum) : fltb x NaN = false.
Proof. destruct x; reflexivity. Qed.

Lemma fleb_refl (x : fnum) : isnan x = false -> fleb x x = true.
Proof.
  destruct x; cbn; intros H; try reflexivity; try discriminate H.
  apply Qle_bool_iff. apply Qle_refl.
Qed.

Lemma fleb_not_fltb (x y : fnum) : fleb x y = true -> fltb y x = false.
Proof.
  destruct x, y; cbn; intros H; try reflexivity; try discriminate H.
  unfold Qltb. now rewrite H.
Qed.

(** A value strictly below the running minimum is below everything the
    running minimum was below. *)
Lemma fleb_new_minimum (x mp y : fnum) :
  isnan x = false -> isnan mp = false ->
  fleb mp x = false -> fleb mp y = true -> fleb x y = true.
Proof.
  destruct x as [qx| | |], mp as [qm| | |], y as [qy| | |]; cbn;
    intros Hx Hm Hlt Hle; try reflexivity; try discriminate.
  apply Qle_bool_iff. apply Qle_bool_iff in Hle.
  assert (Hxm : (qx < qm)%Q).
  { apply Qnot_le_lt. intros Hc. apply Qle_bool_iff in Hc. congruence. }
  apply Qle_trans with qm; [apply Qlt_le_weak; exact Hxm | exact Hle].
Qed.

Lemma argmin_scan_spec :
  forall (t pre : list fnum) (mp : fnum) (idx : nat),
    isnan mp = false ->
    idx < length pre ->
    nth idx pre NaN = mp ->
    (forall j, j < length pre -> fleb mp (nth j pre NaN) = true) ->
    argmin_scan mp idx (length pre) t < length (pre ++ t)
    /\ (forall j, j < length (pre ++ t) ->
          fltb (nth j (pre ++ t) NaN)
               (nth (argmin_scan mp idx (length pre) t) (pre ++ t) NaN) = false).
Proof.
  induction t as [|x t IH]; intros pre mp idx Hmp Hidx Hnth Hmin.
  - cbn [argmin_scan]. rewrite app_nil_r. split; [exact Hidx|].
    intros j Hj. rewrite Hnth. apply fleb_not_fltb. now apply Hmin.
  - cbn [argmin_scan]. unfold fgeb.
    assert (Hlen : length (pre ++ [x]) = S (length pre))
      by (rewrite length_app; cbn; lia).
    assert (Hsplit : pre ++ x :: t = (pre ++ [x]) ++ t)
      by (rewrite <- app_assoc; reflexivity).
    destruct (fleb mp x) eqn:Hle; cbn [negb].
    + (* the minimum stays *)
      rewrite Hsplit, <- Hlen. apply IH.
      * exact Hmp.
      * rewrite Hlen. lia.
      * rewrite app_nth1 by exact Hidx. exact Hnth.
      * intros j Hj. rewrite Hlen in Hj.
        destruct (Nat.eq_dec j (length pre)) as [->|Hne].
        -- rewrite app_nth2, Nat.sub_diag by lia. exact Hle.
        -- rewrite app_nth1 by lia. apply Hmin. lia.
    + destruct (isnan x) eqn:Hx.
      * (* a NaN ends the scan *)
        destruct x; try discriminate Hx.
        split; [rewrite length_app; cbn; lia|].
        intros j Hj.
        replace (nth (length pre) (pre ++ NaN :: t) NaN) with NaN;
          [apply fltb_nan_r|].
        rewrite app_nth2, Nat.sub_diag by lia. reflexivity.
      * (* a new minimum *)
        rewrite Hsplit, <- Hlen. apply IH.
        -- exact Hx.
        -- rewrite !Hlen. lia.
        -- rewrite app_nth2, Nat.sub_diag by lia. reflexivity.
        -- intros j Hj. rewrite Hlen in Hj.
           destruct (Nat.eq_dec j (length pre)) as [->|Hne].
           ++ rewrite app_nth2, Nat.sub_diag by lia. now apply fleb_refl.
           ++ rewrite app_nth1 by lia.
              apply (fleb_new_minimum x mp); try assumption. apply Hmin. lia.
Qed.

Lemma np_argmin_spec (l : list fnum) (k : nat) :
  np_argmin l = Ret k ->
  k < length l
  /\ (forall j, j < length l -> fltb (nth j l NaN) (nth k l NaN) = false).
Proof.
  destruct l as [|x t]; cbn [np_argmin]; intros H; [discriminate H|].
  injection H as <-. destruct (isnan x) eqn:Hx.
  - destruct x; try discriminate Hx. split; [cbn; lia|].
    intros j _. apply fltb_nan_r.
  - apply (argmin_scan_spec t [x] x 0).
    + exact Hx.
    + cbn. lia.
    + reflexivity.
    + intros j Hj. cbn in Hj. assert (j = 0) as -> by lia. now apply fleb_refl.
Qed.

Lemma py_index_of_nat (A : Type) (l : list A) (k : nat) (a : A) :
  py_index l (Z.of_nat k) = Ret a -> nth_error l k = Some a.
Proof.
  unfold py_index. destruct (Z.ltb_spec (Z.of_nat k) 0) as [|_]; [lia|].
  destruct (Z.ltb_spec (Z.of_nat k) 0) as [|_]; [lia|].
  rewrite Nat2Z.id. destruct (nth_error l k); cbn; congruence.
Qed.

(** C5.  For every run of [optimize] with policy [best_dev_cost] that
    returns, the returned snapshot is the one stored at the trace index
    [best] that [argmin] picks on the recorded dev costs, and a scan of
    the whole executed trace finds no index whose dev cost is strictly
    smaller than the one at [best]. *)
Theorem best_dev_cost_selection :
  forall (B : backend) (m : glm) (p0 : params) (num_iters : nat) (metric : string)
         (tolerance : Z) (m' : glm) (run : opt_run B),
    optimize B m p0 num_iters metric tolerance "best_dev_cost" = Ret (m', run) ->
    exists best : nat,
      run_best run = Z.of_nat best
      /\ np_argmin (self_cost_dev m') = Ret best
      /\ best < length (self_cost_dev m')
      /\ length (self_cost_dev m') = length (self_all_params m')
      /\ nth_error (self_all_params m') best = Some (run_params run)
      /\ (forall j, j < length (self_cost_dev m') ->
            fltb (nth j (self_cost_dev m') NaN) (nth best (self_cost_dev m') NaN)
            = false).
Proof.
  intros B m p0 num_iters metric tolerance m' run H.
  pose proof (optimize_lengths _ _ _ _ _ _ _ _ _ H)
    as (Hexec & _ & _ & Hlen & _ & _ & Hall).
  rewrite <- Hexec in Hlen.
  apply optimize_inv in H.
  destruct H as (n & _ & _ & Hsel & Hidx & _ & Hcd & _).
  unfold select_best in Hsel. cbn [String.eqb Ascii.eqb Bool.eqb] in Hsel.
  bind_inv Hsel. injection Hsel as Hbest.
  rewrite py_slice_to_succ, <- Hcd in E.
  destruct (np_argmin_spec _ _ E) as [Hlt Hmin].
  exists a. rewrite <- Hbest in Hidx. apply py_index_of_nat in Hidx.
  split; [now symmetry|]. split; [exact E|]. split; [exact Hlt|].
  split; [rewrite Hall; exact Hlen|].
  split; [rewrite Hall; exact Hidx | exact Hmin].
Qed.

Lemma best_dev_cost_selection_witness :
  optimize drift_backend demo_ready_dev demo_p0 3 "mse" 10%Z "best_dev_cost"
    = Ret demo_best_run
  /\ self_cost_dev (fst demo_best_run) = [Fin (2 # 2); Fin (8 # 2); Fin (18 # 2)]
  /\ run_best (snd demo_best_run) = 0%Z
  /\ nth_error (self_all_params (fst demo_best_run)) 0
     = Some (run_params (snd demo_best_run)).
Proof.
  assert (Hrun : optimize drift_backend demo_ready_dev demo_p0 3 "mse" 10%Z "best_dev_cost"
                 = Ret demo_best_run) by (vm_compute; reflexivity).
  assert (Hcd : self_cost_dev (fst demo_best_run) = [Fin (2 # 2); Fin (8 # 2); Fin (18 # 2)])
    by (vm_compute; reflexivity).
  destruct demo_best_run as [m' run]. cbn [fst snd] in *.
  destruct (best_dev_cost_selection drift_backend demo_ready_dev demo_p0 3 "mse" 10%Z
              m' run Hrun) as (best & Hbest & Harg & _ & _ & Hnth & _).
  rewrite Hcd in Harg. vm_compute in Harg. injection Harg as <-.
  split; [exact Hrun|]. split; [exact Hcd|]. split; [exact Hbest | exact Hnth].
Defined.

(** ** C6: an unsupported metric name *)

(** C6 (as amended).  For every metric name outside the supported set
    (r2, r2adj, mse, corrcoef, gcv), [compute_score] prints the message
    "Metric `<name>` is not supported." and returns [None]: the call
    returns normally, it raises nothing. *)
Theorem compute_score_unsupported :
  forall (B : backend) (m : glm) (yv y_pred : vec) (metric : string),
    ~ In metric supported_metrics ->
    compute_score B m yv y_pred metric =
      mkCall [("Metric `" ++ metric ++ "` is not supported.")%string] (Ret None)
    /\ ~ raises (returned (compute_score B m yv y_pred metric)).
Proof.
  intros B m yv y_pred metric Hout.
  assert (Hne : forall s, In s supported_metrics -> String.eqb metric s = false).
  { intros s Hs. apply eqb_false_of_neq. intros ->. exact (Hout Hs). }
  assert (Heq : compute_score B m yv y_pred metric =
                mkCall [("Metric `" ++ metric ++ "` is not supported.")%string] (Ret None)).
  { unfold compute_score.
    rewrite (Hne "r2"), (Hne "r2adj"), (Hne "mse"), (Hne "corrcoef"), (Hne "gcv");
      unfold supported_metrics; simpl; auto 10. }
  split; [exact Heq|].
  rewrite Heq. simpl. intros [e He]. discriminate He.
Qed.

Lemma compute_score_unsupported_witness :
  compute_score still_backend (init "gaussian" "none") [f1] [f0] "accuracy" =
    mkCall ["Metric `accuracy` is not supported."] (Ret None)
  /\ ~ raises (returned (compute_score still_backend (init "gaussian" "none")
                           [f1] [f0] "accuracy")).
Proof.
  apply (compute_score_unsupported still_backend (init "gaussian" "none")
           [f1] [f0] "accuracy").
  unfold supported_metrics. simpl.
  intros [H|[H|[H|[H|[H|H]]]]]; try discriminate H; exact H.
Defined.

(** The claim as stated fails: on the name "accuracy" the call returns
    [None] and does not raise. *)
Lemma compute_score_unsupported_does_not_raise :
  ~ In "accuracy" supported_metrics
  /\ returned (compute_score still_backend (init "gaussian" "none")
                 [f1] [f0] "accuracy") = Ret None
  /\ ~ raises (returned (compute_score still_backend (init "gaussian" "none")
                           [f1] [f0] "accuracy")).
Proof.
  split.
  - unfold supported_metrics. simpl.
    intros [H|[H|[H|[H|[H|H]]]]]; try discriminate H; exact H.
  - split; [reflexivity|]. simpl. intros [e He]. discriminate He.
Qed.

(** ** C7: the shared burn-in *)

Lemma register_filter_burn_in (a : adm_args) (m m' : glm) dims shift :
  register_filter a m = Ret (m', dims, shift) ->
  self_burn_in m' = self_burn_in m
  /\ (arg_kind a = "train" -> dims = as_list (arg_dims a)).
Proof.
  unfold register_filter. intros H.
  destruct (String.eqb (arg_kind a) "train") eqn:Hk.
  - ret_inv H. split; reflexivity.
  - ret_inv H. split; [reflexivity|].
    intros Hk'. rewrite Hk' in Hk. discriminate Hk.
Qed.

Lemma project_burn_in (kind name : string) (Sm : matrix) (m m' : glm) :
  project kind name Sm m = Ret m' -> self_burn_in m' = self_burn_in m.
Proof.
  unfold project. intros H. ret_inv H. reflexivity.
Qed.

Lemma without_smooth_burn_in (a : adm_args) (m m' : glm) :
  without_smooth a m = Ret m' -> self_burn_in m' = self_burn_in m.
Proof.
  unfold without_smooth. intros H.
  destruct (Dict.mem (arg_name a) (self_S m)).
  - bind_inv H. apply project_burn_in in H. exact H.
  - destruct (String.eqb (arg_kind a) "test").
    + bind_inv H. apply project_burn_in in H. exact H.
    + destruct (String.eqb (arg_kind a) "train").
      * ret_inv H. reflexivity.
      * ret_inv H. reflexivity.
Qed.

Lemma with_smooth_burn_in (B : backend) (a : adm_args) (smooth : string) dims
    (m m' : glm) :
  with_smooth B a smooth dims m = Ret m' -> self_burn_in m' = self_burn_in m.
Proof.
  unfold with_smooth. intros H. bind_inv H.
  destruct (String.eqb (arg_kind a) "train").
  - bind_inv H.
    destruct (all_zero _); ret_inv H; reflexivity.
  - ret_inv H. reflexivity.
Qed.

Lemma init_burn_in_spec (a : adm_args) dims (m m' : glm) :
  init_burn_in a dims m = Ret m' ->
  (forall bi, self_burn_in m = Some bi -> self_burn_in m' = Some bi)
  /\ (self_burn_in m = None ->
      forall g, arg_burn_in a = Some g -> self_burn_in m' = Some g)
  /\ (self_burn_in m = None -> arg_burn_in a = None ->
      exists d0, first_dim dims = Ret d0 /\ self_burn_in m' = Some (d0 - 1)%Z).
Proof.
  unfold init_burn_in. intros H.
  destruct (self_burn_in m) as [bi0|] eqn:Hb.
  - ret_inv H. repeat split; try discriminate.
    intros bi Hbi. congruence.
  - destruct (arg_burn_in a) as [g0|] eqn:Hg.
    + ret_inv H. repeat split; try discriminate.
      intros _ g Hg'. injection Hg' as <-. reflexivity.
    + bind_inv H. inversion H; subst; clear H.
      repeat split; try discriminate.
      intros _ _. exists a0. split; [assumption | reflexivity].
Qed.

Lemma store_design_burn_in (B : backend) (a : adm_args) Xin dims shift (m m' : glm) :
  store_design B a Xin dims shift m = Ret m' ->
  self_burn_in m' = if arg_lag a then self_burn_in m else Some 0%Z.
Proof.
  unfold store_design. intros H.
  destruct (arg_lag a); ret_inv H; reflexivity.
Qed.


Lemma add_design_matrix_steps (B : backend) (a : adm_args) (m m' : glm) :
  add_design_matrix B a m = Ret m' ->
  exists m1 m2 m3 dims shift,
    register_filter a m = Ret (m1, dims, shift)
    /\ init_burn_in a dims m1 = Ret m2
    /\ store_design B a (match arg_X a with Arr1 v => column v | Arr2 M => M end)
         dims shift m2 = Ret m3
    /\ self_burn_in m' = self_burn_in m3.
Proof.
  unfold add_design_matrix. intros H. bind_inv H.
  destruct a0 as [[m1 dims] shift]. bind_inv H.
  exists m1, a0, a1, dims, shift. repeat split; try assumption.
  destruct (arg_smooth a).
  - eapply with_smooth_burn_in; eassumption.
  - eapply without_smooth_burn_in; eassumption.
Qed.




(** ** Parameter initialisation leaves the registry alone *)

Lemma init_random_registry (B : backend) (seed : Z) (m m' : glm) :
  init_random B seed m = Ret m' -> registry m' = registry m.
Proof.
  unfold init_random. intros H. cbv zeta in H. bind_inv H.
  apply (foldM_invariant _ _ (fun s => registry s = registry m)) in E.
  - inversion H; subst. exact E.
  - intros s [i name] s' Hs Hb. run_inv; exact Hs.
  - reflexivity.
Qed.

Lemma unpack_mle_registry (mle : vec) (m m' : glm) :
  unpack_mle mle m = Ret m' -> registry m' = registry m.
Proof.
  unfold unpack_mle. intros H. cbv zeta in H. bind_inv H.
  apply (foldM_invariant _ _ (fun s => registry s = registry m)) in E.
  - run_inv. exact E.
  - intros s [i name] s' Hs Hb. unfold unpack_filter in Hb. run_inv; exact Hs.
  - reflexivity.
Qed.

Lemma collect_p_mle_registry (m m' : glm) :
  collect_p_mle m = Ret m' -> registry m' = registry m.
Proof.
  unfold collect_p_mle. intros H. cbv zeta in H. bind_inv H.
  apply (foldM_invariant _ _ (fun s => registry s = registry m)) in E.
  - run_inv. exact E.
  - intros s name s' Hs Hb. run_inv; exact Hs.
  - reflexivity.
Qed.

Lemma filter_variance_registry (B : backend) (w_type : string) (m m' : glm) :
  _get_filter_variance B w_type m = Ret m' -> registry m' = registry m.
Proof.
  unfold _get_filter_variance. intros H. run_inv. reflexivity.
Qed.

Lemma response_variance_registry (B : backend) (w_type kind : string) (m m' : glm) :
  _get_response_variance B w_type kind m = Ret m' -> registry m' = registry m.
Proof.
  unfold _get_response_variance. intros H. run_inv.
  destruct (Dict.mem w_type (self_y_pred_lower m)); reflexivity.
Qed.

Ltac frame_hyps :=
  repeat match goal with
         | H : unpack_mle _ _ = Ret _ |- _ => apply unpack_mle_registry in H
         | H : collect_p_mle _ = Ret _ |- _ => apply collect_p_mle_registry in H
         | H : _get_filter_variance _ _ _ = Ret _ |- _ =>
             apply filter_variance_registry in H
         | H : _get_response_variance _ _ _ _ = Ret _ |- _ =>
             apply response_variance_registry in H
         end.

Lemma compute_mle_registry (B : backend) (yarg : response) (ci : bool) (m m' : glm) :
  compute_mle B yarg ci m = Ret m' -> registry m' = registry m.
Proof.
  unfold compute_mle. destruct (self_compute_ci m); intros H;
    run_inv; frame_hyps; unfold registry in *; simpl in *; congruence.
Qed.

Lemma init_params_registry (B : backend) (a : init_args) (m m' : glm) :
  init_params B a m = Ret m' -> registry m' = registry m.
Proof.
  unfold init_params. cbv zeta. intros H.
  destruct (String.eqb (ia_method a) "random").
  - apply init_random_registry in H. exact H.
  - destruct (String.eqb (ia_method a) "mle"); [|discriminate H].
    match type of H with
    | (if ?b then _ else _) = _ => destruct b
    end.
    + injection H as <-. reflexivity.
    + apply compute_mle_registry in H. exact H.
Qed.

(** ** C8: subunit renaming *)

Lemma alias_filter_spec (method name : string) (m m' : glm) :
  alias_filter method name m = Ret m' ->
  alias_entry name (self_dims m) (self_dims m')
  /\ alias_entry name (self_shift m) (self_shift m')
  /\ alias_entry name (self_filter_nonlinearity m) (self_filter_nonlinearity m')
  /\ self_filter_names m' = self_filter_names m.
Proof.
  unfold alias_filter, alias_entry. intros H. run_inv;
    repeat match goal with
           | H : Dict.item "stimulus" _ = Ret _ |- _ => apply item_ret in H; simpl in H
           end;
    (split; [eexists; split; [eassumption|reflexivity]|]);
    (split; [eexists; split; [eassumption|reflexivity]|]);
    (split; [eexists; split; [eassumption|reflexivity]|]);
    reflexivity.
Qed.

Lemma get_after_alias (V : Type) (a k : string) (d : V) (D : dict V) :
  Dict.get k D = Some d -> Dict.get k (Dict.set a d D) = Some d.
Proof.
  intros Hk. destruct (string_dec k a) as [->|Hne].
  - apply get_set_same.
  - rewrite get_set_other; assumption.
Qed.

(** Along the loop every name containing ['stimulus'] ends up with the
    entry the original ['stimulus'] key had, and that entry stays. *)
Lemma alias_loop_chain (V : Type) (proj : glm -> dict V) (method : string) :
  (forall name m m',
      alias_filter method name m = Ret m' -> alias_entry name (proj m) (proj m')) ->
  forall names m m',
    alias_loop method names m = Ret m' ->
    (forall d k, Dict.get "stimulus" (proj m) = Some d ->
                 Dict.get k (proj m) = Some d -> Dict.get k (proj m') = Some d)
    /\ (forall n, In n names -> contains "stimulus" n = true ->
                  exists d, Dict.get "stimulus" (proj m) = Some d
                            /\ Dict.get n (proj m') = Some d).
Proof.
  intros Hstep. induction names as [|a names IH]; intros m m' H.
  - injection H as <-. split; [auto|]. intros n [].
  - unfold alias_loop in H. cbn [foldM] in H. bind_inv H.
    fold (alias_loop method names a0) in H.
    destruct (IH _ _ H) as [IH1 IH2].
    destruct (contains "stimulus" a) eqn:Ha.
    + destruct (Hstep _ _ _ E) as (d0 & Hd0 & Hset).
      assert (Hs1 : Dict.get "stimulus" (proj a0) = Some d0).
      { rewrite Hset. now apply get_after_alias. }
      split.
      * intros d k Hd Hk. rewrite Hd0 in Hd. injection Hd as <-.
        apply IH1; [exact Hs1|]. rewrite Hset. now apply get_after_alias.
      * intros n [<-|Hn] Hc.
        -- exists d0. split; [exact Hd0|].
           apply IH1; [exact Hs1|]. rewrite Hset. apply get_set_same.
        -- destruct (IH2 n Hn Hc) as (d' & Hd' & Hn').
           rewrite Hs1 in Hd'. injection Hd' as <-. eauto.
    + injection E as <-. split; [exact IH1|].
      intros n [<-|Hn] Hc; [congruence|]. now apply IH2.
Qed.

Lemma alias_loop_names (method : string) (names : list string) (m m' : glm) :
  alias_loop method names m = Ret m' -> self_filter_names m' = self_filter_names m.
Proof.
  unfold alias_loop. intros H.
  apply (foldM_invariant _ _ (fun s => self_filter_names s = self_filter_names m)) in H;
    [exact H | | reflexivity].
  intros s name s' Hs Hb. destruct (contains "stimulus" name).
  - apply alias_filter_spec in Hb. destruct Hb as (_ & _ & _ & Hb). congruence.
  - injection Hb as <-. exact Hs.
Qed.

(** The hyperparameters the claim speaks of. *)
Lemma drop_stimulus_hyper (method : string) (m m' : glm) :
  drop_stimulus method m = Ret m' ->
  self_dims m' = self_dims m /\ self_shift m' = self_shift m
  /\ self_filter_nonlinearity m' = self_filter_nonlinearity m.
Proof.
  unfold drop_stimulus. cbv zeta.
  destruct (pop2 method "stimulus" (self_b m)); intros H; run_inv;
    repeat split; reflexivity.
Qed.

Lemma collect_p0_hyper (B : backend) (method : string) (seed : Z) (noise : fnum)
    (m m' : glm) :
  collect_p0 B method seed noise m = Ret m' ->
  self_dims m' = self_dims m /\ self_shift m' = self_shift m
  /\ self_filter_nonlinearity m' = self_filter_nonlinearity m
  /\ self_filter_names m' = self_filter_names m.
Proof.
  unfold collect_p0. cbv zeta. intros H. bind_inv H.
  apply (foldM_invariant _ _
           (fun s : glm * params =>
              self_dims (fst s) = self_dims m /\ self_shift (fst s) = self_shift m
              /\ self_filter_nonlinearity (fst s) = self_filter_nonlinearity m
              /\ self_filter_names (fst s) = self_filter_names m)) in E.
  - injection H as <-. exact E.
  - intros [s p0] [i name] s' Hs Hb. run_inv; exact Hs.
  - repeat split; reflexivity.
Qed.

Lemma filter_other_id (x : string) (l : list string) :
  ~ In x l -> filter (fun n => negb (String.eqb n x)) l = l.
Proof.
  induction l as [|a l IH]; simpl; intros H; [reflexivity|].
  destruct (String.eqb a x) eqn:E.
  - apply String.eqb_eq in E. subst a. exfalso. apply H. now left.
  - simpl. f_equal. apply IH. intros Hin. apply H. now right.
Qed.

Lemma list_remove_once (x : string) (l l' : list string) :
  list_remove x l = Ret l' ->
  count_occ string_dec l x = 1 ->
  l' = filter (fun n => negb (String.eqb n x)) l.
Proof.
  revert l'. induction l as [|a l IH]; simpl; intros l' H Hc; [discriminate H|].
  destruct (String.eqb x a) eqn:E.
  - apply String.eqb_eq in E. subst a. injection H as <-.
    rewrite String.eqb_refl. simpl.
    destruct (string_dec x x) as [_|Hne]; [|contradiction].
    symmetry. apply filter_other_id.
    apply (count_occ_not_In string_dec). lia.
  - bind_inv H. injection H as <-.
    assert (Hax : String.eqb a x = false) by (rewrite String.eqb_sym; exact E).
    rewrite Hax. simpl. f_equal. apply IH; [exact E0|].
    destruct (string_dec a x) as [->|_]; [|exact Hc].
    rewrite String.eqb_refl in E. discriminate E.
Qed.

Lemma expand_subunits_spec (method : string) (k : Z) (m m' : glm) :
  k <> 1%Z ->
  expand_subunits method k m = Ret m' ->
  exists rest m1,
    list_remove "stimulus" (self_filter_names m) = Ret rest
    /\ alias_loop method (subunit_names k ++ rest) m = Ret m1
    /\ self_dims m' = self_dims m1 /\ self_shift m' = self_shift m1
    /\ self_filter_nonlinearity m' = self_filter_nonlinearity m1
    /\ self_filter_names m' = subunit_names k ++ rest.
Proof.
  intros Hk. unfold expand_subunits.
  destruct (Z.eqb_spec k 1) as [->|_]; [contradiction|].
  intros H. cbv zeta in H. bind_inv H. injection H as <-.
  exists a, a0. apply drop_stimulus_hyper in E1.
  destruct E1 as (Hd & Hs & Hf).
  repeat split; assumption.
Qed.

Lemma subunit_names_3 :
  subunit_names 3 = ["stimulus_s0"; "stimulus_s1"; "stimulus_s2"].
Proof. reflexivity. Qed.

(** C8.  After [initialize] with [num_subunits=3] on a model whose only
    stimulus filter is named ['stimulus'], the filter names are
    [stimulus_s0], [stimulus_s1], [stimulus_s2] followed by the other
    filters; ['stimulus'] is no longer among them, no other name
    contains it, and each alias has the dims, shift and filter
    nonlinearity of the original stimulus filter. *)
Theorem subunit_expansion :
  forall (B : backend) (a : init_args) (m m' : glm),
    ia_num_subunits a = 3%Z ->
    count_occ string_dec (self_filter_names m) "stimulus" = 1 ->
    (forall n, In n (self_filter_names m) -> contains "stimulus" n = true ->
               n = "stimulus") ->
    initialize B a m = Ret m' ->
    self_filter_names m' =
      ["stimulus_s0"; "stimulus_s1"; "stimulus_s2"]
        ++ filter (fun n => negb (String.eqb n "stimulus")) (self_filter_names m)
    /\ ~ In "stimulus" (self_filter_names m')
    /\ (forall n, In n (self_filter_names m') -> contains "stimulus" n = true ->
                  In n ["stimulus_s0"; "stimulus_s1"; "stimulus_s2"])
    /\ (forall alias, In alias ["stimulus_s0"; "stimulus_s1"; "stimulus_s2"] ->
          (exists d, Dict.get "stimulus" (self_dims m) = Some d
                     /\ Dict.get alias (self_dims m') = Some d)
          /\ (exists s, Dict.get "stimulus" (self_shift m) = Some s
                        /\ Dict.get alias (self_shift m') = Some s)
          /\ (exists f, Dict.get "stimulus" (self_filter_nonlinearity m) = Some f
                        /\ Dict.get alias (self_filter_nonlinearity m') = Some f)).
Proof.
  intros B a m m' Hk Hone Honly H.
  unfold initialize in H. bind_inv H.
  rename a0 into m1, a1 into m3, E into Hinit, E0 into Hexp.
  apply init_params_registry in Hinit. unfold registry in Hinit.
  injection Hinit as Hdims Hshift Hfnl Hnames _.
  rewrite Hk in Hexp.
  apply expand_subunits_spec in Hexp; [|discriminate].
  destruct Hexp as (rest & m2 & Hrem & Hloop & Hd3 & Hs3 & Hf3 & Hn3).
  apply collect_p0_hyper in H. destruct H as (Hd' & Hs' & Hf' & Hn').
  rewrite Hnames in Hrem.
  pose proof (list_remove_once _ _ _ Hrem Hone) as Hrest.
  rewrite subunit_names_3 in Hn3, Hloop.
  assert (Hfinal : self_filter_names m' =
                   ["stimulus_s0"; "stimulus_s1"; "stimulus_s2"]
                     ++ filter (fun n => negb (String.eqb n "stimulus"))
                          (self_filter_names m)).
  { rewrite Hn', Hn3, Hrest. reflexivity. }
  assert (Hother : forall n,
             In n (filter (fun n => negb (String.eqb n "stimulus")) (self_filter_names m)) ->
             contains "stimulus" n = false).
  { intros n Hn. apply filter_In in Hn. destruct Hn as [Hin Hneq].
    destruct (contains "stimulus" n) eqn:Hc; [|reflexivity].
    rewrite (Honly n Hin Hc) in Hneq. discriminate Hneq. }
  split; [exact Hfinal|].
  split.
  { rewrite Hfinal. intros Hin. apply in_app_or in Hin. destruct Hin as [Hin|Hin].
    - simpl in Hin. destruct Hin as [Hin|[Hin|[Hin|[]]]]; discriminate Hin.
    - apply Hother in Hin. discriminate Hin. }
  split.
  { rewrite Hfinal. intros n Hin Hc. apply in_app_or in Hin.
    destruct Hin as [Hin|Hin]; [exact Hin|].
    apply Hother in Hin. congruence. }
  intros alias Halias.
  assert (Hin : In alias (["stimulus_s0"; "stimulus_s1"; "stimulus_s2"] ++ rest))
    by (apply in_or_app; now left).
  assert (Hc : contains "stimulus" alias = true).
  { simpl in Halias. destruct Halias as [<-|[<-|[<-|[]]]]; reflexivity. }
  split; [|split].
  - destruct (proj2 (alias_loop_chain _ self_dims (ia_method a)
                       (fun name s s' Hs => proj1 (alias_filter_spec _ _ _ _ Hs))
                       _ _ _ Hloop) alias Hin Hc) as (d & Hd & Hda).
    exists d. split; congruence.
  - destruct (proj2 (alias_loop_chain _ self_shift (ia_method a)
                       (fun name s s' Hs => proj1 (proj2 (alias_filter_spec _ _ _ _ Hs)))
                       _ _ _ Hloop) alias Hin Hc) as (d & Hd & Hda).
    exists d. split; congruence.
  - destruct (proj2 (alias_loop_chain _ self_filter_nonlinearity (ia_method a)
                       (fun name s s' Hs =>
                          proj1 (proj2 (proj2 (alias_filter_spec _ _ _ _ Hs))))
                       _ _ _ Hloop) alias Hin Hc) as (d & Hd & Hda).
    exists d. split; congruence.
Qed.

Lemma subunit_expansion_witness :
  initialize still_backend (random_init 3) demo_train_dev = Ret demo_subunits
  /\ self_filter_names demo_subunits = ["stimulus_s0"; "stimulus_s1"; "stimulus_s2"]
  /\ Dict.get "stimulus_s1" (self_dims demo_subunits) = Some (Some [5%Z]).
Proof.
  assert (Hrun : initialize still_backend (random_init 3) demo_train_dev
                 = Ret demo_subunits) by (vm_compute; reflexivity).
  destruct (subunit_expansion still_backend (random_init 3) demo_train_dev demo_subunits)
    as (Hnames & _ & _ & Halias).
  - reflexivity.
  - vm_compute. reflexivity.
  - intros n Hin _. vm_compute in Hin. destruct Hin as [<-|[]]. reflexivity.
  - exact Hrun.
  - split; [exact Hrun|]. split.
    + rewrite Hnames. vm_compute. reflexivity.
    + destruct (Halias "stimulus_s1") as ((d & Hd & Hd') & _).
      * right. left. reflexivity.
      * rewrite Hd'. rewrite <- Hd. vm_compute. reflexivity.
Defined.

(** ** C9: subunit renaming without a dev split *)

Lemma alias_filter_X_keys (method name k : string) (m m' : glm) :
  alias_filter method name m = Ret m' ->
  Dict.mem k (self_X m') = Dict.mem k (self_X m).
Proof.
  unfold alias_filter. intros H. run_inv;
    repeat match goal with
           | H : set2 _ _ _ (self_X _) = Ret _ |- _ => apply (set2_mem _ k) in H
           end;
    simpl in *; congruence.
Qed.

Lemma drop_stimulus_oke (method : string) (m : glm) :
  only_key_errors (drop_stimulus method m).
Proof. unfold drop_stimulus. cbv zeta. oke. Qed.

Lemma drop_stimulus_needs_dev (method : string) (m m' : glm) :
  drop_stimulus method m = Ret m' -> Dict.mem "dev" (self_X m) = true.
Proof.
  unfold drop_stimulus. cbv zeta.
  destruct (pop2 method "stimulus" (self_b m)); intros H; bind_inv H;
    match goal with
    | Ht : pop2 "train" "stimulus" _ = Ret ?xt,
      Hd : pop2 "dev" "stimulus" (self_X (set_X ?xt _)) = Ret _ |- _ =>
        apply (pop2_mem _ "dev") in Ht;
        unfold pop2 in Hd; bind_inv Hd;
        match goal with
        | Hi : Dict.item "dev" _ = Ret _ |- _ => apply item_mem in Hi; simpl in *; congruence
        end
    end.
Qed.

Lemma list_remove_in (x : string) (l : list string) :
  In x l -> exists l', list_remove x l = Ret l'.
Proof.
  induction l as [|a l IH]; simpl; intros H; [contradiction|].
  destruct (String.eqb x a) eqn:E; [eauto|].
  destruct H as [H|H].
  - subst a. rewrite String.eqb_refl in E. discriminate E.
  - destruct (IH H) as [l' Hl']. rewrite Hl'. simpl. eauto.
Qed.

Lemma alias_loop_X_keys (method k : string) (names : list string) (m m' : glm) :
  alias_loop method names m = Ret m' ->
  Dict.mem k (self_X m') = Dict.mem k (self_X m).
Proof.
  unfold alias_loop. intros H.
  apply (foldM_invariant _ _ (fun s => Dict.mem k (self_X s) = Dict.mem k (self_X m))) in H;
    [exact H | | reflexivity].
  intros s name s' Hs Hb. destruct (contains "stimulus" name).
  - apply (alias_filter_X_keys _ _ k) in Hb. congruence.
  - injection Hb as <-. exact Hs.
Qed.

Lemma expand_subunits_needs_dev (method : string) (k : Z) (m m' : glm) :
  k <> 1%Z -> expand_subunits method k m = Ret m' ->
  Dict.mem "dev" (self_X m) = true.
Proof.
  intros Hk. unfold expand_subunits.
  destruct (Z.eqb_spec k 1) as [->|_]; [contradiction|].
  intros H. cbv zeta in H. bind_inv H.
  apply (alias_loop_X_keys _ "dev") in E0.
  apply drop_stimulus_needs_dev in E1. congruence.
Qed.

Lemma expand_subunits_oke (method : string) (k : Z) (m : glm) :
  In "stimulus" (self_filter_names m) ->
  only_key_errors (expand_subunits method k m).
Proof.
  intros Hin. unfold expand_subunits. destruct (k =? 1)%Z; [apply oke_ret|].
  destruct (list_remove_in _ _ Hin) as [rest ->]. cbn [bind]. cbv zeta.
  apply oke_bind.
  - unfold alias_loop. apply oke_foldM. intros s name.
    destruct (contains "stimulus" name).
    + apply alias_filter_oke.
    + apply oke_ret.
  - intros s. apply oke_bind; [apply drop_stimulus_oke | intros; apply oke_ret].
Qed.

(** C9 (as amended).  [initialize] with [num_subunits] different from 1
    removes the dev-split design-matrix entry of ['stimulus']
    unconditionally; on a model with no dev-split design matrix such a
    call therefore never completes, and whenever the parameter
    initialisation succeeds and a filter named ['stimulus'] is
    registered it fails with a [KeyError]. *)
Theorem subunits_need_dev_split :
  forall (B : backend) (a : init_args) (m : glm),
    Dict.mem "dev" (self_X m) = false ->
    ia_num_subunits a <> 1%Z ->
    raises (initialize B a m)
    /\ (forall m1,
           init_params B a m = Ret m1 ->
           In "stimulus" (self_filter_names m) ->
           exists k, initialize B a m = Raise (KeyError k)).
Proof.
  intros B a m Hdev Hk.
  assert (Hnever : forall m', initialize B a m <> Ret m').
  { intros m' H. unfold initialize in H. bind_inv H.
    apply init_params_registry in E.
    apply expand_subunits_needs_dev in E0; [|exact Hk].
    assert (HX : self_X a0 = self_X m) by (unfold registry in E; congruence).
    rewrite HX in E0. congruence. }
  split.
  - destruct (initialize B a m) as [m'|e] eqn:E.
    + exfalso. exact (Hnever m' eq_refl).
    + now exists e.
  - intros m1 H1 Hin.
    destruct (initialize B a m) as [m'|e] eqn:E.
    + exfalso. exact (Hnever m' eq_refl).
    + assert (Hnames : self_filter_names m1 = self_filter_names m).
      { apply init_params_registry in H1. unfold registry in H1. congruence. }
      unfold initialize in E. rewrite H1 in E. cbn [bind] in E.
      destruct (expand_subunits (ia_method a) (ia_num_subunits a) m1) as [m2|e2] eqn:E2.
      * apply expand_subunits_needs_dev in E2; [|exact Hk].
        apply init_params_registry in H1.
        assert (HX : self_X m1 = self_X m) by (unfold registry in H1; congruence).
        rewrite HX in E2. congruence.
      * cbn [bind] in E. injection E as <-.
        rewrite <- Hnames in Hin.
        destruct (expand_subunits_oke _ _ _ Hin e2 E2) as [k ->].
        now exists k.
Qed.

Lemma subunits_need_dev_split_witness :
  exists k, initialize still_backend (random_init 2) demo_first = Raise (KeyError k).
Proof.
  apply (proj2 (subunits_need_dev_split still_backend (random_init 2) demo_first
                  ltac:(vm_compute; reflexivity) ltac:(discriminate))
           (value_or fresh_glm (init_params still_backend (random_init 2) demo_first))).
  - vm_compute. reflexivity.
  - vm_compute. left. reflexivity.
Defined.

(** On that model the key is ['dev']. *)
Lemma subunits_without_dev_key :
  initialize still_backend (random_init 2) demo_first = Raise (KeyError "dev").
Proof. vm_compute. reflexivity. Qed.

(** The claim as stated fails: a model with no dev-split design matrix
    and no filter named ['stimulus'] fails with a [ValueError], raised
    by [filter_names.remove('stimulus')] before any removal. *)
Lemma subunits_without_stimulus_value_error :
  Dict.mem "dev" (self_X demo_history) = false
  /\ initialize still_backend (random_init 2) demo_history
     = Raise (ValueError "list.remove(x): x not in list")
  /\ ~ (exists k, initialize still_backend (random_init 2) demo_history
                  = Raise (KeyError k)).
Proof.
  split; [vm_compute; reflexivity|].
  assert (H : initialize still_backend (random_init 2) demo_history
              = Raise (ValueError "list.remove(x): x not in list"))
    by (vm_compute; reflexivity).
  split; [exact H|].
  intros [k Hk]. rewrite H in Hk. discriminate Hk.
Qed.

(** ** C10: the policy of a fit without a stored dev response *)

Lemma filter_variance_fitted (B : backend) (w_type : string) (m m' : glm) :
  _get_filter_variance B w_type m = Ret m' ->
  self_p m' = self_p m /\ self_all_params m' = self_all_params m.
Proof.
  unfold _get_filter_variance. intros H. run_inv. split; reflexivity.
Qed.

Lemma response_variance_fitted (B : backend) (w_type kind : string) (m m' : glm) :
  _get_response_variance B w_type kind m = Ret m' ->
  self_p m' = self_p m /\ self_all_params m' = self_all_params m.
Proof.
  unfold _get_response_variance. intros H. run_inv.
  destruct (Dict.mem w_type (self_y_pred_lower m)); split; reflexivity.
Qed.

Ltac fitted_hyps :=
  repeat match goal with
         | H : _get_filter_variance _ _ _ = Ret _ |- _ =>
             apply filter_variance_fitted in H; destruct H
         | H : _get_response_variance _ _ _ _ = Ret _ |- _ =>
             apply response_variance_fitted in H; destruct H
         end.

Lemma extract_opt_params_fitted (B : backend) (m m' : glm) :
  _extract_opt_params B m = Ret m' ->
  self_p m' = self_p m /\ self_all_params m' = self_all_params m.
Proof.
  unfold _extract_opt_params. intros H. cbv zeta in H. bind_inv H.
  apply (foldM_invariant _ _
           (fun s => self_p s = self_p m /\ self_all_params s = self_all_params m)) in E.
  - destruct E as [Ep Ea].
    run_inv; fitted_hyps; cbn in *; split; congruence.
  - intros s name s' Hs Hb. run_inv; exact Hs.
  - split; reflexivity.
Qed.

Lemma store_response_dev (yarg : response) (m m' : glm) :
  store_response yarg m = Ret m' ->
  Dict.mem "dev" (self_y m') = true ->
  Dict.mem "dev" (self_y m) = true \/ response_has_dev yarg = true.
Proof.
  unfold store_response. intros H Hdev. destruct yarg as [|v|d].
  - destruct (Dict.mem "train" (self_y m)); [|discriminate H].
    injection H as <-. now left.
  - bind_inv H. injection H as <-. cbn in Hdev. rewrite mem_set in Hdev.
    now left.
  - bind_inv H. cbv zeta in H. cbn [response_has_dev]. unfold Dict.mem at 2.
    destruct (Dict.get "dev" d); [now right|].
    injection H as <-. cbn in Hdev. rewrite mem_set in Hdev. now left.
Qed.

Lemma py_index_last (A : Type) (l : list A) (i : nat) :
  length l = S i -> py_index l (-1) = py_index l (Z.of_nat i).
Proof.
  intros Hl. unfold py_index. rewrite Hl.
  destruct (Z.ltb_spec (-1) 0) as [_|]; [|lia].
  destruct (Z.ltb_spec (Z.of_nat i) 0) as [|_]; [lia|].
  replace (-1 + Z.of_nat (S i))%Z with (Z.of_nat i) by lia.
  reflexivity.
Qed.

(** C10 (as amended).  On a model with no dev-split response, [fit]
    replaces the requested selection policy by ['last'] before
    optimising.  The parameters it stores are then the final executed
    iterate, unless the run ends with [dev_stop] -- possible only when
    the response passed to this very call carries a ['dev'] entry -- in
    which case they are the iterate at index [i - tolerance]. *)
Theorem last_policy_when_no_dev :
  forall (B : backend) (a : fit_args) (m m' : glm),
    Dict.mem "dev" (self_y m) = false ->
    fit B a m = Ret m' ->
    exists (m1 m2 : glm) (p0 : params) (run : opt_run B),
      optimize B m1 p0 (fa_num_iters a) (fa_metric a) (fa_tolerance a) "last"
        = Ret (m2, run)
      /\ Dict.get "opt" (self_p m') = Some (run_params run)
      /\ self_all_params m' = v_params_list (run_vars run)
      /\ (run_stop run <> dev_stop ->
          py_index (self_all_params m') (-1) = Ret (run_params run))
      /\ (run_stop run = dev_stop ->
          response_has_dev (fa_y a) = true
          /\ py_index (self_all_params m') (Z.of_nat (run_i run) - fa_tolerance a)
             = Ret (run_params run))
      /\ (response_has_dev (fa_y a) = false -> run_stop run <> dev_stop).
Proof.
  intros B a m m' Hnodev H. unfold fit in H. cbv zeta in H.
  assert (Hpol : effective_policy
                   (set_metric (Some (fa_metric a))
                      (set_beta (Some (fa_beta a)) (set_alpha (Some (fa_alpha a)) m)))
                   (fa_return_model a) = "last").
  { unfold effective_policy. cbn. now rewrite Hnodev. }
  rewrite Hpol in H. bind_inv H. destruct a2 as [m2 run]. cbn [fst snd] in H.
  apply extract_opt_params_fitted in H. destruct H as [Hp Hall]. cbn in Hp, Hall.
  pose proof (optimize_lengths _ _ _ _ _ _ _ _ _ E1)
    as (Hexec & _ & _ & _ & _ & _ & Htrace).
  pose proof (optimize_loop _ _ _ _ _ _ _ _ _ E1)
    as (_ & _ & _ & _ & _ & _ & _ & Hat & _).
  pose proof (optimize_inv _ _ _ _ _ _ _ _ _ E1)
    as (n & _ & _ & Hsel & Hidx & _).
  assert (Hdevstop : run_stop run = dev_stop -> response_has_dev (fa_y a) = true).
  { intros Hs. rewrite Hs in Hat. cbn [test_at_stop] in Hat.
    apply early_stop_reason in Hat.
    destruct Hat as (_ & _ & [(_ & Hd & _)|(Hc & _)]); [|discriminate Hc].
    cbn in Hd. destruct (store_response_dev _ _ _ E Hd) as [Hm|Hy]; [|exact Hy].
    cbn in Hm. congruence. }
  exists (set_y_pred (Dict.set "opt" [] (self_y_pred a0)) a0), m2, a1, run.
  split; [exact E1|].
  split; [rewrite Hp; apply get_set_same|].
  split; [congruence|].
  unfold select_best in Hsel. cbn [String.eqb Ascii.eqb Bool.eqb orb] in Hsel.
  rewrite Hall, Htrace.
  split; [|split].
  - intros Hs. rewrite (py_index_last _ _ (run_i run) Hexec).
    destruct (run_stop run); [contradiction| |];
      injection Hsel as Hb; rewrite <- Hb in Hidx; exact Hidx.
  - intros Hs. split; [now apply Hdevstop|].
    rewrite Hs in Hsel. injection Hsel as Hb. rewrite <- Hb in Hidx. exact Hidx.
  - intros Hy Hs. rewrite (Hdevstop Hs) in Hy. discriminate Hy.
Qed.

Lemma last_policy_when_no_dev_witness :
  exists (m1 m2 : glm) (p0 : params) (run : opt_run drift_backend),
    optimize drift_backend m1 p0 (fa_num_iters demo_fit_args) (fa_metric demo_fit_args)
      (fa_tolerance demo_fit_args) "last" = Ret (m2, run)
    /\ Dict.get "opt" (self_p demo_fitted) = Some (run_params run)
    /\ self_all_params demo_fitted = v_params_list (run_vars run)
    /\ (run_stop run <> dev_stop ->
        py_index (self_all_params demo_fitted) (-1) = Ret (run_params run))
    /\ (run_stop run = dev_stop ->
        response_has_dev (fa_y demo_fit_args) = true
        /\ py_index (self_all_params demo_fitted)
             (Z.of_nat (run_i run) - fa_tolerance demo_fit_args)
           = Ret (run_params run))
    /\ (response_has_dev (fa_y demo_fit_args) = false -> run_stop run <> dev_stop).
Proof.
  apply (last_policy_when_no_dev drift_backend demo_fit_args demo_initialized demo_fitted).
  - vm_compute. reflexivity.
  - vm_compute. reflexivity.
Defined.

(** The claim as stated fails: the model holds no dev response, the
    call asks for [best_dev_cost] and passes a dev response; the dev
    cost rises throughout, the loop ends with [dev_stop] at index 301
    and the stored parameters are the iterate of index 291 (weight 292),
    not the final iterate of index 301 (weight 302). *)
Lemma fit_without_stored_dev_returns_earlier_iterate :
  Dict.mem "dev" (self_y demo_initialized) = false
  /\ fit drift_backend demo_fit_args demo_initialized = Ret demo_fitted
  /\ length (self_all_params demo_fitted) = 302
  /\ (p <- Dict.item "opt" (self_p demo_fitted) ;; p_array "stimulus" p)
     = Ret (column [of_nat 292])
  /\ (p <- py_index (self_all_params demo_fitted) 291 ;; p_array "stimulus" p)
     = Ret (column [of_nat 292])
  /\ (p <- py_index (self_all_params demo_fitted) (-1) ;; p_array "stimulus" p)
     = Ret (column [of_nat 302])
  /\ Dict.item "opt" (self_p demo_fitted) <> py_index (self_all_params demo_fitted) (-1).
Proof.
  split; [vm_compute; reflexivity|].
  split; [vm_compute; reflexivity|].
  split; [vm_compute; reflexivity|].
  split; [vm_compute; reflexivity|].
  split; [vm_compute; reflexivity|].
  split; [vm_compute; reflexivity|].
  vm_compute. intros H. discriminate H.
Qed.


(** * Further properties of the methods *)

(** ** [fnl] *)



Lemma relu_entry (v : fnum) :
  fltb f0 (if fgtb v f0 then v else c_1e_7) = true
  /\ isnan (if fgtb v f0 then v else c_1e_7) = false.
Proof.
  unfold fgtb. destruct (fltb f0 v) eqn:E; split; try reflexivity; try exact E.
  destruct v; try reflexivity. vm_compute in E. discriminate E.
Qed.

(** X2.  The [relu] of the source, [where(x > 0, x, 1e-7)], has only
    strictly positive outputs: an entry that is zero, negative or NaN
    becomes [1e-7]. *)
Theorem relu_output_positive :
  forall (B : backend) (x y : vec),
    fnl B x "relu" = Ret y ->
    length y = length x
    /\ Forall (fun v => fltb f0 v = true) y
    /\ Forall (fun v => isnan v = false) y.
Proof.
  intros B x y H.
  assert (Hy : y = map (fun v => if fgtb v f0 then v else c_1e_7) x).
  { change (Ret (map (fun v => if fgtb v f0 then v else c_1e_7) x) = Ret y) in H.
    injection H as <-. reflexivity. }
  subst y. split; [apply length_map|].
  split; apply Forall_map, Forall_forall; intros v _; apply (relu_entry v).
Qed.

Lemma relu_output_positive_witness :
  length [c_2; c_1e_7; c_1e_7; c_1e_7] = 4
  /\ Forall (fun v => fltb f0 v = true) [c_2; c_1e_7; c_1e_7; c_1e_7]
  /\ Forall (fun v => isnan v = false) [c_2; c_1e_7; c_1e_7; c_1e_7].
Proof.
  apply (relu_output_positive still_backend [c_2; f0; NaN; NInf]).
  reflexivity.
Defined.

(** ** [add_design_matrix] *)

Lemma get_ensure_other (V : Type) (k k' : string) (d : dict (dict V)) :
  k <> k' -> Dict.get k (ensure k' d) = Dict.get k d.
Proof.
  intros Hne. unfold ensure.
  destruct (Dict.mem k' d); [reflexivity | now apply get_set_other].
Qed.

Lemma set2_get_other (V : Type) (k k1 k2 : string) (v : V) (d d' : dict (dict V)) :
  k <> k1 -> set2 k1 k2 v d = Ret d' -> Dict.get k d' = Dict.get k d.
Proof.
  intros Hne H. apply set2_ret in H. destruct H as (inner & _ & ->).
  now apply get_set_other.
Qed.

Lemma item2_set2 (V : Type) (k1 k2 : string) (v : V) (d d' : dict (dict V)) :
  set2 k1 k2 v d = Ret d' -> item2 k1 k2 d' = Ret v.
Proof.
  intros H. apply set2_ret in H. destruct H as (inner & _ & ->).
  unfold item2, Dict.item. rewrite get_set_same. simpl.
  now rewrite get_set_same.
Qed.

Lemma add_design_matrix_stages (B : backend) (a : adm_args) (m m' : glm) :
  add_design_matrix B a m = Ret m' ->
  exists m1 m2 m3 dims shift,
    register_filter a m = Ret (m1, dims, shift)
    /\ init_burn_in a dims m1 = Ret m2
    /\ store_design B a (as_2d (arg_X a)) dims shift m2 = Ret m3
    /\ match arg_smooth a with
       | None => without_smooth a m3
       | Some smooth => with_smooth B a smooth dims m3
       end = Ret m'.
Proof.
  unfold add_design_matrix. intros H. bind_inv H.
  destruct a0 as [[m1 dims] shift]. bind_inv H.
  exists m1, a0, a1, dims, shift. repeat split; assumption.
Qed.

Ltac stages H :=
  apply add_design_matrix_stages in H;
  destruct H as (?m1 & ?m2 & ?m3 & ?dims & ?shift & ?Hreg & ?Hbi & ?Hst & ?Hsm);
  unfold register_filter in Hreg; unfold init_burn_in in Hbi;
  unfold store_design in Hst;
  unfold without_smooth, with_smooth, project in Hsm.

Ltac other_split :=
  simpl in *;
  repeat match goal with
         | H : set2 ?k1 _ _ ?d = Ret ?d' |- context [Dict.get ?k ?d'] =>
             rewrite (set2_get_other _ k k1 _ _ d d' ltac:(assumption) H)
         end;
  rewrite ?get_ensure_other by assumption.

(** X3.  A call of [add_design_matrix] touches the design matrices of
    its own split only: under every other split key, [X] and [XS] hold
    what they held before the call. *)
Theorem add_design_matrix_other_splits :
  forall (B : backend) (a : adm_args) (m m' : glm) (k : string),
    add_design_matrix B a m = Ret m' ->
    k <> arg_kind a ->
    Dict.get k (self_X m') = Dict.get k (self_X m)
    /\ Dict.get k (self_XS m') = Dict.get k (self_XS m).
Proof.
  intros B a m m' k H Hk. stages H.
  run_inv; split; other_split; reflexivity.
Qed.

Lemma add_design_matrix_other_splits_witness :
  add_design_matrix still_backend (lagged_call "dev" "stimulus" 5) demo_first
  = Ret demo_dev
  /\ Dict.get "train" (self_X demo_dev) = Dict.get "train" (self_X demo_first)
  /\ Dict.get "train" (self_XS demo_dev) = Dict.get "train" (self_XS demo_first).
Proof.
  assert (Hrun : add_design_matrix still_backend (lagged_call "dev" "stimulus" 5)
                   demo_first = Ret demo_dev) by (vm_compute; reflexivity).
  split; [exact Hrun|].
  apply (add_design_matrix_other_splits still_backend
           (lagged_call "dev" "stimulus" 5) demo_first demo_dev "train" Hrun).
  simpl. intros H. discriminate H.
Defined.

(** X4.  A registration on a split other than train never changes what
    the train registrations recorded: the list of filter names, [dims],
    [shift], the filter nonlinearities, [n_features] and [edf]. *)
Theorem other_split_keeps_registry :
  forall (B : backend) (a : adm_args) (m m' : glm),
    add_design_matrix B a m = Ret m' ->
    arg_kind a <> "train" ->
    filter_registry m' = filter_registry m.
Proof.
  intros B a m m' H Hk. stages H.
  apply eqb_false_of_neq in Hk. rewrite Hk in Hreg, Hsm.
  run_inv; reflexivity.
Qed.

Lemma other_split_keeps_registry_witness :
  add_design_matrix still_backend (lagged_call "dev" "stimulus" 5) demo_first
  = Ret demo_dev
  /\ filter_registry demo_dev = filter_registry demo_first.
Proof.
  assert (Hrun : add_design_matrix still_backend (lagged_call "dev" "stimulus" 5)
                   demo_first = Ret demo_dev) by (vm_compute; reflexivity).
  split; [exact Hrun|].
  apply (other_split_keeps_registry still_backend
           (lagged_call "dev" "stimulus" 5) demo_first demo_dev Hrun).
  simpl. intros H. discriminate H.
Defined.

(** X5.  On a split other than train, a name that no train registration
    introduced makes the call raise [KeyError] on that name. *)
Theorem other_split_needs_train_registration :
  forall (B : backend) (a : adm_args) (m : glm),
    arg_kind a <> "train" ->
    Dict.mem (arg_name a) (self_dims m) = false ->
    add_design_matrix B a m = Raise (KeyError (arg_name a)).
Proof.
  intros B a m Hk Hd. unfold add_design_matrix, register_filter.
  rewrite (eqb_false_of_neq _ _ Hk). simpl.
  unfold Dict.mem in Hd. unfold Dict.item.
  destruct (Dict.get (arg_name a) (self_dims m)); [discriminate Hd | reflexivity].
Qed.

Lemma other_split_needs_train_registration_witness :
  add_design_matrix still_backend (lagged_call "dev" "history" 3) demo_first
  = Raise (KeyError "history").
Proof.
  apply (other_split_needs_train_registration still_backend
           (lagged_call "dev" "history" 3) demo_first).
  - simpl. intros H. discriminate H.
  - vm_compute. reflexivity.
Defined.

Lemma register_filter_entries (a : adm_args) (m m1 : glm) dims shift :
  register_filter a m = Ret (m1, dims, shift) ->
  Dict.get (arg_name a) (self_dims m1) = Some dims
  /\ Dict.get (arg_name a) (self_shift m1) = Some shift.
Proof.
  unfold register_filter. intros H.
  destruct (String.eqb (arg_kind a) "train").
  - ret_inv H. simpl. now rewrite !get_set_same.
  - bind_inv H. inversion H; subst; clear H. simpl.
    split; apply item_ret; assumption.
Qed.

Lemma smooth_stage_frame (B : backend) (a : adm_args) dims (m m' : glm) :
  match arg_smooth a with
  | None => without_smooth a m
  | Some smooth => with_smooth B a smooth dims m
  end = Ret m' ->
  self_X m' = self_X m /\ self_dims m' = self_dims m
  /\ self_shift m' = self_shift m /\ self_burn_in m' = self_burn_in m
  /\ self_filter_names m' = self_filter_names m.
Proof.
  unfold without_smooth, with_smooth, project. intros H.
  run_inv; repeat split; reflexivity.
Qed.

(** X6.  After a call returns, the matrix stored under [X[kind][name]]
    is: with [lag=False], the input itself (a 1-D input as a column);
    with [lag=True], the output of the design-matrix builder, run with
    the [dims[0]] and [shift] that the registry holds under [name], cut
    at the model's burn-in. *)
Theorem stored_design_matrix :
  forall (B : backend) (a : adm_args) (m m' : glm),
    add_design_matrix B a m = Ret m' ->
    if arg_lag a then
      exists dims shift d0 bi,
        Dict.get (arg_name a) (self_dims m') = Some dims
        /\ Dict.get (arg_name a) (self_shift m') = Some shift
        /\ first_dim dims = Ret d0
        /\ self_burn_in m' = Some bi
        /\ item2 (arg_kind a) (arg_name a) (self_X m')
           = Ret (rows_from (build_design_matrix B (as_2d (arg_X a)) d0 shift) bi)
    else item2 (arg_kind a) (arg_name a) (self_X m') = Ret (as_2d (arg_X a)).
Proof.
  intros B a m m' H.
  apply add_design_matrix_stages in H.
  destruct H as (m1 & m2 & m3 & dims & shift & Hreg & Hbi & Hst & Hsm).
  apply smooth_stage_frame in Hsm.
  destruct Hsm as (HX & Hd & Hs & Hb & _).
  apply register_filter_entries in Hreg. destruct Hreg as [Hdims Hshift].
  assert (Hd2 : self_dims m2 = self_dims m1 /\ self_shift m2 = self_shift m1).
  { unfold init_burn_in in Hbi. run_inv; split; reflexivity. }
  unfold store_design in Hst.
  destruct (arg_lag a).
  - bind_inv Hst. inversion Hst; subst; clear Hst.
    exists dims, shift, a0, a1.
    rewrite HX, Hd, Hs, Hb. simpl.
    destruct Hd2 as [-> ->].
    repeat split; try assumption.
    + unfold attr in E0. destruct (self_burn_in m2); [|discriminate E0].
      simpl in E0. congruence.
    + eapply item2_set2. eassumption.
  - bind_inv Hst. inversion Hst; subst; clear Hst.
    rewrite HX. simpl. eapply item2_set2. eassumption.
Qed.

Lemma stored_design_matrix_witness :
  add_design_matrix still_backend (unlagged_call "train" "instant") demo_first
  = Ret demo_unlagged
  /\ item2 "train" "instant" (self_X demo_unlagged) = Ret (as_2d demo_stimulus).
Proof.
  assert (Hrun : add_design_matrix still_backend (unlagged_call "train" "instant")
                   demo_first = Ret demo_unlagged) by (vm_compute; reflexivity).
  split; [exact Hrun|].
  exact (stored_design_matrix still_backend (unlagged_call "train" "instant")
           demo_first demo_unlagged Hrun).
Defined.

Lemma early_stages_frame (B : backend) (a : adm_args) (m m1 m2 m3 : glm) dims shift :
  register_filter a m = Ret (m1, dims, shift) ->
  init_burn_in a dims m1 = Ret m2 ->
  store_design B a (as_2d (arg_X a)) dims shift m2 = Ret m3 ->
  self_S m3 = self_S m /\ self_P m3 = self_P m
  /\ self_num_subunits m3 = self_num_subunits m
  /\ self_n_features m3 = self_n_features m
  /\ self_edf m3 = self_edf m
  /\ self_XS m3 = self_XS m.
Proof.
  unfold register_filter, init_burn_in, store_design. intros Hreg Hbi Hst.
  run_inv; repeat split; reflexivity.
Qed.

Lemma item_missing_raises (V : Type) (k : string) (d : dict V) :
  Dict.mem k d = false -> Dict.item k d = Raise (KeyError k).
Proof.
  unfold Dict.mem, Dict.item. destruct (Dict.get k d); [discriminate | reflexivity].
Qed.

Lemma not_ret_raises (A : Type) (c : outcome A) :
  (forall a, c <> Ret a) -> raises c.
Proof.
  intros H. destruct c as [a|e]; [exfalso; exact (H a eq_refl) | now exists e].
Qed.

(** The key [S] is read with on the test split, lines 236-239. *)
Lemma test_basis_missing (B : backend) (a : adm_args) (m m1 m2 m3 : glm) dims shift :
  arg_kind a = "test" ->
  Dict.mem (arg_name a) (self_S m) = false ->
  Dict.mem "stimulus_s0" (self_S m) = false ->
  register_filter a m = Ret (m1, dims, shift) ->
  init_burn_in a dims m1 = Ret m2 ->
  store_design B a (as_2d (arg_X a)) dims shift m2 = Ret m3 ->
  without_smooth a m3
  = Raise (KeyError (match self_num_subunits m with
                     | Some k => if (1 <? k)%Z then "stimulus_s0" else arg_name a
                     | None => arg_name a
                     end)).
Proof.
  intros Hk Hn H0 Hreg Hbi Hst.
  destruct (early_stages_frame B a m m1 m2 m3 dims shift Hreg Hbi Hst)
    as (HS & _ & Hns & _).
  unfold without_smooth. rewrite HS, Hn, Hk. simpl.
  rewrite Hns, HS.
  destruct (self_num_subunits m) as [k|].
  - destruct (1 <? k)%Z.
    + now rewrite (item_missing_raises _ _ _ H0).
    + now rewrite (item_missing_raises _ _ _ Hn).
  - now rewrite (item_missing_raises _ _ _ Hn).
Qed.

Lemma set2_ensure (V : Type) (k k2 : string) (v : V) (d : dict (dict V)) :
  exists d', set2 k k2 v (ensure k d) = Ret d'.
Proof.
  unfold set2, ensure, Dict.item.
  destruct (Dict.mem k d) eqn:E.
  - unfold Dict.mem in E. destruct (Dict.get k d); [|discriminate E].
    simpl. eexists. reflexivity.
  - rewrite get_set_same. simpl. eexists. reflexivity.
Qed.

(** On a split other than train, the first three stages of a call go
    through for a filter registered with a non-empty [dims]. *)
Lemma early_stages_succeed (B : backend) (a : adm_args) (m : glm) (d0 s : Z)
    (rest : list Z) :
  arg_kind a <> "train" ->
  Dict.get (arg_name a) (self_dims m) = Some (Some (d0 :: rest)) ->
  Dict.get (arg_name a) (self_shift m) = Some s ->
  exists m1 m2 m3,
    register_filter a m = Ret (m1, Some (d0 :: rest), s)
    /\ init_burn_in a (Some (d0 :: rest)) m1 = Ret m2
    /\ store_design B a (as_2d (arg_X a)) (Some (d0 :: rest)) s m2 = Ret m3.
Proof.
  intros Hk Hd Hs.
  exists (set_X (ensure (arg_kind a) (self_X m)) m).
  assert (Hreg : register_filter a m
                 = Ret (set_X (ensure (arg_kind a) (self_X m)) m,
                        Some (d0 :: rest), s)).
  { unfold register_filter. rewrite (eqb_false_of_neq _ _ Hk). simpl.
    unfold Dict.item. rewrite Hd, Hs. reflexivity. }
  assert (Hbi : exists m2 bi,
             init_burn_in a (Some (d0 :: rest))
               (set_X (ensure (arg_kind a) (self_X m)) m) = Ret m2
             /\ self_burn_in m2 = Some bi
             /\ self_X m2 = ensure (arg_kind a) (self_X m)).
  { unfold init_burn_in. simpl.
    destruct (self_burn_in m) as [bi|] eqn:Eb.
    - eexists _, bi. split; [reflexivity|]. simpl. now split.
    - destruct (arg_burn_in a) as [g|]; simpl;
        eexists _, _; (split; [reflexivity|]); simpl; split; reflexivity. }
  destruct Hbi as (m2 & bi & Hbi & Hb & HX).
  exists m2.
  assert (Hst : exists m3,
             store_design B a (as_2d (arg_X a)) (Some (d0 :: rest)) s m2 = Ret m3).
  { unfold store_design. destruct (arg_lag a); simpl.
    - rewrite Hb. simpl. rewrite HX.
      destruct (set2_ensure _ (arg_kind a) (arg_name a)
                  (rows_from (build_design_matrix B (as_2d (arg_X a)) d0 s) bi)
                  (self_X m)) as [d' ->].
      simpl. eexists. reflexivity.
    - rewrite HX.
      destruct (set2_ensure _ (arg_kind a) (arg_name a) (as_2d (arg_X a))
                  (self_X m)) as [d' ->].
      simpl. eexists. reflexivity. }
  destruct Hst as [m3 Hst]. exists m3. repeat split; assumption.
Qed.

(** X7.  A test-split registration needs a spline basis.  When the
    filter has no basis in [S] (and the subunit basis ['stimulus_s0'] is
    not there either), a call made without [smooth] never returns; for a
    filter registered with a non-empty [dims] it ends in the [KeyError]
    of the look-up in [S]. *)
Theorem test_split_needs_spline :
  forall (B : backend) (a : adm_args) (m : glm),
    arg_kind a = "test" ->
    arg_smooth a = None ->
    Dict.mem (arg_name a) (self_S m) = false ->
    Dict.mem "stimulus_s0" (self_S m) = false ->
    raises (add_design_matrix B a m)
    /\ forall d0 rest s,
         Dict.get (arg_name a) (self_dims m) = Some (Some (d0 :: rest)) ->
         Dict.get (arg_name a) (self_shift m) = Some s ->
         add_design_matrix B a m
         = Raise (KeyError (match self_num_subunits m with
                            | Some k => if (1 <? k)%Z then "stimulus_s0" else arg_name a
                            | None => arg_name a
                            end)).
Proof.
  intros B a m Hk Hs Hn H0. split.
  - apply not_ret_raises. intros m' H.
    apply add_design_matrix_stages in H.
    destruct H as (m1 & m2 & m3 & dims & shift & Hreg & Hbi & Hst & Hsm).
    rewrite Hs in Hsm.
    rewrite (test_basis_missing B a m m1 m2 m3 dims shift Hk Hn H0 Hreg Hbi Hst) in Hsm.
    discriminate Hsm.
  - intros d0 rest s Hd Hsh.
    assert (Hne : arg_kind a <> "train") by (rewrite Hk; discriminate).
    destruct (early_stages_succeed B a m d0 s rest Hne Hd Hsh)
      as (m1 & m2 & m3 & Hreg & Hbi & Hst).
    unfold add_design_matrix. rewrite Hreg. simpl.
    rewrite Hbi. simpl.
    change (match arg_X a with Arr1 v => column v | Arr2 M => M end)
      with (as_2d (arg_X a)).
    rewrite Hst. simpl. rewrite Hs.
    exact (test_basis_missing B a m m1 m2 m3 _ _ Hk Hn H0 Hreg Hbi Hst).
Qed.

Lemma test_split_needs_spline_witness :
  raises (add_design_matrix still_backend (lagged_call "test" "stimulus" 5) demo_first)
  /\ add_design_matrix still_backend (lagged_call "test" "stimulus" 5) demo_first
     = Raise (KeyError "stimulus").
Proof.
  pose proof (test_split_needs_spline still_backend
                (lagged_call "test" "stimulus" 5) demo_first
                eq_refl eq_refl eq_refl eq_refl) as [Hr Hk].
  split; [exact Hr|].
  exact (Hk 5%Z [] 0%Z eq_refl eq_refl).
Defined.

Lemma item_set_same (V : Type) (k : string) (v : V) (d : dict V) :
  Dict.item k (Dict.set k v d) = Ret v.
Proof.
  unfold Dict.item. now rewrite get_set_same.
Qed.

Ltac set_items :=
  repeat match goal with
         | H : Dict.item ?k (Dict.set ?k _ _) = Ret _ |- _ =>
             rewrite item_set_same in H; inversion H; subst; clear H
         end.

(** X8.  A train registration that involves no penalty (no spline is
    requested and the filter has no basis, or the penalty matrix of the
    requested spline is all zero) records as [edf] of the filter its
    number of features, which is the column count of the matrix the fit
    will use: [X['train'][name]], or [XS['train'][name]] with a spline. *)
Theorem edf_is_feature_count_without_penalty :
  forall (B : backend) (a : adm_args) (m m' : glm),
    add_design_matrix B a m = Ret m' ->
    arg_kind a = "train" ->
    match arg_smooth a with
    | None => Dict.mem (arg_name a) (self_S m) = false
    | Some _ => exists Pm, Dict.get (arg_name a) (self_P m') = Some Pm
                           /\ all_zero Pm = true
    end ->
    exists M,
      item2 "train" (arg_name a)
        (match arg_smooth a with None => self_X m' | Some _ => self_XS m' end) = Ret M
      /\ Dict.get (arg_name a) (self_n_features m') = Some (ncols M)
      /\ Dict.get (arg_name a) (self_edf m') = Some (of_nat (ncols M)).
Proof.
  intros B a m m' H Hk Hpen.
  apply add_design_matrix_stages in H.
  destruct H as (m1 & m2 & m3 & dims & shift & Hreg & Hbi & Hst & Hsm).
  destruct (early_stages_frame B a m m1 m2 m3 dims shift Hreg Hbi Hst)
    as (HS & _).
  clear Hreg Hbi Hst.
  destruct (arg_smooth a) as [smooth|].
  - unfold with_smooth in Hsm. rewrite Hk in Hsm. simpl in Hsm.
    bind_inv Hsm. set_items.
    match type of Hsm with
    | (if all_zero ?P then _ else _) = _ => destruct (all_zero P) eqn:Hz
    end.
    + inversion Hsm; subst; clear Hsm. simpl.
      eexists. rewrite !get_set_same. repeat split. eassumption.
    + exfalso. bind_inv Hsm. inversion Hsm; subst; clear Hsm.
      simpl in Hpen. destruct Hpen as (Pm & HP & HPz).
      rewrite get_set_same in HP. injection HP as <-.
      rewrite Hz in HPz. discriminate HPz.
  - unfold without_smooth in Hsm. rewrite HS, Hpen, Hk in Hsm. simpl in Hsm.
    bind_inv Hsm. set_items.
    inversion Hsm; subst; clear Hsm. simpl.
    eexists. rewrite !get_set_same. repeat split. eassumption.
Qed.

Lemma edf_is_feature_count_without_penalty_witness :
  add_design_matrix spline_backend (smooth_call "train") fresh_glm = Ret demo_smooth
  /\ exists M,
       item2 "train" "stimulus" (self_XS demo_smooth) = Ret M
       /\ Dict.get "stimulus" (self_n_features demo_smooth) = Some (ncols M)
       /\ Dict.get "stimulus" (self_edf demo_smooth) = Some (of_nat (ncols M)).
Proof.
  assert (Hrun : add_design_matrix spline_backend (smooth_call "train") fresh_glm
                 = Ret demo_smooth) by (vm_compute; reflexivity).
  split; [exact Hrun|].
  apply (edf_is_feature_count_without_penalty spline_backend (smooth_call "train")
           fresh_glm demo_smooth Hrun eq_refl).
  exists (mkMat 1 [[f0]]). split; vm_compute; reflexivity.
Defined.

(** ** [optimize] and [fit]: how long a run lasts *)

(** X9.  Without an iteration there is nothing to return: for
    [num_iters = 0], [optimize] raises under every selection policy
    ([IndexError] under ['last']), and so does [fit]. *)
Theorem fit_needs_an_iteration :
  forall (B : backend) (a : fit_args) (m : glm),
    fa_num_iters a = 0 ->
    raises (fit B a m)
    /\ (forall p0 policy,
           raises (optimize B m p0 0 (fa_metric a) (fa_tolerance a) policy))
    /\ (forall p0,
           optimize B m p0 0 (fa_metric a) (fa_tolerance a) "last" = Raise IndexError).
Proof.
  intros B a m Hn.
  assert (Hopt : forall m0 p0 policy,
             raises (optimize B m0 p0 0 (fa_metric a) (fa_tolerance a) policy)).
  { intros m0 p0 policy. apply not_ret_raises. intros [m' run] H.
    apply optimize_inv in H. destruct H as (n & Hz & _). discriminate Hz. }
  split; [|split].
  - apply not_ret_raises. intros m' H. unfold fit in H. rewrite Hn in H.
    cbv zeta in H. bind_inv H.
    match goal with
    | E : optimize ?B ?m0 ?p0 0 ?me ?t ?pol = Ret ?r |- _ =>
        destruct (Hopt m0 p0 pol) as [e He]; rewrite He in E; discriminate E
    end.
  - intros p0 policy. apply Hopt.
  - intros p0. reflexivity.
Qed.

Lemma fit_needs_an_iteration_witness :
  raises (fit still_backend no_iteration_args demo_initialized)
  /\ (forall p0 policy,
         raises (optimize still_backend demo_initialized p0 0 "mse" 10%Z policy))
  /\ (forall p0,
         optimize still_backend demo_initialized p0 0 "mse" 10%Z "last"
         = Raise IndexError).
Proof.
  exact (fit_needs_an_iteration still_backend no_iteration_args demo_initialized
           eq_refl).
Defined.

(** X10.  A run of at most 301 iterations, or one with [tolerance = 0],
    is never stopped early: if it returns, it has executed all
    [num_iters] iterations and ended with [maxiter_stop]. *)
Theorem short_runs_are_never_stopped :
  forall (B : backend) (m : glm) (p0 : params) (num_iters : nat) (metric : string)
         (tolerance : Z) (policy : string) (m' : glm) (run : opt_run B),
    optimize B m p0 num_iters metric tolerance policy = Ret (m', run) ->
    num_iters <= 301 \/ tolerance = 0%Z ->
    run_stop run = maxiter_stop
    /\ S (run_i run) = num_iters
    /\ length (self_all_params m') = num_iters
    /\ length (self_cost_train m') = num_iters.
Proof.
  intros B m p0 num_iters metric tolerance policy m' run H Hshort.
  pose proof (optimize_lengths _ _ _ _ _ _ _ _ _ H)
    as (Hexec & _ & Hct & _ & _ & _ & Hall).
  pose proof (optimize_loop _ _ _ _ _ _ _ _ _ H)
    as (Hi & _ & _ & _ & _ & _ & _ & Hat & Hmax).
  rewrite early_stop_before_301 in Hat
    by (destruct Hshort as [Hs | Hs]; [left; lia | right; exact Hs]).
  symmetry in Hat. apply test_at_stop_none in Hat.
  specialize (Hmax Hat).
  split; [exact Hat|]. split; [exact Hmax|].
  rewrite Hall, Hexec, Hct. split; exact Hmax.
Qed.

Lemma short_runs_are_never_stopped_witness :
  optimize drift_backend demo_ready_dev demo_p0 3 "mse" 10%Z "best_dev_cost"
    = Ret demo_best_run
  /\ run_stop (snd demo_best_run) = maxiter_stop
  /\ S (run_i (snd demo_best_run)) = 3
  /\ length (self_all_params (fst demo_best_run)) = 3
  /\ length (self_cost_train (fst demo_best_run)) = 3.
Proof.
  assert (Hrun : optimize drift_backend demo_ready_dev demo_p0 3 "mse" 10%Z
                   "best_dev_cost" = Ret demo_best_run) by (vm_compute; reflexivity).
  split; [exact Hrun|].
  apply (short_runs_are_never_stopped drift_backend demo_ready_dev demo_p0 3 "mse"
           10%Z "best_dev_cost" (fst demo_best_run) (snd demo_best_run)).
  - rewrite Hrun. destruct demo_best_run. reflexivity.
  - left. lia.
Defined.

(** A run that may last more than 301 iterations stops at index 301 as
    soon as the test made there fires. *)
Lemma stops_at_301 (B : backend) (m : glm) (p0 : params) (num_iters : nat)
    (metric : string) (tolerance : Z) (policy : string) (m' : glm) (run : opt_run B)
    (s : stop_reason) :
  optimize B m p0 num_iters metric tolerance policy = Ret (m', run) ->
  301 < num_iters ->
  early_stop (Dict.mem "dev" (self_y m)) tolerance 301
    (v_cost_train (run_vars run)) (v_cost_dev (run_vars run)) = Some s ->
  run_i run = 301 /\ run_stop run = s.
Proof.
  intros H Hn Hs.
  pose proof (optimize_loop _ _ _ _ _ _ _ _ _ H)
    as (Hi & _ & _ & _ & _ & _ & Hbefore & Hat & Hmax).
  assert (Hle : run_i run <= 301).
  { destruct (Nat.le_gt_cases (run_i run) 301) as [Hle | Hgt]; [exact Hle|].
    rewrite (Hbefore 301 Hgt) in Hs. discriminate Hs. }
  assert (Hge : 301 <= run_i run).
  { destruct (Nat.le_gt_cases 301 (run_i run)) as [Hge | Hlt]; [exact Hge|].
    rewrite early_stop_before_301 in Hat by (left; lia).
    symmetry in Hat. apply test_at_stop_none in Hat.
    specialize (Hmax Hat). lia. }
  assert (Heq : run_i run = 301) by lia.
  split; [exact Heq|].
  rewrite Heq, Hs in Hat. symmetry in Hat. now apply test_at_stop_some in Hat.
Qed.

(** X11.  A tolerance of 1, a negative tolerance, or a tolerance above
    301 that does not exceed [num_iters] leaves the early-stop test no
    difference to look at, so the test fires the first time it is made:
    a run that may last more than 301 iterations stops at index 301
    whatever the costs are, with [dev_stop] when a dev response is
    stored and [train_stop] otherwise. *)
Theorem degenerate_tolerance_stops_at_301 :
  forall (B : backend) (m : glm) (p0 : params) (num_iters : nat) (metric : string)
         (tolerance : Z) (policy : string) (m' : glm) (run : opt_run B),
    optimize B m p0 num_iters metric tolerance policy = Ret (m', run) ->
    301 < num_iters ->
    tolerance = 1%Z \/ (tolerance < 0)%Z
    \/ (301 < tolerance <= Z.of_nat num_iters)%Z ->
    run_i run = 301
    /\ run_stop run = (if Dict.mem "dev" (self_y m) then dev_stop else train_stop)
    /\ length (self_cost_train m') = 302.
Proof.
  intros B m p0 num_iters metric tolerance policy m' run H Hn Ht.
  pose proof (optimize_loop _ _ _ _ _ _ _ _ _ H)
    as (_ & _ & Lct & Lcd & _).
  pose proof (optimize_lengths _ _ _ _ _ _ _ _ _ H)
    as (_ & _ & Hct & _).
  destruct (stops_at_301 B m p0 num_iters metric tolerance policy m' run
              (if Dict.mem "dev" (self_y m) then dev_stop else train_stop) H Hn)
    as [Hi Hs].
  { apply early_stop_degenerate;
      [lia | rewrite Lct; lia | rewrite Lct, Lcd; reflexivity | rewrite Lct].
    destruct Ht as [Ht | [Ht | Ht]]; [left | right; left | right; right]; lia. }
  split; [exact Hi|]. split; [exact Hs|]. rewrite Hct, Hi. reflexivity.
Qed.

Lemma degenerate_tolerance_stops_at_301_witness :
  optimize drift_backend demo_ready demo_p0 400 "mse" 350%Z "last" = Ret demo_wide_run
  /\ run_i (snd demo_wide_run) = 301
  /\ run_stop (snd demo_wide_run) = train_stop
  /\ length (self_cost_train (fst demo_wide_run)) = 302.
Proof.
  assert (Hrun : optimize drift_backend demo_ready demo_p0 400 "mse" 350%Z "last"
                 = Ret demo_wide_run) by (vm_compute; reflexivity).
  split; [exact Hrun|].
  apply (degenerate_tolerance_stops_at_301 drift_backend demo_ready demo_p0 400 "mse"
           350%Z "last" (fst demo_wide_run) (snd demo_wide_run)).
  - rewrite Hrun. destruct demo_wide_run. reflexivity.
  - lia.
  - right. right. lia.
Defined.

Lemma fltb_decrease (x y : Q) :
  Qle_bool y x = true -> fltb (fsub (Fin y) (Fin x)) c_1e_5 = true.
Proof.
  intros H. apply Qle_bool_iff in H. cbn. unfold Qltb.
  destruct (Qle_bool (1 # 100000) (y + - x)) eqn:E; [|reflexivity].
  apply Qle_bool_iff in E. lra.
Qed.

Lemma non_increasing_all_below (l : list fnum) :
  non_increasing l = true ->
  forallb (fun d => fltb d c_1e_5) (np_diff l) = true.
Proof.
  induction l as [|a t IH]; [reflexivity|].
  destruct a as [x| | |]; cbn [non_increasing]; try discriminate.
  destruct t as [|[y| | |] t']; try discriminate; [reflexivity|].
  intros H. apply andb_prop in H. destruct H as [Hle Hrest].
  cbn [np_diff forallb]. rewrite (fltb_decrease x y Hle). exact (IH Hrest).
Qed.

Lemma window_of_longer_trace (tolerance : Z) (i k : nat) (a : list fnum) :
  (0 <= tolerance <= Z.of_nat i)%Z -> i <= k -> k <= length a ->
  window (firstn k a) tolerance i = window a tolerance i.
Proof.
  intros Ht Hik Hk.
  destruct (window_entries tolerance i a Ht ltac:(lia)) as [-> _].
  destruct (window_entries tolerance i (firstn k a) Ht) as [-> _].
  { rewrite length_firstn. lia. }
  rewrite skipn_firstn_comm, firstn_firstn. f_equal. lia.
Qed.

(** A run that may last more than 301 iterations reaches index 301. *)
Lemma long_runs_reach_301 (B : backend) (m : glm) (p0 : params) (num_iters : nat)
    (metric : string) (tolerance : Z) (policy : string) (m' : glm) (run : opt_run B) :
  optimize B m p0 num_iters metric tolerance policy = Ret (m', run) ->
  301 < num_iters -> 301 <= run_i run.
Proof.
  intros H Hn.
  pose proof (optimize_loop _ _ _ _ _ _ _ _ _ H)
    as (_ & _ & _ & _ & _ & _ & _ & Hat & Hmax).
  destruct (Nat.le_gt_cases 301 (run_i run)) as [Hge | Hlt]; [exact Hge|].
  rewrite early_stop_before_301 in Hat by (left; lia).
  symmetry in Hat. apply test_at_stop_none in Hat.
  specialize (Hmax Hat). lia.
Qed.

(** X12.  The train-cost test looks at signed differences, so a cost
    that keeps falling satisfies it.  When the train costs recorded for
    the [tolerance] iterations before index 301 are finite and none is
    above the one before, a run that may last more than 301 iterations
    is stopped at index 301: with [train_stop] when no dev response is
    stored, and never with [maxiter_stop]. *)
Theorem falling_cost_stops_at_301 :
  forall (B : backend) (m : glm) (p0 : params) (num_iters : nat) (metric : string)
         (tolerance : Z) (policy : string) (m' : glm) (run : opt_run B),
    optimize B m p0 num_iters metric tolerance policy = Ret (m', run) ->
    301 < num_iters ->
    (1 <= tolerance <= 301)%Z ->
    non_increasing (window (self_cost_train m') tolerance 301) = true ->
    run_i run = 301
    /\ run_stop run <> maxiter_stop
    /\ (Dict.mem "dev" (self_y m) = false -> run_stop run = train_stop).
Proof.
  intros B m p0 num_iters metric tolerance policy m' run H Hn Ht Hfall.
  pose proof (long_runs_reach_301 _ _ _ _ _ _ _ _ _ H Hn) as Hreach.
  pose proof (optimize_loop _ _ _ _ _ _ _ _ _ H) as (Hi & _ & Lct & _).
  assert (Hct : self_cost_train m' = firstn (S (run_i run)) (v_cost_train (run_vars run))).
  { pose proof (optimize_inv _ _ _ _ _ _ _ _ _ H) as (n & _ & _ & _ & _ & Hc & _).
    exact Hc. }
  rewrite Hct, window_of_longer_trace in Hfall by lia.
  apply non_increasing_all_below in Hfall.
  set (s := if Dict.mem "dev" (self_y m)
                 && all_increasing (v_cost_dev (run_vars run)) tolerance 301
            then dev_stop else train_stop).
  destruct (stops_at_301 B m p0 num_iters metric tolerance policy m' run s H Hn)
    as [Hat Hs].
  { unfold early_stop, all_below. rewrite Hfall.
    assert (Hz : (tolerance =? 0)%Z = false) by (apply Z.eqb_neq; lia).
    rewrite Hz. cbn [negb andb Nat.ltb Nat.leb]. unfold s.
    destruct (Dict.mem "dev" (self_y m)
              && all_increasing (v_cost_dev (run_vars run)) tolerance 301);
      reflexivity. }
  split; [exact Hat|]. split.
  - rewrite Hs. unfold s.
    destruct (Dict.mem "dev" (self_y m)
              && all_increasing (v_cost_dev (run_vars run)) tolerance 301);
      discriminate.
  - intros Hd. rewrite Hs. unfold s. rewrite Hd. reflexivity.
Qed.

Lemma falling_cost_stops_at_301_witness :
  optimize drift_backend demo_converging demo_p0 400 "mse" 10%Z "last"
  = Ret demo_converging_run
  /\ run_i (snd demo_converging_run) = 301
  /\ run_stop (snd demo_converging_run) <> maxiter_stop
  /\ (Dict.mem "dev" (self_y demo_converging) = false ->
      run_stop (snd demo_converging_run) = train_stop).
Proof.
  assert (Hrun : optimize drift_backend demo_converging demo_p0 400 "mse" 10%Z "last"
                 = Ret demo_converging_run) by (vm_compute; reflexivity).
  split; [exact Hrun|].
  apply (falling_cost_stops_at_301 drift_backend demo_converging demo_p0 400 "mse"
           10%Z "last" (fst demo_converging_run) (snd demo_converging_run)).
  - rewrite Hrun. destruct demo_converging_run. reflexivity.
  - lia.
  - lia.
  - vm_compute. reflexivity.
Defined.

(** ** [optimize]: which iterate [best_dev_cost] returns *)

Lemma fleb_not_nan (x y : fnum) : fleb x y = true -> isnan y = false.
Proof. destruct x, y; cbn; intros H; try reflexivity; discriminate H. Qed.

(** A value strictly below the running minimum is strictly below
    everything the running minimum was not above. *)
Lemma fltb_below_minimum (x mp y : fnum) :
  isnan x = false -> isnan mp = false ->
  fleb mp x = false -> fleb mp y = true -> fltb x y = true.
Proof.
  destruct x as [qx| | |], mp as [qm| | |], y as [qy| | |]; cbn;
    intros Hx Hm Hlt Hle; try reflexivity; try discriminate.
  unfold Qltb. destruct (Qle_bool qy qx) eqn:E; [|reflexivity].
  apply Qle_bool_iff in E, Hle.
  assert (Hc : Qle_bool qm qx = true) by (apply Qle_bool_iff; lra).
  congruence.
Qed.

Lemma argmin_scan_first :
  forall (t pre : list fnum) (mp : fnum) (idx : nat),
    isnan mp = false ->
    idx < length pre ->
    nth idx pre NaN = mp ->
    (forall j, j < length pre -> isnan (nth j pre NaN) = false) ->
    (forall j, j < length pre -> fleb mp (nth j pre NaN) = true) ->
    (forall j, j < idx -> fltb mp (nth j pre NaN) = true) ->
    (forall j, j < argmin_scan mp idx (length pre) t ->
               isnan (nth j (pre ++ t) NaN) = false)
    /\ (isnan (nth (argmin_scan mp idx (length pre) t) (pre ++ t) NaN) = true
        \/ ((forall j, j < length (pre ++ t) -> isnan (nth j (pre ++ t) NaN) = false)
            /\ (forall j, j < argmin_scan mp idx (length pre) t ->
                  fltb (nth (argmin_scan mp idx (length pre) t) (pre ++ t) NaN)
                       (nth j (pre ++ t) NaN) = true))).
Proof.
  induction t as [|x t IH]; intros pre mp idx Hmp Hidx Hnth Hnn Hmin Hfirst.
  - cbn [argmin_scan]. rewrite app_nil_r. split.
    + intros j Hj. apply Hnn. lia.
    + right. split; [exact Hnn|]. intros j Hj. rewrite Hnth. now apply Hfirst.
  - cbn [argmin_scan]. unfold fgeb.
    assert (Hlen : length (pre ++ [x]) = S (length pre))
      by (rewrite length_app; cbn; lia).
    assert (Hsplit : pre ++ x :: t = (pre ++ [x]) ++ t)
      by (rewrite <- app_assoc; reflexivity).
    assert (Hold : forall j, j < length pre ->
                             nth j (pre ++ [x]) NaN = nth j pre NaN)
      by (intros j Hj; now rewrite app_nth1).
    assert (Hnew : nth (length pre) (pre ++ [x]) NaN = x)
      by (now rewrite app_nth2, Nat.sub_diag by lia).
    destruct (fleb mp x) eqn:Hle; cbn [negb].
    + (* the minimum stays *)
      rewrite Hsplit, <- Hlen. apply IH.
      * exact Hmp.
      * rewrite Hlen. lia.
      * rewrite Hold by exact Hidx. exact Hnth.
      * intros j Hj. rewrite Hlen in Hj.
        destruct (Nat.eq_dec j (length pre)) as [->|Hne].
        -- rewrite Hnew. exact (fleb_not_nan _ _ Hle).
        -- rewrite Hold by lia. apply Hnn. lia.
      * intros j Hj. rewrite Hlen in Hj.
        destruct (Nat.eq_dec j (length pre)) as [->|Hne].
        -- rewrite Hnew. exact Hle.
        -- rewrite Hold by lia. apply Hmin. lia.
      * intros j Hj. rewrite Hold by lia. now apply Hfirst.
    + destruct (isnan x) eqn:Hx.
      * (* the first NaN ends the scan *)
        destruct x; try discriminate Hx. split.
        -- intros j Hj. rewrite app_nth1 by exact Hj. now apply Hnn.
        -- left. now rewrite app_nth2, Nat.sub_diag by lia.
      * (* a new minimum *)
        rewrite Hsplit, <- Hlen. apply IH.
        -- exact Hx.
        -- rewrite !Hlen. lia.
        -- exact Hnew.
        -- intros j Hj. rewrite Hlen in Hj.
           destruct (Nat.eq_dec j (length pre)) as [->|Hne].
           ++ rewrite Hnew. exact Hx.
           ++ rewrite Hold by lia. apply Hnn. lia.
        -- intros j Hj. rewrite Hlen in Hj.
           destruct (Nat.eq_dec j (length pre)) as [->|Hne].
           ++ rewrite Hnew. now apply fleb_refl.
           ++ rewrite Hold by lia.
              apply (fleb_new_minimum x mp); try assumption. apply Hmin. lia.
        -- intros j Hj. rewrite Hold by lia.
           apply (fltb_below_minimum x mp); try assumption. apply Hmin. lia.
Qed.

Lemma np_argmin_first (l : list fnum) (k : nat) :
  np_argmin l = Ret k ->
  (forall j, j < k -> isnan (nth j l NaN) = false)
  /\ (isnan (nth k l NaN) = true
      \/ ((forall j, j < length l -> isnan (nth j l NaN) = false)
          /\ (forall j, j < k -> fltb (nth k l NaN) (nth j l NaN) = true))).
Proof.
  destruct l as [|x t]; cbn [np_argmin]; intros H; [discriminate H|].
  injection H as <-. destruct (isnan x) eqn:Hx.
  - split; [intros j Hj; lia|]. left. exact Hx.
  - apply (argmin_scan_first t [x] x 0).
    + exact Hx.
    + cbn. lia.
    + reflexivity.
    + intros j Hj. cbn in Hj. assert (j = 0) as -> by lia. exact Hx.
    + intros j Hj. cbn in Hj. assert (j = 0) as -> by lia. now apply fleb_refl.
    + intros j Hj. lia.
Qed.

Lemma not_fltb_fleb (x y : fnum) :
  isnan x = false -> isnan y = false -> fltb y x = false -> fleb x y = true.
Proof.
  destruct x as [a| | |], y as [b| | |]; cbn; intros Hx Hy H;
    try reflexivity; try discriminate.
  unfold Qltb in H. now apply negb_false_iff in H.
Qed.

(** X13.  Under the policy [best_dev_cost], and under any policy name
    that [optimize] does not know (it falls back to [best_dev_cost]),
    the run returns the snapshot of an executed iteration: that of the
    first iteration whose recorded dev cost is NaN, if there is one;
    otherwise that of the earliest iteration with the least dev cost:
    its dev cost is at most the dev cost of every executed iteration,
    and every earlier iteration has a strictly larger dev cost.  In
    both cases no recorded dev cost compares below the chosen one. *)
Theorem best_dev_cost_first_nan_or_earliest_minimum :
  forall (B : backend) (m : glm) (p0 : params) (num_iters : nat) (metric : string)
         (tolerance : Z) (policy : string) (m' : glm) (run : opt_run B),
    optimize B m p0 num_iters metric tolerance policy = Ret (m', run) ->
    policy = "best_dev_cost" \/ ~ In policy selection_policies ->
    exists best : nat,
      run_best run = Z.of_nat best
      /\ nth_error (self_all_params m') best = Some (run_params run)
      /\ (forall j, j < best -> isnan (nth j (self_cost_dev m') NaN) = false)
      /\ (isnan (nth best (self_cost_dev m') NaN) = true
          \/ ((forall j, j < length (self_cost_dev m') ->
                         isnan (nth j (self_cost_dev m') NaN) = false)
              /\ (forall j, j < best ->
                    fltb (nth best (self_cost_dev m') NaN)
                         (nth j (self_cost_dev m') NaN) = true)
              /\ (forall j, j < length (self_cost_dev m') ->
                    fleb (nth best (self_cost_dev m') NaN)
                         (nth j (self_cost_dev m') NaN) = true)))
      /\ best < length (self_cost_dev m')
      /\ length (self_cost_dev m') = length (self_all_params m')
      /\ (forall j, j < length (self_cost_dev m') ->
            fltb (nth j (self_cost_dev m') NaN)
                 (nth best (self_cost_dev m') NaN) = false).
Proof.
  intros B m p0 num_iters metric tolerance policy m' run H Hpol.
  pose proof (optimize_lengths _ _ _ _ _ _ _ _ _ H)
    as (Hexec & _ & _ & Lcd & _ & _ & Hall).
  apply optimize_inv in H.
  destruct H as (n & _ & _ & Hsel & Hidx & _ & Hcd & _).
  assert (Hmin : exists k, np_argmin (self_cost_dev m') = Ret k
                           /\ run_best run = Z.of_nat k).
  { unfold select_best in Hsel.
    destruct Hpol as [-> | Hno].
    - cbn [String.eqb Ascii.eqb Bool.eqb] in Hsel.
      bind_inv Hsel. injection Hsel as Hbest.
      rewrite py_slice_to_succ, <- Hcd in E. exists a. now split.
    - repeat match type of Hsel with
             | context [String.eqb policy ?s] =>
                 destruct (String.eqb_spec policy s) as [->|];
                 [exfalso; apply Hno; simpl; tauto|]
             end.
      bind_inv Hsel. injection Hsel as Hbest.
      rewrite py_slice_to_succ, <- Hcd in E. exists a. now split. }
  destruct Hmin as (k & Hk & Hbest).
  exists k. rewrite Hbest in Hidx. apply py_index_of_nat in Hidx.
  destruct (np_argmin_spec _ _ Hk) as [Hlt Hleast].
  destruct (np_argmin_first _ _ Hk) as [Hnn Hcases].
  split; [exact Hbest|]. split; [rewrite Hall; exact Hidx|].
  split; [exact Hnn|].
  split.
  { destruct Hcases as [Hnan | [Hall_nn Hfirst]]; [left; exact Hnan|].
    right. split; [exact Hall_nn|]. split; [exact Hfirst|].
    intros j Hj. apply not_fltb_fleb.
    - apply Hall_nn. exact Hlt.
    - apply Hall_nn. exact Hj.
    - apply Hleast. exact Hj. }
  split; [exact Hlt|].
  split; [rewrite Hall, Lcd; symmetry; exact Hexec|].
  exact Hleast.
Qed.

Lemma best_dev_cost_first_nan_or_earliest_minimum_witness :
  optimize drift_backend demo_ready_dev demo_p0 3 "mse" 10%Z "best_dev_cost"
    = Ret demo_best_run
  /\ exists best : nat,
       run_best (snd demo_best_run) = Z.of_nat best
       /\ nth_error (self_all_params (fst demo_best_run)) best
          = Some (run_params (snd demo_best_run))
       /\ (forall j, j < best ->
                     isnan (nth j (self_cost_dev (fst demo_best_run)) NaN) = false)
       /\ (isnan (nth best (self_cost_dev (fst demo_best_run)) NaN) = true
           \/ ((forall j, j < length (self_cost_dev (fst demo_best_run)) ->
                          isnan (nth j (self_cost_dev (fst demo_best_run)) NaN) = false)
               /\ (forall j, j < best ->
                     fltb (nth best (self_cost_dev (fst demo_best_run)) NaN)
                          (nth j (self_cost_dev (fst demo_best_run)) NaN) = true)
               /\ (forall j, j < length (self_cost_dev (fst demo_best_run)) ->
                     fleb (nth best (self_cost_dev (fst demo_best_run)) NaN)
                          (nth j (self_cost_dev (fst demo_best_run)) NaN) = true)))
       /\ best < length (self_cost_dev (fst demo_best_run))
       /\ length (self_cost_dev (fst demo_best_run))
          = length (self_all_params (fst demo_best_run))
       /\ (forall j, j < length (self_cost_dev (fst demo_best_run)) ->
             fltb (nth j (self_cost_dev (fst demo_best_run)) NaN)
                  (nth best (self_cost_dev (fst demo_best_run)) NaN) = false).
Proof.
  assert (Hrun : optimize drift_backend demo_ready_dev demo_p0 3 "mse" 10%Z
                   "best_dev_cost" = Ret demo_best_run) by (vm_compute; reflexivity).
  split; [exact Hrun|].
  apply (best_dev_cost_first_nan_or_earliest_minimum drift_backend demo_ready_dev
           demo_p0 3 "mse" 10%Z "best_dev_cost"
           (fst demo_best_run) (snd demo_best_run)).
  - rewrite Hrun. destruct demo_best_run. reflexivity.
  - left. reflexivity.
Defined.

(** ** What no method changes *)

Ltac fold_inv P :=
  match goal with
  | H : foldM _ _ _ = Ret _ |- _ => apply (foldM_invariant _ _ P) in H
  end.

Lemma add_design_matrix_config (B : backend) (a : adm_args) (m m' : glm) :
  add_design_matrix B a m = Ret m' -> config m' = config m.
Proof.
  intros H. stages H. run_inv; reflexivity.
Qed.

(** The estimation methods assign neither what construction fixed nor
    what the registrations built. *)

Lemma setup_config (m m' : glm) : setup m' = setup m -> config m' = config m.
Proof. intros H. exact (f_equal snd H). Qed.

Lemma setup_design (m m' : glm) : setup m' = setup m -> design m' = design m.
Proof. intros H. exact (f_equal fst H). Qed.

Lemma filter_variance_setup (B : backend) (w_type : string) (m m' : glm) :
  _get_filter_variance B w_type m = Ret m' -> setup m' = setup m.
Proof.
  unfold _get_filter_variance. intros H. run_inv. reflexivity.
Qed.

Lemma response_variance_setup (B : backend) (w_type kind : string) (m m' : glm) :
  _get_response_variance B w_type kind m = Ret m' -> setup m' = setup m.
Proof.
  unfold _get_response_variance. intros H. run_inv.
  destruct (Dict.mem w_type (self_y_pred_lower m)); reflexivity.
Qed.

Lemma unpack_mle_setup (mle : vec) (m m' : glm) :
  unpack_mle mle m = Ret m' -> setup m' = setup m.
Proof.
  unfold unpack_mle. intros H. cbv zeta in H. bind_inv H.
  fold_inv (fun s => setup s = setup m).
  - run_inv. assumption.
  - intros s [i name] s' Hs Hb. unfold unpack_filter in Hb. run_inv; exact Hs.
  - reflexivity.
Qed.

Lemma collect_p_mle_setup (m m' : glm) :
  collect_p_mle m = Ret m' -> setup m' = setup m.
Proof.
  unfold collect_p_mle. intros H. cbv zeta in H. bind_inv H.
  fold_inv (fun s => setup s = setup m).
  - run_inv. assumption.
  - intros s name s' Hs Hb. run_inv; exact Hs.
  - reflexivity.
Qed.

Ltac setup_hyps :=
  repeat match goal with
         | H : unpack_mle _ _ = Ret _ |- _ => apply unpack_mle_setup in H
         | H : collect_p_mle _ = Ret _ |- _ => apply collect_p_mle_setup in H
         | H : _get_filter_variance _ _ _ = Ret _ |- _ =>
             apply filter_variance_setup in H
         | H : _get_response_variance _ _ _ _ = Ret _ |- _ =>
             apply response_variance_setup in H
         end.

Ltac setup_eq := unfold setup, design, config, filter_registry in *; simpl in *; congruence.

Lemma compute_mle_setup (B : backend) (yarg : response) (ci : bool) (m m' : glm) :
  compute_mle B yarg ci m = Ret m' -> setup m' = setup m.
Proof.
  unfold compute_mle. destruct (self_compute_ci m); intros H;
    run_inv; setup_hyps; setup_eq.
Qed.

Lemma init_random_setup (B : backend) (seed : Z) (m m' : glm) :
  init_random B seed m = Ret m' -> setup m' = setup m.
Proof.
  unfold init_random. intros H. cbv zeta in H. bind_inv H.
  fold_inv (fun s => setup s = setup m).
  - inversion H; subst. assumption.
  - intros s [i name] s' Hs Hb. run_inv; exact Hs.
  - reflexivity.
Qed.

Lemma init_params_setup (B : backend) (a : init_args) (m m' : glm) :
  init_params B a m = Ret m' -> setup m' = setup m.
Proof.
  unfold init_params. cbv zeta. intros H.
  destruct (String.eqb (ia_method a) "random").
  - apply init_random_setup in H. exact H.
  - destruct (String.eqb (ia_method a) "mle"); [|discriminate H].
    match type of H with
    | (if ?b then _ else _) = _ => destruct b
    end.
    + injection H as <-. reflexivity.
    + apply compute_mle_setup in H. exact H.
Qed.

Lemma collect_p0_setup (B : backend) (method : string) (seed : Z) (noise : fnum)
    (m m' : glm) :
  collect_p0 B method seed noise m = Ret m' -> setup m' = setup m.
Proof.
  unfold collect_p0. intros H. cbv zeta in H. bind_inv H.
  inversion H; subst; clear H.
  fold_inv (fun st : glm * params => setup (fst st) = setup m).
  - exact E.
  - intros [s p0] [i name] [s' p0'] Hs Hb. simpl in Hs. run_inv; exact Hs.
  - reflexivity.
Qed.

Lemma optimize_setup (B : backend) (m : glm) (p0 : params) (num_iters : nat)
    (metric : string) (tolerance : Z) (policy : string) (m' : glm) (run : opt_run B) :
  optimize B m p0 num_iters metric tolerance policy = Ret (m', run) ->
  setup m' = setup m.
Proof.
  unfold optimize. intros H. run_inv; reflexivity.
Qed.

Lemma extract_opt_params_setup (B : backend) (m m' : glm) :
  _extract_opt_params B m = Ret m' -> setup m' = setup m.
Proof.
  unfold _extract_opt_params. intros H. cbv zeta in H. bind_inv H.
  fold_inv (fun s => setup s = setup m).
  - run_inv; setup_hyps; setup_eq.
  - intros s name s' Hs Hb. run_inv; exact Hs.
  - reflexivity.
Qed.

Lemma fit_setup (B : backend) (a : fit_args) (m m' : glm) :
  fit B a m = Ret m' -> setup m' = setup m.
Proof.
  unfold fit. intros H. cbv zeta in H. bind_inv H.
  apply extract_opt_params_setup in H.
  destruct a2 as [m2 run]. apply optimize_setup in E1.
  assert (E' : setup a0 = setup m).
  { unfold store_response in E. run_inv; reflexivity. }
  setup_eq.
Qed.

(** The other methods keep what construction fixed. *)

Lemma alias_filter_config (method name : string) (m m' : glm) :
  alias_filter method name m = Ret m' -> config m' = config m.
Proof.
  unfold alias_filter. intros H. run_inv; reflexivity.
Qed.

Lemma expand_subunits_config (method : string) (k : Z) (m m' : glm) :
  expand_subunits method k m = Ret m' -> config m' = config m.
Proof.
  unfold expand_subunits. intros H.
  destruct (k =? 1)%Z; [injection H as <-; reflexivity|].
  bind_inv H. inversion H; subst; clear H.
  unfold alias_loop in E0.
  fold_inv (fun s => config s = config m).
  - unfold drop_stimulus in E1.
    destruct (pop2 method "stimulus" (self_b a0)); run_inv;
      unfold config in *; simpl in *; congruence.
  - intros s name s' Hs Hb.
    destruct (contains "stimulus" name).
    + apply alias_filter_config in Hb. congruence.
    + injection Hb as <-. exact Hs.
  - reflexivity.
Qed.

Lemma initialize_config (B : backend) (a : init_args) (m m' : glm) :
  initialize B a m = Ret m' -> config m' = config m.
Proof.
  unfold initialize. intros H. bind_inv H.
  apply collect_p0_setup, setup_config in H.
  apply expand_subunits_config in E0.
  apply init_params_setup, setup_config in E.
  congruence.
Qed.

Lemma alias_test_config (m m' : glm) :
  alias_test m = Ret m' -> config m' = config m.
Proof.
  unfold alias_test. intros H. bind_inv H.
  destruct (a =? 1)%Z; [injection H as <-; reflexivity|].
  bind_inv H. inversion H; subst; clear H.
  fold_inv (fun s => config s = config m).
  - exact E0.
  - intros s name s' Hs Hb. run_inv; exact Hs.
  - reflexivity.
Qed.

Lemma add_test_matrix_config (B : backend) (name : string) (x : ndarray) (m m' : glm) :
  add_test_matrix B name x m = Ret m' -> config m' = config m.
Proof.
  unfold add_test_matrix. intros H. bind_inv H.
  now apply add_design_matrix_config in H.
Qed.

Lemma predict_config (B : backend) (X : stimulus) (w_type : string) (m m' : glm)
    (y_pred : vec) :
  predict B X w_type m = Ret (m', y_pred) -> config m' = config m.
Proof.
  unfold predict. intros H. cbv zeta in H. bind_inv H.
  apply alias_test_config in E1.
  assert (E' : config a0 = config m).
  { destruct X as [x|d].
    - now apply add_test_matrix_config in E0.
    - fold_inv (fun s => config s = config m).
      + exact E0.
      + intros s name s' Hs Hb. bind_inv Hb.
        apply add_test_matrix_config in Hb. congruence.
      + reflexivity. }
  destruct a3.
  - bind_inv H. inversion H; subst; clear H.
    apply response_variance_setup, setup_config in E4. congruence.
  - inversion H; subst; clear H. congruence.
Qed.

Lemma score_config (B : backend) (X : stimulus) (y_test : vec) (metric w_type : string)
    (m m' : glm) (s : option fnum) (y_pred : vec) :
  score B X y_test metric w_type m = Ret (m', s, y_pred) -> config m' = config m.
Proof.
  unfold score. intros H. bind_inv H. inversion H; subst; clear H.
  destruct a0 as [m1 yp]. simpl.
  destruct X; eapply predict_config; eassumption.
Qed.

Lemma run_call_config (B : backend) (m m' : glm) (c : method_call) :
  run_call B m c = Ret m' -> config m' = config m.
Proof.
  destruct c; simpl; intros H.
  - now apply add_design_matrix_config in H.
  - now apply compute_mle_setup, setup_config in H.
  - now apply initialize_config in H.
  - now apply fit_setup, setup_config in H.
  - bind_inv H. inversion H; subst; clear H. destruct a.
    eapply predict_config; eassumption.
  - bind_inv H. inversion H; subst; clear H. destruct a as [[m1 s] yp].
    eapply score_config; eassumption.
Qed.

(** X14.  Whatever methods are called on a model, in whatever order,
    the distribution and the output nonlinearity stay as [__init__] set
    them, and the attribute [edf_tot] is never assigned. *)
Theorem construction_settings_are_kept :
  forall (B : backend) (distr output_nonlinearity : string)
         (calls : list method_call) (m : glm),
    run_calls B distr output_nonlinearity calls = Ret m ->
    self_distr m = distr
    /\ self_output_nonlinearity m = output_nonlinearity
    /\ self_edf_tot m = None.
Proof.
  intros B distr nl calls m H. unfold run_calls in H.
  apply (foldM_invariant _ _
           (fun s => config s = config (init distr nl))) in H.
  - unfold config in H. simpl in H. inversion H. repeat split.
  - intros s c s' Hs Hc. apply run_call_config in Hc. congruence.
  - reflexivity.
Qed.

Lemma construction_settings_are_kept_witness :
  run_calls spline_backend "poisson" "softplus" demo_calls = Ret demo_session
  /\ self_distr demo_session = "poisson"
  /\ self_output_nonlinearity demo_session = "softplus"
  /\ self_edf_tot demo_session = None.
Proof.
  assert (Hrun : run_calls spline_backend "poisson" "softplus" demo_calls
                 = Ret demo_session) by (vm_compute; reflexivity).
  split; [exact Hrun|].
  exact (construction_settings_are_kept spline_backend "poisson" "softplus"
           demo_calls demo_session Hrun).
Defined.

(** ** The metrics that read [edf_tot] *)

Lemma compute_score_needs_edf_tot (B : backend) (m : glm) (yv y_pred : vec)
    (metric : string) :
  self_edf_tot m = None ->
  metric = "r2adj" \/ metric = "gcv" ->
  returned (compute_score B m yv y_pred metric) = Raise (AttributeError "edf_tot").
Proof.
  intros He [-> | ->]; unfold compute_score; simpl; rewrite He; reflexivity.
Qed.

Lemma loop_body_needs_edf_tot (B : backend) (m : glm) (metric : string)
    (tolerance : Z) (i : nat) (v : loop_vars B) r :
  self_edf_tot m = None ->
  metric = "r2adj" \/ metric = "gcv" ->
  loop_body m metric tolerance i v <> Ret r.
Proof.
  intros He Hm H. unfold loop_body in H. bind_inv H.
  unfold as_float in E2.
  rewrite (compute_score_needs_edf_tot B m _ _ metric He Hm) in E2.
  discriminate E2.
Qed.

Lemma optimize_needs_edf_tot (B : backend) (m : glm) (p0 : params) (num_iters : nat)
    (metric : string) (tolerance : Z) (policy : string) r :
  self_edf_tot m = None ->
  metric = "r2adj" \/ metric = "gcv" ->
  optimize B m p0 num_iters metric tolerance policy <> Ret r.
Proof.
  intros He Hm H. destruct r as [m' run].
  apply optimize_inv in H. destruct H as (n & -> & Hloop & _).
  cbn [seq for_loop] in Hloop. bind_inv Hloop.
  exact (loop_body_needs_edf_tot B m metric tolerance 0 _ _ He Hm E).
Qed.

(** X15.  The metrics ['r2adj'] and ['gcv'] read the attribute
    [edf_tot].  On a model that has no such attribute, [compute_score]
    raises [AttributeError] for them, and neither [fit] nor [score]
    returns when called with one of them. *)
Theorem edf_metrics_need_edf_tot :
  forall (B : backend) (m : glm) (metric : string),
    self_edf_tot m = None ->
    metric = "r2adj" \/ metric = "gcv" ->
    (forall yv y_pred,
        returned (compute_score B m yv y_pred metric)
        = Raise (AttributeError "edf_tot"))
    /\ (forall a, fa_metric a = metric -> raises (fit B a m))
    /\ (forall X_test y_test w_type, raises (score B X_test y_test metric w_type m)).
Proof.
  intros B m metric He Hm. split; [|split].
  - intros yv y_pred. now apply compute_score_needs_edf_tot.
  - intros a Ha. apply not_ret_raises. intros m' H.
    unfold fit in H. cbv zeta in H. bind_inv H.
    rewrite Ha in E1.
    assert (He0 : self_edf_tot a0 = None).
    { unfold store_response in E. run_inv; exact He. }
    revert E1. apply optimize_needs_edf_tot; [exact He0 | exact Hm].
  - intros X_test y_test w_type. apply not_ret_raises. intros [[m' s] yp] H.
    unfold score in H. bind_inv H. destruct a0 as [m1 yp1].
    assert (Hc : config m1 = config m)
      by (destruct X_test; eapply predict_config; eassumption).
    assert (He1 : self_edf_tot m1 = None)
      by (unfold config in Hc; inversion Hc; congruence).
    simpl in E1.
    rewrite (compute_score_needs_edf_tot B m1 _ _ metric He1 Hm) in E1.
    discriminate E1.
Qed.

Lemma edf_metrics_need_edf_tot_witness :
  (forall yv y_pred,
      returned (compute_score still_backend demo_initialized yv y_pred "gcv")
      = Raise (AttributeError "edf_tot"))
  /\ (forall a, fa_metric a = "gcv" -> raises (fit still_backend a demo_initialized))
  /\ (forall X_test y_test w_type,
         raises (score still_backend X_test y_test "gcv" w_type demo_initialized)).
Proof.
  apply (edf_metrics_need_edf_tot still_backend demo_initialized "gcv").
  - reflexivity.
  - right. reflexivity.
Defined.

(** ** [compute_mle] *)

Lemma filter_variance_inputs (B : backend) (w_type : string) (m m' : glm) :
  _get_filter_variance B w_type m = Ret m' -> mle_inputs m' = mle_inputs m.
Proof.
  unfold _get_filter_variance. intros H. run_inv. reflexivity.
Qed.

Lemma response_variance_inputs (B : backend) (w_type kind : string) (m m' : glm) :
  _get_response_variance B w_type kind m = Ret m' -> mle_inputs m' = mle_inputs m.
Proof.
  unfold _get_response_variance. intros H. run_inv.
  destruct (Dict.mem w_type (self_y_pred_lower m)); reflexivity.
Qed.

Lemma unpack_mle_inputs (mle : vec) (m m' : glm) :
  unpack_mle mle m = Ret m' -> mle_inputs m' = mle_inputs m.
Proof.
  unfold unpack_mle. intros H. cbv zeta in H. bind_inv H.
  fold_inv (fun s => mle_inputs s = mle_inputs m).
  - run_inv. assumption.
  - intros s [i name] s' Hs Hb. unfold unpack_filter in Hb. run_inv; exact Hs.
  - reflexivity.
Qed.

Lemma collect_p_mle_inputs (m m' : glm) :
  collect_p_mle m = Ret m' -> mle_inputs m' = mle_inputs m.
Proof.
  unfold collect_p_mle. intros H. cbv zeta in H. bind_inv H.
  fold_inv (fun s => mle_inputs s = mle_inputs m).
  - run_inv. assumption.
  - intros s name s' Hs Hb. run_inv; exact Hs.
  - reflexivity.
Qed.

Ltac inputs_hyps :=
  repeat match goal with
         | H : unpack_mle _ _ = Ret _ |- _ => apply unpack_mle_inputs in H
         | H : collect_p_mle _ = Ret _ |- _ => apply collect_p_mle_inputs in H
         | H : _get_filter_variance _ _ _ = Ret _ |- _ =>
             apply filter_variance_inputs in H
         | H : _get_response_variance _ _ _ _ = Ret _ |- _ =>
             apply response_variance_inputs in H
         end.

Lemma length_zero_nil (A : Type) (l : list A) : (length l =? 0) = false -> l <> [].
Proof.
  intros H ->. discriminate H.
Qed.

Lemma attr_ret (A : Type) (name : string) (o : option A) (v : A) :
  attr name o = Ret v -> o = Some v.
Proof.
  unfold attr. destruct o; simpl; congruence.
Qed.

Ltac split_inputs :=
  repeat match goal with
         | H : (_, _, _, _) = (_, _, _, _) |- _ => injection H as ?Hy ?Hb ?Hn ?Hf
         end.

Ltac chase_y :=
  repeat match goal with
         | H : self_y ?a = _ |- context [self_y ?a] => rewrite H
         end.

(** X16.  When [compute_mle] returns, the model holds under
    [y['train']] the train response cut at the burn-in, which is not
    empty; the same holds for [y['dev']] when the response dictionary
    has a dev entry; and the flag [mle_computed] is set. *)
Theorem compute_mle_stores_response :
  forall (B : backend) (yarg : response) (ci : bool) (m m' : glm),
    compute_mle B yarg ci m = Ret m' ->
    exists y_train bi,
      match yarg with
      | YNone => False
      | YArr v => y_train = v
      | YDict d => Dict.get "train" d = Some y_train
      end
      /\ self_burn_in m = Some bi
      /\ Dict.get "train" (self_y m') = Some (py_slice_from y_train bi)
      /\ py_slice_from y_train bi <> []
      /\ (forall d y_dev,
             yarg = YDict d -> Dict.get "dev" d = Some y_dev ->
             Dict.get "dev" (self_y m') = Some (py_slice_from y_dev bi)
             /\ py_slice_from y_dev bi <> [])
      /\ self_mle_computed m' = true.
Proof.
  intros B yarg ci m m' H. unfold compute_mle in H.
  destruct (self_compute_ci m) eqn:Hci; run_inv; inputs_hyps;
    unfold mle_inputs in *; simpl in *; set_items; split_inputs;
    match goal with
    | Hbi : attr "burn_in" _ = Ret ?bi |- exists y_train _, (Dict.get _ _ = _) /\ _ =>
        match goal with
        | Ht : Dict.item "train" _ = Ret ?yt |- _ =>
            exists yt, bi; split; [apply item_ret; exact Ht|]
        end
    | Hbi : attr "burn_in" _ = Ret ?bi |- exists y_train _, (_ = ?v) /\ _ =>
        exists v, bi; split; [reflexivity|]
    end;
    (split; [apply attr_ret with (name := "burn_in"); assumption|]);
    (split; [chase_y; rewrite ?get_set_other by discriminate; apply get_set_same|]);
    (split; [apply length_zero_nil; assumption|]);
    (split; [|reflexivity]);
    intros d0 y_dev Hd Hdev; inversion Hd; subst;
    try congruence;
    match goal with
    | H1 : Dict.get "dev" _ = Some ?v0, H2 : Dict.get "dev" _ = Some ?v1 |- _ =>
        assert (v0 = v1) by congruence; subst
    end;
    (split; [chase_y; apply get_set_same | apply length_zero_nil; assumption]).
Qed.

Lemma compute_mle_stores_response_witness :
  compute_mle solver_backend (YArr two_feature_y) false two_feature_model
  = Ret two_feature_mle
  /\ exists y_train bi,
       y_train = two_feature_y
       /\ self_burn_in two_feature_model = Some bi
       /\ Dict.get "train" (self_y two_feature_mle) = Some (py_slice_from y_train bi)
       /\ py_slice_from y_train bi <> []
       /\ (forall d y_dev,
              YArr two_feature_y = YDict d -> Dict.get "dev" d = Some y_dev ->
              Dict.get "dev" (self_y two_feature_mle) = Some (py_slice_from y_dev bi)
              /\ py_slice_from y_dev bi <> [])
       /\ self_mle_computed two_feature_mle = true.
Proof.
  assert (Hrun : compute_mle solver_backend (YArr two_feature_y) false
                   two_feature_model = Ret two_feature_mle)
    by (vm_compute; reflexivity).
  split; [exact Hrun|].
  exact (compute_mle_stores_response solver_backend (YArr two_feature_y) false
           two_feature_model two_feature_mle Hrun).
Defined.

Lemma length_cumsum_from (acc : nat) (l : list nat) :
  length (cumsum_from acc l) = length l.
Proof.
  revert acc. induction l as [|a t IH]; intros acc; simpl; [reflexivity|].
  now rewrite IH.
Qed.

Lemma length_block_bounds (m : glm) :
  length (block_bounds m) = length (self_n_features m).
Proof.
  unfold block_bounds, cumsum. cbn [cumsum_from tl].
  rewrite length_combine. cbn [length].
  rewrite length_cumsum_from, length_map. lia.
Qed.

(** The loop of lines 435-442 reads one pair of bounds per filter
    name. *)
Lemma unpack_needs_bounds (mle : vec) (idx : list (nat * nat)) :
  forall (names : list string) (k : nat) (m m' : glm),
    foldM (unpack_filter mle idx) (enumerate_from k names) m = Ret m' ->
    names = [] \/ k + length names <= length idx.
Proof.
  induction names as [|name t IH]; intros k m m' H; simpl in *; [now left|].
  right. bind_inv H. apply IH in H.
  unfold unpack_filter in E. bind_inv E.
  unfold from_option in E0.
  destruct (nth_error idx k) eqn:En; [|discriminate E0].
  assert (k < length idx) by (apply nth_error_Some; congruence).
  destruct H as [-> | H]; simpl; lia.
Qed.

Lemma compute_mle_needs_bounds (B : backend) (yarg : response) (ci : bool) (m : glm) :
  length (self_n_features m) < length (self_filter_names m) ->
  raises (compute_mle B yarg ci m).
Proof.
  intros Hlen. apply not_ret_raises. intros m' H.
  unfold compute_mle in H.
  assert (Hun : forall mle m0 m1,
             self_filter_names m0 = self_filter_names m ->
             self_n_features m0 = self_n_features m ->
             unpack_mle mle m0 <> Ret m1).
  { intros mle m0 m1 Hn Hf Hu. unfold unpack_mle in Hu. cbv zeta in Hu.
    bind_inv Hu. unfold enumerate in E. apply unpack_needs_bounds in E.
    rewrite length_block_bounds in E. simpl in E. rewrite Hn, Hf in E.
    destruct E as [E | E]; [rewrite E in Hlen; simpl in Hlen|]; lia. }
  destruct (self_compute_ci m); run_inv;
    match goal with
    | Hu : unpack_mle _ _ = Ret _ |- _ =>
        apply Hun in Hu; [exact Hu | reflexivity | reflexivity]
    end.
Qed.

(** X17.  [compute_mle] cuts the solution with one pair of bounds per
    entry of [n_features] and walks the list of filter names through
    them: on a model with more filter names than [n_features] entries
    it never returns. *)
Theorem compute_mle_needs_bounds_for_every_name :
  forall (B : backend) (yarg : response) (ci : bool) (m : glm),
    length (self_n_features m) < length (self_filter_names m) ->
    raises (compute_mle B yarg ci m).
Proof.
  intros B yarg ci m. apply compute_mle_needs_bounds.
Qed.

Lemma length_set_mem (V : Type) (k : string) (v : V) (d : dict V) :
  Dict.mem k d = true -> length (Dict.set k v d) = length d.
Proof.
  unfold Dict.mem. induction d as [|[k' v'] d IH]; simpl; [discriminate|].
  destruct (String.eqb k k'); simpl; [reflexivity|].
  intros H. now rewrite IH.
Qed.

(** X18.  Registering a train filter under a name that is registered
    already appends the name to [filter_names] a second time, while
    [n_features] keeps one entry for it; on the model so obtained
    [compute_mle] never returns. *)
Theorem repeated_train_registration_breaks_mle :
  forall (B : backend) (a : adm_args) (m m' : glm),
    add_design_matrix B a m = Ret m' ->
    arg_kind a = "train" ->
    Dict.mem (arg_name a) (self_n_features m) = true ->
    length (self_n_features m) <= length (self_filter_names m) ->
    self_filter_names m' = self_filter_names m ++ [arg_name a]
    /\ length (self_n_features m') = length (self_n_features m)
    /\ forall yarg ci, raises (compute_mle B yarg ci m').
Proof.
  intros B a m m' H Hk Hmem Hle.
  assert (Hreg : self_filter_names m' = self_filter_names m ++ [arg_name a]
                 /\ length (self_n_features m') = length (self_n_features m)).
  { stages H. rewrite Hk in Hreg, Hsm. simpl in Hreg, Hsm.
    run_inv; simpl; (split; [reflexivity|]);
      try reflexivity; apply length_set_mem; exact Hmem. }
  destruct Hreg as [Hn Hf]. split; [exact Hn|]. split; [exact Hf|].
  intros yarg ci. apply compute_mle_needs_bounds.
  rewrite Hn, Hf, length_app. simpl. lia.
Qed.

Lemma compute_mle_needs_bounds_for_every_name_witness :
  raises (compute_mle still_backend (YArr [f0; f0; f0; f0; f0; f0]) false demo_twice).
Proof.
  apply (compute_mle_needs_bounds_for_every_name still_backend
           (YArr [f0; f0; f0; f0; f0; f0]) false demo_twice).
  vm_compute. lia.
Defined.

Lemma repeated_train_registration_breaks_mle_witness :
  add_design_matrix still_backend (lagged_call "train" "stimulus" 5) demo_first
  = Ret demo_twice
  /\ self_filter_names demo_twice = self_filter_names demo_first ++ ["stimulus"]
  /\ length (self_n_features demo_twice) = length (self_n_features demo_first)
  /\ forall yarg ci, raises (compute_mle still_backend yarg ci demo_twice).
Proof.
  assert (Hrun : add_design_matrix still_backend (lagged_call "train" "stimulus" 5)
                   demo_first = Ret demo_twice) by (vm_compute; reflexivity).
  split; [exact Hrun|].
  apply (repeated_train_registration_breaks_mle still_backend
           (lagged_call "train" "stimulus" 5) demo_first demo_twice Hrun).
  - reflexivity.
  - vm_compute. reflexivity.
  - vm_compute. lia.
Defined.

(** ** What the estimation methods leave alone *)

Lemma initialize_single_setup (B : backend) (a : init_args) (m m' : glm) :
  ia_num_subunits a = 1%Z -> initialize B a m = Ret m' -> setup m' = setup m.
Proof.
  intros Hk H. unfold initialize in H. rewrite Hk in H. bind_inv H.
  apply collect_p0_setup in H. apply init_params_setup in E.
  unfold expand_subunits in E0. simpl in E0. injection E0 as <-.
  congruence.
Qed.

(** X19.  [compute_mle], [fit], and [initialize] with a single subunit
    estimate parameters and nothing else: whatever sequence of such
    calls is made, the design matrices [X] and [XS], the spline bases
    and penalties, the registry of the filters ([filter_names], [dims],
    [shift], nonlinearities, [n_features], [edf]) and the burn-in are
    afterwards what they were before. *)
Theorem estimation_keeps_the_design :
  forall (B : backend) (calls : list method_call) (m m' : glm),
    foldM (run_call B) calls m = Ret m' ->
    forallb estimation_call calls = true ->
    design m' = design m.
Proof.
  intros B calls. induction calls as [|c t IH]; intros m m' H Hall.
  - simpl in H. injection H as <-. reflexivity.
  - simpl in H, Hall. apply andb_prop in Hall. destruct Hall as [Hc Ht].
    bind_inv H. rewrite (IH _ _ H Ht). apply setup_design.
    destruct c; simpl in Hc, E; try discriminate Hc.
    + now apply compute_mle_setup in E.
    + apply Z.eqb_eq in Hc. now apply initialize_single_setup in E.
    + now apply fit_setup in E.
Qed.

Lemma estimation_keeps_the_design_witness :
  foldM (run_call spline_backend) estimation_calls demo_smooth = Ret demo_estimated
  /\ design demo_estimated = design demo_smooth.
Proof.
  assert (Hrun : foldM (run_call spline_backend) estimation_calls demo_smooth
                 = Ret demo_estimated) by (vm_compute; reflexivity).
  split; [exact Hrun|].
  apply (estimation_keeps_the_design spline_backend estimation_calls demo_smooth
           demo_estimated Hrun).
  reflexivity.
Defined.

(** ** [predict] and [score] *)

Lemma in_split_ensure (V : Type) (kind n : string) (d : dict (dict V)) :
  in_split kind n (ensure kind d) = in_split kind n d.
Proof.
  unfold in_split, ensure, Dict.mem.
  destruct (Dict.get kind d) eqn:E; simpl; rewrite ?get_set_same, ?E; reflexivity.
Qed.

Lemma in_split_set2 (V : Type) (kind name n : string) (v : V) (d d' : dict (dict V)) :
  set2 kind name v d = Ret d' ->
  in_split kind n d' = String.eqb n name || in_split kind n d.
Proof.
  intros H. apply set2_ret in H. destruct H as (inner & Hget & ->).
  unfold in_split. rewrite get_set_same, Hget. apply mem_set.
Qed.

(** A registration adds its filter name to the keys of its split. *)
Lemma add_design_matrix_split_keys (B : backend) (a : adm_args) (m m' : glm)
    (n : string) :
  add_design_matrix B a m = Ret m' ->
  in_split (arg_kind a) n (self_X m')
  = String.eqb n (arg_name a) || in_split (arg_kind a) n (self_X m).
Proof.
  intros H. apply add_design_matrix_stages in H.
  destruct H as (m1 & m2 & m3 & dims & shift & Hreg & Hbi & Hst & Hsm).
  apply smooth_stage_frame in Hsm. destruct Hsm as (-> & _).
  assert (H2 : self_X m2 = ensure (arg_kind a) (self_X m)).
  { unfold register_filter in Hreg. unfold init_burn_in in Hbi.
    run_inv; reflexivity. }
  unfold store_design in Hst.
  destruct (arg_lag a); bind_inv Hst; inversion Hst; subst; clear Hst; simpl;
    match goal with
    | E : set2 _ _ _ _ = Ret _ |- _ =>
        rewrite (in_split_set2 _ _ _ n _ _ _ E); simpl
    end; rewrite ?H2, in_split_ensure; reflexivity.
Qed.

(** A test registration made without [smooth] keeps what the fit left. *)
Lemma add_test_matrix_fitted (B : backend) (name : string) (x : ndarray) (m m' : glm) :
  add_test_matrix B name x m = Ret m' ->
  fitted m' = fitted m
  /\ (forall k, k <> "test" ->
        Dict.get k (self_X m') = Dict.get k (self_X m)
        /\ Dict.get k (self_XS m') = Dict.get k (self_XS m))
  /\ (forall bi, self_burn_in m = Some bi -> self_burn_in m' = Some bi)
  /\ (forall n, in_split "test" n (self_X m')
                = String.eqb n name || in_split "test" n (self_X m)).
Proof.
  unfold add_test_matrix. intros H. bind_inv H.
  split; [|split; [|split]].
  - stages H. simpl in *. run_inv; reflexivity.
  - intros k Hk. stages H. simpl in *. run_inv; split; other_split; reflexivity.
  - intros bi Hb. apply add_design_matrix_steps in H.
    destruct H as (m1 & m2 & m3 & dims & shift & Hreg & Hbi & Hst & ->).
    apply register_filter_burn_in in Hreg. destruct Hreg as [Hr _].
    apply init_burn_in_spec in Hbi. destruct Hbi as (Hi & _).
    apply store_design_burn_in in Hst. simpl in Hst.
    rewrite Hst. apply Hi. now rewrite Hr.
  - intros n. apply (add_design_matrix_split_keys _ _ _ _ n) in H. exact H.
Qed.

Lemma test_registrations (B : backend) (d : dict ndarray) :
  forall (names : list string) (m m' : glm),
    foldM (fun m name => x <- Dict.item name d ;; add_test_matrix B name x m) names m
    = Ret m' ->
    fitted m' = fitted m
    /\ (forall k, k <> "test" ->
          Dict.get k (self_X m') = Dict.get k (self_X m)
          /\ Dict.get k (self_XS m') = Dict.get k (self_XS m))
    /\ (forall bi, self_burn_in m = Some bi -> self_burn_in m' = Some bi)
    /\ (forall n, in_split "test" n (self_X m')
                  = existsb (String.eqb n) names || in_split "test" n (self_X m)).
Proof.
  induction names as [|name t IH]; intros m m' H; simpl in H.
  - injection H as <-. repeat split; auto.
  - bind_inv H. apply IH in H. destruct H as (Hf & Ho & Hb & Hk).
    bind_inv E.
    apply add_test_matrix_fitted in E. destruct E as (Hf0 & Ho0 & Hb0 & Hk0).
    split; [congruence|]. split; [|split].
    + intros k Hne. destruct (Ho k Hne) as [-> ->]. now apply Ho0.
    + intros bi Hbi. apply Hb. now apply Hb0.
    + intros n. rewrite Hk, Hk0. simpl.
      rewrite orb_assoc. f_equal. apply orb_comm.
Qed.

Lemma pop2_get_other (V : Type) (k k1 k2 : string) (d d' : dict (dict V)) :
  k <> k1 -> pop2 k1 k2 d = Ret d' -> Dict.get k d' = Dict.get k d.
Proof.
  intros Hne H. unfold pop2 in H. bind_inv H. injection H as <-.
  now apply get_set_other.
Qed.

Lemma alias_test_fitted (m m' : glm) :
  alias_test m = Ret m' ->
  fitted m' = fitted m
  /\ (forall k, k <> "test" ->
        Dict.get k (self_X m') = Dict.get k (self_X m)
        /\ Dict.get k (self_XS m') = Dict.get k (self_XS m))
  /\ self_burn_in m' = self_burn_in m
  /\ (self_num_subunits m = Some 1%Z -> m' = m).
Proof.
  unfold alias_test. intros H. bind_inv H. apply attr_ret in E.
  destruct (Z.eqb_spec a 1) as [->|Hne].
  - injection H as <-. repeat split; auto.
  - bind_inv H. inversion H; subst; clear H.
    fold_inv (fun s => fitted s = fitted m
                       /\ (forall k, k <> "test" ->
                             Dict.get k (self_X s) = Dict.get k (self_X m)
                             /\ Dict.get k (self_XS s) = Dict.get k (self_XS m))
                       /\ self_burn_in s = self_burn_in m).
    + destruct E0 as (Hf & Ho & Hb).
      split; [exact Hf|]. split; [|split].
      * intros k Hk. destruct (Ho k Hk) as [HX HXS]. simpl.
        rewrite (pop2_get_other _ _ _ _ _ _ Hk E1).
        rewrite (pop2_get_other _ _ _ _ _ _ Hk E2). simpl. now split.
      * exact Hb.
      * intros Hns. rewrite Hns in E. injection E as <-. contradiction.
    + intros s name s' (Hf & Ho & Hb) Hbody.
      destruct (contains "stimulus" name).
      * bind_inv Hbody. inversion Hbody; subst; clear Hbody.
        split; [exact Hf|]. split; [|exact Hb].
        intros k Hk. destruct (Ho k Hk) as [HX HXS]. simpl.
        rewrite (set2_get_other _ _ _ _ _ _ _ Hk E4).
        rewrite (set2_get_other _ _ _ _ _ _ _ Hk E6). simpl. now split.
      * injection Hbody as <-. repeat split; auto; apply Ho; assumption.
    + repeat split; auto.
Qed.

Lemma response_variance_fitted_all (B : backend) (w_type kind : string) (m m' : glm) :
  _get_response_variance B w_type kind m = Ret m' ->
  fitted m' = fitted m
  /\ self_X m' = self_X m /\ self_XS m' = self_XS m
  /\ self_burn_in m' = self_burn_in m
  /\ forall p k, forwardpass B m' p k = forwardpass B m p k.
Proof.
  unfold _get_response_variance. intros H. run_inv.
  destruct (Dict.mem w_type (self_y_pred_lower m)); repeat split; reflexivity.
Qed.

(** The model as [predict] has it before the test matrices are built. *)
Lemma test_split_reset (m : glm) (n : string) :
  in_split "test" n (Dict.set "test" [] (self_X m)) = false.
Proof.
  unfold in_split. now rewrite get_set_same.
Qed.

Lemma predict_inv (B : backend) (X : stimulus) (w_type : string) (m m' : glm)
    (y_pred : vec) :
  predict B X w_type m = Ret (m', y_pred) ->
  exists p m1 m2,
    Dict.get w_type (self_p m) = Some p
    /\ fitted m1 = fitted m
    /\ (forall k, k <> "test" ->
          Dict.get k (self_X m1) = Dict.get k (self_X m)
          /\ Dict.get k (self_XS m1) = Dict.get k (self_XS m))
    /\ (forall bi, self_burn_in m = Some bi -> self_burn_in m1 = Some bi)
    /\ (forall n, in_split "test" n (self_X m1)
                  = existsb (String.eqb n) (named_filters X))
    /\ alias_test m1 = Ret m2
    /\ forwardpass B m2 p "test" = Ret y_pred
    /\ fitted m' = fitted m2
    /\ self_X m' = self_X m2 /\ self_XS m' = self_XS m2
    /\ self_burn_in m' = self_burn_in m2
    /\ forall p k, forwardpass B m' p k = forwardpass B m2 p k.
Proof.
  unfold predict. intros H. cbv zeta in H. bind_inv H.
  inversion H; subst; clear H.
  apply item_ret in E.
  exists a, a0, a1.
  split; [exact E|].
  assert (Hreg : fitted a0 = fitted m
                 /\ (forall k, k <> "test" ->
                       Dict.get k (self_X a0) = Dict.get k (self_X m)
                       /\ Dict.get k (self_XS a0) = Dict.get k (self_XS m))
                 /\ (forall bi, self_burn_in m = Some bi -> self_burn_in a0 = Some bi)
                 /\ (forall n, in_split "test" n (self_X a0)
                               = existsb (String.eqb n) (named_filters X))).
  { destruct X as [x|d].
    - apply add_test_matrix_fitted in E0. destruct E0 as (Hf & Ho & Hb & Hk).
      split; [exact Hf|]. split; [|split].
      + intros k Hne. destruct (Ho k Hne) as [-> ->]. simpl.
        split; apply get_set_other; exact Hne.
      + intros bi Hbi. now apply Hb.
      + intros n. rewrite Hk. simpl. now rewrite test_split_reset.
    - apply test_registrations in E0. destruct E0 as (Hf & Ho & Hb & Hk).
      split; [exact Hf|]. split; [|split].
      + intros k Hne. destruct (Ho k Hne) as [-> ->]. simpl.
        split; apply get_set_other; exact Hne.
      + intros bi Hbi. now apply Hb.
      + intros n. rewrite Hk. simpl. rewrite test_split_reset.
        apply orb_false_r. }
  destruct Hreg as (Hf & Ho & Hb & Hk).
  repeat (split; [assumption|]).
  destruct a3.
  - now apply response_variance_fitted_all in E4.
  - inversion E4; subst. repeat split; reflexivity.
Qed.

(** X20.  On a model without subunits, [predict] rebuilds the test
    split from nothing: when it returns, the keys of [X['test']] are the
    filters named by its argument (['stimulus'] for an array, the keys
    of a dictionary), whatever an earlier call left there. *)
Theorem predict_rebuilds_the_test_split :
  forall (B : backend) (X : stimulus) (w_type : string) (m m' : glm) (y_pred : vec),
    predict B X w_type m = Ret (m', y_pred) ->
    self_num_subunits m = Some 1%Z ->
    forall n, in_split "test" n (self_X m') = existsb (String.eqb n) (named_filters X).
Proof.
  intros B X w_type m m' y_pred H Hns n.
  apply predict_inv in H.
  destruct H as (p & m1 & m2 & _ & Hf & _ & _ & Hk & Hal & _ & _ & HX & _).
  apply alias_test_fitted in Hal. destruct Hal as (_ & _ & _ & Hid).
  assert (Hns1 : self_num_subunits m1 = Some 1%Z).
  { unfold fitted in Hf. inversion Hf. congruence. }
  rewrite HX, (Hid Hns1). apply Hk.
Qed.

(** X21.  A prediction does not disturb the fit.  When [predict]
    returns, the parameter sets, the stored responses, the registry,
    the spline bases and penalties are unchanged, and so are the design
    matrices of every split other than test and a burn-in that was set;
    the returned array is the forward pass of [p[w_type]] on the test
    split of the model it leaves. *)
Theorem predict_keeps_the_fit :
  forall (B : backend) (X : stimulus) (w_type : string) (m m' : glm) (y_pred : vec),
    predict B X w_type m = Ret (m', y_pred) ->
    fitted m' = fitted m
    /\ (forall k, k <> "test" ->
          Dict.get k (self_X m') = Dict.get k (self_X m)
          /\ Dict.get k (self_XS m') = Dict.get k (self_XS m))
    /\ (forall bi, self_burn_in m = Some bi -> self_burn_in m' = Some bi)
    /\ exists p, Dict.get w_type (self_p m') = Some p
                 /\ forwardpass B m' p "test" = Ret y_pred.
Proof.
  intros B X w_type m m' y_pred H.
  apply predict_inv in H.
  destruct H as (p & m1 & m2 & Hp & Hf & Ho & Hb & _ & Hal & Hfw & Hf' & HX & HXS
                 & Hb' & Hfw').
  apply alias_test_fitted in Hal. destruct Hal as (Hf2 & Ho2 & Hb2 & _).
  assert (Hfit : fitted m' = fitted m) by congruence.
  split; [exact Hfit|]. split; [|split].
  - intros k Hk. rewrite HX, HXS.
    destruct (Ho2 k Hk) as [-> ->]. now apply Ho.
  - intros bi Hbi. rewrite Hb', Hb2. now apply Hb.
  - exists p. split.
    + unfold fitted in Hfit. inversion Hfit. congruence.
    + now rewrite Hfw'.
Qed.

Lemma predict_rebuilds_the_test_split_witness :
  predict spline_backend (XDict [("stimulus", Arr1 [c_2; c_2])]) "opt"
    (fst demo_predicted) = Ret demo_predicted_again
  /\ forall n, in_split "test" n (self_X (fst demo_predicted_again))
               = existsb (String.eqb n) ["stimulus"].
Proof.
  assert (Hrun : predict spline_backend (XDict [("stimulus", Arr1 [c_2; c_2])]) "opt"
                   (fst demo_predicted) = Ret demo_predicted_again)
    by (vm_compute; reflexivity).
  split; [exact Hrun|].
  apply (predict_rebuilds_the_test_split spline_backend
           (XDict [("stimulus", Arr1 [c_2; c_2])]) "opt" (fst demo_predicted)
           (fst demo_predicted_again) (snd demo_predicted_again)).
  - rewrite Hrun. destruct demo_predicted_again. reflexivity.
  - vm_compute. reflexivity.
Defined.

Lemma predict_keeps_the_fit_witness :
  predict spline_backend (XArr (Arr1 [f1; c_2; f1])) "opt" demo_estimated
  = Ret demo_predicted
  /\ fitted (fst demo_predicted) = fitted demo_estimated
  /\ (forall k, k <> "test" ->
        Dict.get k (self_X (fst demo_predicted)) = Dict.get k (self_X demo_estimated)
        /\ Dict.get k (self_XS (fst demo_predicted))
           = Dict.get k (self_XS demo_estimated))
  /\ (forall bi, self_burn_in demo_estimated = Some bi ->
                 self_burn_in (fst demo_predicted) = Some bi)
  /\ exists p, Dict.get "opt" (self_p (fst demo_predicted)) = Some p
               /\ forwardpass spline_backend (fst demo_predicted) p "test"
                  = Ret (snd demo_predicted).
Proof.
  assert (Hrun : predict spline_backend (XArr (Arr1 [f1; c_2; f1])) "opt"
                   demo_estimated = Ret demo_predicted)
    by (vm_compute; reflexivity).
  split; [exact Hrun|].
  apply (predict_keeps_the_fit spline_backend (XArr (Arr1 [f1; c_2; f1])) "opt"
           demo_estimated (fst demo_predicted) (snd demo_predicted)).
  rewrite Hrun. destruct demo_predicted. reflexivity.
Defined.

Lemma add_test_matrix_needs_basis (B : backend) (name : string) (x : ndarray)
    (m m' : glm) :
  add_test_matrix B name x m = Ret m' ->
  Dict.mem name (self_S m) = true \/ Dict.mem "stimulus_s0" (self_S m) = true.
Proof.
  unfold add_test_matrix. intros H. bind_inv H.
  destruct (Dict.mem name (self_S m)) eqn:Hn; [now left|].
  destruct (Dict.mem "stimulus_s0" (self_S m)) eqn:H0; [now right|].
  exfalso. apply add_design_matrix_stages in H.
  destruct H as (m1 & m2 & m3 & dims & shift & Hreg & Hbi & Hst & Hsm).
  simpl in Hsm.
  match type of Hreg with
  | register_filter ?a _ = _ =>
      rewrite (test_basis_missing B a m m1 m2 m3 dims shift eq_refl Hn H0 Hreg Hbi Hst)
        in Hsm
  end.
  discriminate Hsm.
Qed.

Lemma test_registrations_need_bases (B : backend) (d : dict ndarray) :
  forall (names : list string) (m m' : glm),
    foldM (fun m name => x <- Dict.item name d ;; add_test_matrix B name x m) names m
    = Ret m' ->
    forall name, In name names ->
                 Dict.mem name (self_S m) = true
                 \/ Dict.mem "stimulus_s0" (self_S m) = true.
Proof.
  induction names as [|n t IH]; intros m m' H name Hin; simpl in H, Hin.
  - contradiction.
  - bind_inv H. bind_inv E.
    destruct Hin as [<- | Hin].
    + eapply add_test_matrix_needs_basis. eassumption.
    + apply add_test_matrix_fitted in E. destruct E as (Hf & _).
      assert (HS : self_S a = self_S m) by (unfold fitted in Hf; inversion Hf; congruence).
      rewrite <- HS. eapply IH; eassumption.
Qed.

(** X22.  Predictions need spline bases.  When the argument of
    [predict] names a filter that has no basis in [S] (and the subunit
    basis ['stimulus_s0'] is not there either), [predict] never
    returns, and neither does [score]: a model whose filters were all
    registered without [smooth] cannot be used for prediction. *)
Theorem predict_needs_spline_bases :
  forall (B : backend) (X : stimulus) (w_type : string) (m : glm) (name : string),
    In name (named_filters X) ->
    Dict.mem name (self_S m) = false ->
    Dict.mem "stimulus_s0" (self_S m) = false ->
    raises (predict B X w_type m)
    /\ forall y_test metric, raises (score B X y_test metric w_type m).
Proof.
  intros B X w_type m name Hin Hn H0.
  assert (Hp : forall X', named_filters X' = named_filters X ->
                          forall r, predict B X' w_type m <> Ret r).
  { intros X' HX' r H. unfold predict in H. cbv zeta in H. bind_inv H.
    assert (Hb : Dict.mem name (self_S m) = true
                 \/ Dict.mem "stimulus_s0" (self_S m) = true).
    { destruct X' as [x|d]; simpl in HX'; rewrite <- HX' in Hin.
      - destruct Hin as [<- | []].
        apply add_test_matrix_needs_basis in E0. exact E0.
      - apply (test_registrations_need_bases B d _ _ _ E0 name Hin). }
    destruct Hb; congruence. }
  split.
  - apply not_ret_raises. apply Hp. reflexivity.
  - intros y_test metric. apply not_ret_raises. intros r H.
    unfold score in H. bind_inv H.
    destruct X as [x|d]; revert E0; apply Hp; reflexivity.
Qed.

Lemma predict_needs_spline_bases_witness :
  fit still_backend session_fit_args demo_initialized = Ret demo_unsmoothed_fit
  /\ raises (predict still_backend (XArr (Arr1 [f1; f1])) "opt" demo_unsmoothed_fit)
  /\ forall y_test metric,
       raises (score still_backend (XArr (Arr1 [f1; f1])) y_test metric "opt"
                 demo_unsmoothed_fit).
Proof.
  split; [vm_compute; reflexivity|].
  apply (predict_needs_spline_bases still_backend (XArr (Arr1 [f1; f1])) "opt"
           demo_unsmoothed_fit "stimulus").
  - simpl. left. reflexivity.
  - vm_compute. reflexivity.
  - vm_compute. reflexivity.
Defined.

(** ** [fit]: what it leaves on the model *)

Lemma py_index_in (A : Type) (l : list A) (k : Z) (a : A) :
  py_index l k = Ret a -> In a l.
Proof.
  unfold py_index. intros H.
  destruct ((if (k <? 0)%Z then (k + Z.of_nat (length l))%Z else k) <? 0)%Z;
    [discriminate H|].
  unfold from_option in H.
  match type of H with
  | match nth_error l ?i with _ => _ end = _ => destruct (nth_error l i) eqn:E
  end; [|discriminate H].
  injection H as <-. eapply nth_error_In. eassumption.
Qed.

(** X23.  When [fit] returns, the parameter set stored as [p['opt']] is
    one of the snapshots retained in [all_params], of which there are
    at least one and at most [num_iters]; and the regularisation
    weights and the metric name are the ones the call was given. *)
Theorem fit_stores_a_retained_snapshot :
  forall (B : backend) (a : fit_args) (m m' : glm),
    fit B a m = Ret m' ->
    (exists popt, Dict.get "opt" (self_p m') = Some popt
                  /\ In popt (self_all_params m'))
    /\ 0 < length (self_all_params m') <= fa_num_iters a
    /\ self_alpha m' = Some (fa_alpha a)
    /\ self_beta m' = Some (fa_beta a)
    /\ self_metric m' = Some (fa_metric a).
Proof.
  intros B a m m' H. unfold fit in H. cbv zeta in H. bind_inv H.
  destruct a2 as [m2 run]. simpl in H.
  pose proof (optimize_lengths _ _ _ _ _ _ _ _ _ E1) as (Hexec & Hle & _ & _ & _ & _ & Hall).
  pose proof (optimize_inv _ _ _ _ _ _ _ _ _ E1)
    as (n & _ & _ & _ & Hidx & _).
  apply py_index_in in Hidx. rewrite <- Hall in Hidx.
  assert (Hkeep : self_alpha m' = self_alpha m2 /\ self_beta m' = self_beta m2
                  /\ self_metric m' = self_metric m2).
  { clear - H. unfold _extract_opt_params in H. cbv zeta in H. bind_inv H.
    fold_inv (fun s => self_alpha s = self_alpha m2 /\ self_beta s = self_beta m2
                       /\ self_metric s = self_metric m2).
    - destruct E as (Ha & Hb & Hm).
      unfold _get_filter_variance, _get_response_variance in H.
      run_inv; simpl;
        repeat match goal with
               | |- context [if ?b then _ else _] => destruct b
               end; simpl; repeat split; assumption.
    - intros s name s' Hs Hb. run_inv; exact Hs.
    - repeat split; reflexivity. }
  assert (Hopt : self_alpha m2 = Some (fa_alpha a) /\ self_beta m2 = Some (fa_beta a)
                 /\ self_metric m2 = Some (fa_metric a)).
  { clear - E E1. unfold optimize in E1. unfold store_response in E.
    run_inv; repeat split; reflexivity. }
  apply extract_opt_params_fitted in H. destruct H as [Hp Ha]. simpl in Hp, Ha.
  split; [|split].
  - exists (run_params run). rewrite Hp, Ha. split; [apply get_set_same | exact Hidx].
  - rewrite Ha, Hall, Hexec. lia.
  - destruct Hkeep as (-> & -> & ->). exact Hopt.
Qed.

Lemma fit_stores_a_retained_snapshot_witness :
  fit drift_backend demo_fit_args demo_initialized = Ret demo_fitted
  /\ (exists popt, Dict.get "opt" (self_p demo_fitted) = Some popt
                   /\ In popt (self_all_params demo_fitted))
  /\ 0 < length (self_all_params demo_fitted) <= 400
  /\ self_alpha demo_fitted = Some f1
  /\ self_beta demo_fitted = Some f0
  /\ self_metric demo_fitted = Some "mse".
Proof.
  assert (Hrun : fit drift_backend demo_fit_args demo_initialized = Ret demo_fitted)
    by (vm_compute; reflexivity).
  split; [exact Hrun|].
  exact (fit_stores_a_retained_snapshot drift_backend demo_fit_args demo_initialized
           demo_fitted Hrun).
Defined.

(** ** [initialize]: the parameter sets *)

Lemma foldM_covers (A S : Type) (body : S -> A -> outcome S) (done : S -> A -> Prop) :
  (forall s a s', body s a = Ret s' -> done s' a) ->
  (forall s a s' b, done s b -> body s a = Ret s' -> done s' b) ->
  forall l s s', foldM body l s = Ret s' -> forall a, In a l -> done s' a.
Proof.
  intros Hnew Hkeep. induction l as [|x t IH]; intros s s' H a Hin; simpl in H, Hin.
  - contradiction.
  - bind_inv H. destruct Hin as [<- | Hin].
    + apply (foldM_invariant _ _ (fun s => done s x) body) with (l := t) (s := a0).
      * intros s1 b s2 Hd Hb. eapply Hkeep; eassumption.
      * eapply Hnew. eassumption.
      * exact H.
    + eapply IH; eassumption.
Qed.

Lemma in_enumerate_from (A : Type) (l : list A) (a : A) :
  In a l -> forall k, exists i, In (i, a) (enumerate_from k l).
Proof.
  induction l as [|x t IH]; simpl; intros Hin k; [contradiction|].
  destruct Hin as [<- | Hin].
  - exists k. now left.
  - destruct (IH Hin (S k)) as [i Hi]. exists i. now right.
Qed.

(** X24.  When [initialize] returns, the initial parameter set [p0] and
    the parameter set [p[method]] both hold an entry for every filter
    name of the model, and the entry ['intercept'] as soon as there is
    one filter. *)
Theorem initialize_covers_every_filter :
  forall (B : backend) (a : init_args) (m m' : glm),
    initialize B a m = Ret m' ->
    exists p0,
      self_p0 m' = Some p0
      /\ forall name, In name (self_filter_names m') ->
           Dict.mem name p0 = true
           /\ Dict.mem "intercept" p0 = true
           /\ in_split (ia_method a) name (self_p m') = true
           /\ in_split (ia_method a) "intercept" (self_p m') = true.
Proof.
  intros B a m m' H. unfold initialize in H. bind_inv H.
  pose proof (collect_p0_hyper _ _ _ _ _ _ H) as (_ & _ & _ & Hnames).
  unfold collect_p0 in H. cbv zeta in H. bind_inv H.
  inversion H; subst; clear H. destruct a2 as [mf p0]. simpl in *.
  exists p0. split; [reflexivity|].
  intros name Hin. rewrite Hnames in Hin.
  destruct (in_enumerate_from _ _ _ Hin 0) as [i Hi].
  match type of E1 with
  | foldM ?body _ _ = _ =>
      assert (Hbody : forall s q j n s' q',
                 body (s, q) (j, n) = Ret (s', q') ->
                 (forall k, Dict.mem k q'
                            = String.eqb k "intercept"
                              || (String.eqb k n || Dict.mem k q))
                 /\ (forall k, in_split (ia_method a) k (self_p s')
                               = String.eqb k "intercept"
                                 || (String.eqb k n
                                     || in_split (ia_method a) k (self_p s))))
  end.
  { intros s q j n s' q' Hb. cbv beta iota in Hb.
    destruct (Dict.mem n (self_S s)); bind_inv Hb; inversion Hb; subst; clear Hb;
      (split; intros k; simpl; [rewrite !mem_set; reflexivity|]);
      match goal with
      | E2 : set2 _ "intercept" _ _ = Ret _, E3 : set2 _ n _ _ = Ret _ |- _ =>
          rewrite (in_split_set2 _ _ _ k _ _ _ E2); simpl;
          rewrite (in_split_set2 _ _ _ k _ _ _ E3); reflexivity
      end. }
  apply (foldM_covers _ _ _
           (fun (st : glm * params) (ia : nat * string) =>
              Dict.mem (snd ia) (snd st) = true
              /\ Dict.mem "intercept" (snd st) = true
              /\ in_split (ia_method a) (snd ia) (self_p (fst st)) = true
              /\ in_split (ia_method a) "intercept" (self_p (fst st)) = true))
    with (a := (i, name)) in E1.
  - exact E1.
  - intros [s q] [j n] [s' q'] Hb. apply Hbody in Hb. destruct Hb as [Hq Hp].
    simpl. rewrite !Hq, !Hp, !String.eqb_refl, ?orb_true_r. simpl.
    repeat split; reflexivity.
  - intros [s q] [j n] [s' q'] [j0 n0] (H1 & H2 & H3 & H4) Hb.
    apply Hbody in Hb. destruct Hb as [Hq Hp]. simpl in *.
    rewrite !Hq, !Hp, H1, H2, H3, H4, ?orb_true_r. repeat split; reflexivity.
  - exact Hi.
Qed.

Lemma initialize_covers_every_filter_witness :
  initialize still_backend (random_init 3) demo_train_dev = Ret demo_subunits
  /\ exists p0,
       self_p0 demo_subunits = Some p0
       /\ forall name, In name (self_filter_names demo_subunits) ->
            Dict.mem name p0 = true
            /\ Dict.mem "intercept" p0 = true
            /\ in_split "random" name (self_p demo_subunits) = true
            /\ in_split "random" "intercept" (self_p demo_subunits) = true.
Proof.
  assert (Hrun : initialize still_backend (random_init 3) demo_train_dev
                 = Ret demo_subunits) by (vm_compute; reflexivity).
  split; [exact Hrun|].
  exact (initialize_covers_every_filter still_backend (random_init 3) demo_train_dev
           demo_subunits Hrun).
Defined.

(** ** [cost]: the sign of the gaussian loss *)

Lemma square_not_negative (x : fnum) : fltb (fmul x x) f0 = false.
Proof.
  destruct x as [q| | |]; try reflexivity.
  cbn. unfold Qltb. apply negb_false_iff. apply Qle_bool_iff. nra.
Qed.

Lemma fadd_not_negative (x y : fnum) :
  fltb x f0 = false -> fltb y f0 = false -> fltb (fadd x y) f0 = false.
Proof.
  destruct x as [p| | |], y as [q| | |]; cbn; intros Hx Hy;
    try reflexivity; try discriminate.
  unfold Qltb in *. apply negb_false_iff in Hx, Hy. apply negb_false_iff.
  apply Qle_bool_iff in Hx, Hy. apply Qle_bool_iff. lra.
Qed.

Lemma vsum_not_negative (v : vec) :
  Forall (fun x => fltb x f0 = false) v -> fltb (vsum v) f0 = false.
Proof.
  unfold vsum.
  assert (Hgen : forall acc, fltb acc f0 = false ->
                             Forall (fun x => fltb x f0 = false) v ->
                             fltb (fold_left fadd v acc) f0 = false).
  { induction v as [|x t IH]; intros acc Hacc Hall; simpl; [exact Hacc|].
    inversion Hall; subst. apply IH; [|assumption].
    now apply fadd_not_negative. }
  apply Hgen. reflexivity.
Qed.

Lemma half_not_negative (x : fnum) :
  fltb x f0 = false -> fltb (fmul c_half x) f0 = false.
Proof.
  destruct x as [q| | |]; cbn; intros Hx; try reflexivity; try discriminate.
  unfold Qltb in *. apply negb_false_iff in Hx. apply negb_false_iff.
  apply Qle_bool_iff in Hx. apply Qle_bool_iff. lra.
Qed.

Lemma gaussian_loss_not_negative (yv r : vec) (c : fnum) :
  gaussian_loss yv r = Ret c -> fltb c f0 = false.
Proof.
  unfold gaussian_loss. intros H. bind_inv H. injection H as <-.
  apply half_not_negative, vsum_not_negative.
  apply Forall_map, Forall_forall. intros x _. apply square_not_negative.
Qed.

(** X25.  For the gaussian distribution the unpenalised cost is never
    negative: whenever [cost] returns a value [c] with
    [penalize=False], the comparison [c < 0] is false ([c] is a
    non-negative number, [+inf] or NaN). *)
Theorem gaussian_cost_is_not_negative :
  forall (B : backend) (m : glm) (p : params) (kind : string)
         (precomputed : option vec) (c : fnum),
    self_distr m = "gaussian" ->
    cost B m p kind precomputed false = Ret c ->
    fltb c f0 = false /\ c <> NInf.
Proof.
  intros B m p kind precomputed c Hd H. unfold cost in H. rewrite Hd in H.
  cbv zeta in H. simpl in H. bind_inv H. injection H as <-.
  apply gaussian_loss_not_negative in E1.
  split; [exact E1|]. intros ->. discriminate E1.
Qed.

Lemma gaussian_cost_is_not_negative_witness :
  cost still_backend demo_ready_dev demo_p0 "dev" None false = Ret demo_dev_cost
  /\ fltb demo_dev_cost f0 = false /\ demo_dev_cost <> NInf.
Proof.
  assert (Hrun : cost still_backend demo_ready_dev demo_p0 "dev" None false
                 = Ret demo_dev_cost) by (vm_compute; reflexivity).
  split; [exact Hrun|].
  apply (gaussian_cost_is_not_negative still_backend demo_ready_dev demo_p0 "dev"
           None demo_dev_cost).
  - vm_compute. reflexivity.
  - exact Hrun.
Defined.

(** ** [forwardpass]: the shape of the output *)

Lemma fnl_length (B : backend) (x y : vec) (kind : string) :
  fnl B x kind = Ret y -> length y = length x.
Proof.
  unfold fnl. intros H.
  repeat match type of H with
         | (if ?b then _ else _) = _ => destruct b
         end;
    try discriminate H; injection H as <-; rewrite ?length_map; reflexivity.
Qed.

Lemma length_flatten_matmul (A Bm C : matrix) :
  matmul A Bm = Ret C -> length (flatten C) = nrows A * ncols Bm.
Proof.
  unfold matmul. destruct (ncols A =? nrows Bm); [|discriminate].
  intros H. injection H as <-. unfold flatten, nrows. simpl.
  induction (rows A) as [|r t IH]; simpl; [reflexivity|].
  rewrite length_app, IH, length_map, length_seq. reflexivity.
Qed.

Lemma mapM_in (A C : Type) (f : A -> outcome C) :
  forall (l : list A) (bs : list C),
    mapM f l = Ret bs ->
    forall a, In a l -> exists b, f a = Ret b /\ In b bs.
Proof.
  induction l as [|x t IH]; intros bs H a Hin; simpl in H, Hin; [contradiction|].
  bind_inv H. injection H as <-. destruct Hin as [<- | Hin].
  - exists a0. split; [assumption | now left].
  - destruct (IH _ E0 a Hin) as (b & Hb & Hbs). exists b. split; [assumption | now right].
Qed.

Lemma length_zip_with (A C D : Type) (f : A -> C -> D) (l : list A) (l' : list C) :
  length l = length l' -> length (zip_with f l l') = length l.
Proof.
  revert l'. induction l as [|a t IH]; intros [|b t'] H; simpl in *;
    try reflexivity; try discriminate.
  now rewrite IH by lia.
Qed.

Lemma sum_outputs_length (outs : list vec) (total : vec) :
  sum_outputs outs = Ret total ->
  forall o, In o outs -> length o = length total.
Proof.
  destruct outs as [|o0 t]; simpl; intros H o Hin; [contradiction|].
  assert (Hgen : forall (l : list vec) (acc res : vec),
             foldM (fun acc v => if length acc =? length v
                                 then Ret (zip_with fadd acc v)
                                 else Raise (ValueError "inhomogeneous shape")) l acc
             = Ret res ->
             length res = length acc /\ forall v, In v l -> length v = length acc).
  { induction l as [|v l IH]; intros acc res Hf; simpl in Hf.
    - injection Hf as <-. split; [reflexivity | intros v []].
    - bind_inv Hf. destruct (Nat.eqb_spec (length acc) (length v)) as [He|];
        [|discriminate E].
      injection E as <-. apply IH in Hf. destruct Hf as [Hr Hl].
      rewrite length_zip_with in Hr, Hl by exact He.
      split; [exact Hr|]. intros w [<- | Hw]; [now symmetry | now apply Hl]. }
  apply Hgen in H. destruct H as [Hr Hl].
  destruct Hin as [<- | Hin]; [now symmetry|]. rewrite Hr. now apply Hl.
Qed.

(** X26.  The forward pass returns one value per sample.  When it
    returns, a filter of the split whose coefficients form a single
    column fixes the length of the output: it is the number of rows of
    that filter's design matrix (the projected one when the filter has a
    spline basis). *)
Theorem forwardpass_output_length :
  forall (B : backend) (m : glm) (p : params) (kind : string) (y : vec)
         (Xk : dict matrix) (name : string) (M a : matrix),
    forwardpass B m p kind = Ret y ->
    Dict.get kind (self_X m) = Some Xk ->
    In name (Dict.keys Xk) ->
    (if Dict.mem name (self_S m) then item2 kind name (self_XS m)
     else item2 kind name (self_X m)) = Ret M ->
    p_array name p = Ret a ->
    ncols a = 1 ->
    length y = nrows M.
Proof.
  intros B m p kind y Xk name M a H HX Hin HM Hp Hcol.
  unfold forwardpass in H. bind_inv H.
  apply fnl_length in H. rewrite length_map in H.
  unfold Dict.item in E0. rewrite HX in E0. injection E0 as <-.
  destruct (mapM_in _ _ _ _ _ E1 name Hin) as (out & Hout & Hin').
  rewrite H, <- (sum_outputs_length _ _ E2 out Hin').
  unfold filter_output in Hout. rewrite HM, Hp in Hout. simpl in Hout.
  bind_inv Hout. apply fnl_length in Hout. rewrite length_map in Hout.
  rewrite Hout, (length_flatten_matmul _ _ _ E0), Hcol. lia.
Qed.

Lemma forwardpass_output_length_witness :
  forwardpass spline_backend (fst demo_predicted) demo_opt "test"
  = Ret (snd demo_predicted)
  /\ length (snd demo_predicted) = nrows demo_test_projected.
Proof.
  assert (Hrun : forwardpass spline_backend (fst demo_predicted) demo_opt "test"
                 = Ret (snd demo_predicted)) by (vm_compute; reflexivity).
  split; [exact Hrun|].
  apply (forwardpass_output_length spline_backend (fst demo_predicted) demo_opt "test"
           (snd demo_predicted) demo_test_split "stimulus" demo_test_projected
           demo_opt_stimulus).
  - exact Hrun.
  - vm_compute. reflexivity.
  - vm_compute. left. reflexivity.
  - vm_compute. reflexivity.
  - vm_compute. reflexivity.
  - vm_compute. reflexivity.
Defined.
